(** * wayr: process snapshots, ancestry, port resolution and source
      classification

    A shallow embedding of [wayr.py].  Python [str] values are modelled
    as [string], whose characters stand for the code points below 256;
    [int] is [Z]; a [datetime] is the number of microseconds since the
    epoch, as a [Z]; [Optional] is [option]; a [dict] is a [gmap].
    Whatever the operating system answers (files under /proc, external
    commands, the clock) is an oracle of the world the functions run in. *)

From Stdlib Require Import ZArith NArith Ascii String List Bool Lia DecimalString.
From Stdlib Require DecimalPos DecimalFacts.
From stdpp Require Import base option list strings gmap.

Local Open Scope string_scope.
Local Open Scope Z_scope.

(** ** Python's string primitives *)

Module Py.

Definition code (c : ascii) : N := N_of_ascii c.

Definition between (lo hi : N) (c : ascii) : bool :=
  (lo <=? code c)%N && (code c <=? hi)%N.

(** [str.isspace] on one character, which is also the regex class [\s]:
    tab to carriage return, the four separators 0x1c-0x1f, the space,
    NEL and the no-break space. *)
Definition isspace (c : ascii) : bool :=
  between 9 13 c || between 28 32 c || (code c =? 133)%N || (code c =? 160)%N.

(** The regex class [\d] and the digits [int] accepts. *)
Definition isdecimal (c : ascii) : bool := between 48 57 c.

(** [str.isdigit] on one character: decimal digits and the superscripts
    one, two and three. *)
Definition isdigit_char (c : ascii) : bool :=
  isdecimal c || (code c =? 178)%N || (code c =? 179)%N || (code c =? 185)%N.

Fixpoint all_chars (p : ascii -> bool) (s : string) : bool :=
  match s with
  | EmptyString => true
  | String c r => p c && all_chars p r
  end.

Definition is_empty (s : string) : bool :=
  match s with EmptyString => true | _ => false end.

(** [s.isdigit()] *)
Definition isdigit (s : string) : bool :=
  negb (is_empty s) && all_chars isdigit_char s.

Fixpoint rev_app (s acc : string) : string :=
  match s with
  | EmptyString => acc
  | String c r => rev_app r (String c acc)
  end.

Definition rev (s : string) : string := rev_app s "".

Fixpoint lstrip (s : string) : string :=
  match s with
  | EmptyString => ""
  | String c r => if isspace c then lstrip r else s
  end.

Definition rstrip (s : string) : string := rev (lstrip (rev s)).

(** [s.strip()] *)
Definition strip (s : string) : string := rstrip (lstrip s).

(** [s.startswith(p)] *)
Fixpoint startswith (p s : string) : bool :=
  match p, s with
  | EmptyString, _ => true
  | String a p', String b s' => Ascii.eqb a b && startswith p' s'
  | String _ _, EmptyString => false
  end.

(** [sub in s] *)
Fixpoint contains (sub s : string) : bool :=
  startswith sub s ||
  match s with
  | EmptyString => false
  | String _ r => contains sub r
  end.

(** [c in s] for a single character *)
Fixpoint has_char (c : ascii) (s : string) : bool :=
  match s with
  | EmptyString => false
  | String a r => Ascii.eqb a c || has_char c r
  end.

(** [s.split()]: the maximal runs of non-space characters.  [cur] is the
    run being read, reversed. *)
Fixpoint split_go (cur s : string) : list string :=
  match s with
  | EmptyString => if is_empty cur then [] else [rev cur]
  | String c r =>
      if isspace c
      then (if is_empty cur then split_go "" r else rev cur :: split_go "" r)
      else split_go (String c cur) r
  end.

Definition split (s : string) : list string := split_go "" s.

(** [s.split(None, n)]: at most [n] splits; what is left after the
    [n]-th field, without its leading spaces, is the last field. *)
Fixpoint take_field (s : string) : string * string :=
  match s with
  | EmptyString => ("", "")
  | String c r =>
      if isspace c then ("", s)
      else let '(w, rest) := take_field r in (String c w, rest)
  end.

Fixpoint split_max (n : nat) (fuel : nat) (s : string) : list string :=
  match fuel with
  | O => []
  | S fuel' =>
      let s' := lstrip s in
      if is_empty s' then []
      else match n with
           | O => [s']
           | S n' => let '(w, rest) := take_field s' in
                     w :: split_max n' fuel' rest
           end
  end.

Definition split_n (n : nat) (s : string) : list string :=
  split_max n (S n) s.

(** [s.split(sep)] for a one-character separator: every occurrence
    splits, empty fields are kept, the result is never empty. *)
Fixpoint split_on_go (sep : ascii) (cur s : string) : list string :=
  match s with
  | EmptyString => [rev cur]
  | String c r =>
      if Ascii.eqb c sep then rev cur :: split_on_go sep "" r
      else split_on_go sep (String c cur) r
  end.

Definition split_on (sep : ascii) (s : string) : list string :=
  split_on_go sep "" s.

(** [s.split(sep, 1)] *)
Fixpoint split_once_go (sep : ascii) (cur s : string) : list string :=
  match s with
  | EmptyString => [rev cur]
  | String c r =>
      if Ascii.eqb c sep then [rev cur; r]
      else split_once_go sep (String c cur) r
  end.

Definition split_once (sep : ascii) (s : string) : list string :=
  split_once_go sep "" s.

(** [s.replace(a, b)] for single characters *)
Fixpoint replace_char (a b : ascii) (s : string) : string :=
  match s with
  | EmptyString => ""
  | String c r => String (if Ascii.eqb c a then b else c) (replace_char a b r)
  end.

(** [sep.join(l)] *)
Fixpoint join (sep : string) (l : list string) : string :=
  match l with
  | [] => ""
  | [x] => x
  | x :: r => x +:+ sep +:+ join sep r
  end.

(** [s.upper()] on the ASCII letters.  The upper case of a character
    above 127 is left as it is: the only use compares the result with a
    string of hexadecimal digits, which no such character equals. *)
Definition upper_char (c : ascii) : ascii :=
  if between 97 122 c then ascii_of_N (code c - 32) else c.

Fixpoint upper (s : string) : string :=
  match s with
  | EmptyString => ""
  | String c r => String (upper_char c) (upper r)
  end.

(** [s.splitlines()]: the line boundaries below 256 are LF, VT, FF, CR,
    CR LF, FS, GS, RS and NEL; no empty last line. *)
Definition is_linebreak (c : ascii) : bool :=
  between 10 13 c || between 28 30 c || (code c =? 133)%N.

Fixpoint splitlines_go (cur s : string) : list string :=
  match s with
  | EmptyString => if is_empty cur then [] else [rev cur]
  | String c r =>
      if is_linebreak c then
        rev cur ::
        match r with
        | String d r' =>
            if (code c =? 13)%N && (code d =? 10)%N
            then splitlines_go "" r'
            else splitlines_go "" r
        | EmptyString => []
        end
      else splitlines_go (String c cur) r
  end.

Definition splitlines (s : string) : list string := splitlines_go "" s.

(** The lines [for line in f] yields, without their terminators (which
    [split] and [startswith] never look at): a text file is cut at each
    LF, and a final LF ends the last line instead of opening a new one. *)
Fixpoint file_lines_go (cur s : string) : list string :=
  match s with
  | EmptyString => if is_empty cur then [] else [rev cur]
  | String c r =>
      if (code c =? 10)%N then rev cur :: file_lines_go "" r
      else file_lines_go (String c cur) r
  end.

Definition file_lines (s : string) : list string := file_lines_go "" s.

(** [os.path.basename]: what follows the last slash. *)
Definition basename (p : string) : string :=
  List.last (split_on "/"%char p) "".

(** [str(n)] *)
Definition str (n : Z) : string := NilZero.string_of_int (Z.to_int n).

(** The value of a digit in base at most 16. *)
Definition digit_value (c : ascii) : option Z :=
  if between 48 57 c then Some (Z.of_N (code c) - 48)
  else if between 97 102 c then Some (Z.of_N (code c) - 87)
  else if between 65 70 c then Some (Z.of_N (code c) - 55)
  else None.

Definition is_underscore (c : ascii) : bool := (code c =? 95)%N.

(** The digits of an integer literal in [base], read left to right.  A
    single underscore may stand between two digits: [no_us] tells that
    the next character may not be one (at the start, and right after an
    underscore); [seen] that a digit has been read. *)
Fixpoint digits (base : Z) (acc : Z) (seen no_us : bool) (s : string) : option Z :=
  match s with
  | EmptyString => if seen && negb no_us then Some acc else None
  | String c r =>
      if is_underscore c then
        if no_us then None else digits base acc seen true r
      else
        match digit_value c with
        | Some d => if d <? base then digits base (base * acc + d) true false r
                    else None
        | None => None
        end
  end.

(** In base 16 a prefix 0x or 0X is skipped, and one underscore after
    it. *)
Definition unsigned_literal (base : Z) (s : string) : option Z :=
  match s with
  | String c0 (String c1 r) =>
      if (base =? 16) && (code c0 =? 48)%N && ((code c1 =? 120)%N || (code c1 =? 88)%N)
      then match r with
           | String c2 r' => if is_underscore c2 then digits base 0 false true r'
                             else digits base 0 false true r
           | EmptyString => None
           end
      else digits base 0 false true s
  | _ => digits base 0 false true s
  end.

(** The white space [int] skips before and after a literal: tab to
    carriage return and the space, and the white space above 127 (NEL
    and the no-break space), which is turned into spaces first.  The
    separators 0x1c-0x1f are white space for [str.isspace] and
    [str.strip], but [int] does not skip them. *)
Definition int_space (c : ascii) : bool :=
  between 9 13 c || (code c =? 32)%N || (code c =? 133)%N || (code c =? 160)%N.

Fixpoint lstrip_int (s : string) : string :=
  match s with
  | EmptyString => ""
  | String c r => if int_space c then lstrip_int r else s
  end.

Definition strip_int (s : string) : string :=
  rev (lstrip_int (rev (lstrip_int s))).

(** The digits of a literal: its characters but for the underscores. *)
Fixpoint digit_count (s : string) : N :=
  match s with
  | EmptyString => 0%N
  | String c r => if is_underscore c then digit_count r else N.succ (digit_count r)
  end.

(** [sys.get_int_max_str_digits()], as the interpreter starts: in a
    base that is no power of two, a literal with more digits is a
    [ValueError]. *)
Definition int_max_str_digits : N := 4300.

Definition limited_literal (base : Z) (s : string) : option Z :=
  if (base =? 16) || (digit_count s <=? int_max_str_digits)%N
  then unsigned_literal base s
  else None.

(** [int(s, base)] for base 10 or 16: [None] is [ValueError]. *)
Definition int_base (base : Z) (s : string) : option Z :=
  match strip_int s with
  | String c r =>
      if (code c =? 45)%N then Z.opp <$> limited_literal base r
      else if (code c =? 43)%N then limited_literal base r
      else limited_literal base (String c r)
  | EmptyString => None
  end.

Definition int (s : string) : option Z := int_base 10 s.
Definition int16 (s : string) : option Z := int_base 16 s.

(** [s[i:j]] for [0 <= i <= j] *)
Fixpoint drop (n : nat) (s : string) : string :=
  match n, s with
  | O, _ => s
  | S n', String _ r => drop n' r
  | S _, EmptyString => ""
  end.

Fixpoint take (n : nat) (s : string) : string :=
  match n, s with
  | O, _ => ""
  | S n', String c r => String c (take n' r)
  | S _, EmptyString => ""
  end.

Definition slice (i j : nat) (s : string) : string := take (j - i) (drop i s).

(** Upper-case hexadecimal digits of a natural number, most significant
    first. *)
Definition hex_digit (d : Z) : ascii :=
  if d <? 10 then ascii_of_N (Z.to_N (48 + d)) else ascii_of_N (Z.to_N (55 + d)).

Fixpoint hex_go (fuel : nat) (n : Z) (acc : string) : string :=
  match fuel with
  | O => acc
  | S f =>
      let acc' := String (hex_digit (n mod 16)) acc in
      if n / 16 =? 0 then acc' else hex_go f (n / 16) acc'
  end.

Definition hex (n : Z) : string := hex_go (S (Z.to_nat (Z.log2 n))) n "".

Fixpoint zeros (n : nat) : string :=
  match n with O => "" | S n' => String "0"%char (zeros n') end.

Definition zfill (w : nat) (s : string) : string :=
  zeros (w - String.length s) +:+ s.

(** [f"{n:04X}"]: the sign comes first and counts in the width. *)
Definition format_04X (n : Z) : string :=
  if n <? 0 then "-" +:+ zfill 3 (hex (- n)) else zfill 4 (hex n).

End Py.


(** ** Exceptions *)

(** The exceptions the modelled code can meet; all of them derive from
    [Exception]. *)
Inductive exn : Type :=
  | FileNotFoundError
  | PermissionError
  | OSError
  | UnicodeDecodeError
  | ValueError
  | IndexError
  | KeyError
  | ZeroDivisionError
  | OverflowError
  | CalledProcessError (returncode : Z) (stdout stderr : string).

Inductive Result (A : Type) : Type :=
  | Ok (a : A)
  | Raise (e : exn).
Arguments Ok {A} a.
Arguments Raise {A} e.

Global Instance Result_ret : MRet Result := fun A a => Ok a.
Global Instance Result_bind : MBind Result := fun A B k c =>
  match c with
  | Ok a => k a
  | Raise e => Raise e
  end.

(** [try: c  except: h] *)
Definition try_except {A} (c : Result A) (h : exn -> Result A) : Result A :=
  match c with
  | Ok a => Ok a
  | Raise e => h e
  end.

(** [try: x = c  except: x = d], whose handler cannot raise *)
Definition attempt {A} (c : Result A) (d : A) : A :=
  match c with
  | Ok a => a
  | Raise _ => d
  end.

(** An operation that fails with [e] when it has no value *)
Definition or_raise {A} (e : exn) (o : option A) : Result A :=
  match o with
  | Some a => Ok a
  | None => Raise e
  end.

(** [l[i]] and [int(s)] as the fallible operations they are *)
Definition item {A} (l : list A) (i : nat) : Result A := or_raise IndexError (l !! i).
Definition int_of (s : string) : Result Z := or_raise ValueError (Py.int s).
Definition int16_of (s : string) : Result Z := or_raise ValueError (Py.int16 s).

(** ** The data model *)

(** The dataclass [ProcessInfo]; the fields come in the order of the
    class, which is the order [==] compares them in. *)
#[warnings="-register-all"] Inductive ProcessInfo : Type := mkProcessInfo {
  pid : Z;
  name : string;
  ppid : Z;
  user : string;
  cmd : string;
  start_time : Z;
  cwd : option string;
  restart_count : Z;
  rss_kb : Z;
  source : option string;
  source_detail : option string;
  git_repo : option string;
  git_branch : option string;
  container_name : option string;
  container_image : option string;
  listening_addresses : list string;
  env_vars : gmap string string;
  ancestry : list ProcessInfo;
  children : list ProcessInfo
}.

(** [ProcessInfo(pid=.., name=.., ppid=.., user=.., cmd=.., start_time=..,
    cwd=.., rss_kb=.., env_vars=..)]: the other fields take their
    defaults. *)
Definition new_ProcessInfo (pid : Z) (name : string) (ppid : Z) (user cmd : string)
    (start_time : Z) (cwd : option string) (rss_kb : Z)
    (env_vars : gmap string string) : ProcessInfo :=
  mkProcessInfo pid name ppid user cmd start_time cwd 0 rss_kb
                None None None None None None [] env_vars [] [].

Definition set_source (v : option string) (p : ProcessInfo) : ProcessInfo :=
  let 'mkProcessInfo a b c d e f g h i _ k l m n o q r s t := p in
  mkProcessInfo a b c d e f g h i v k l m n o q r s t.

Definition set_source_detail (v : option string) (p : ProcessInfo) : ProcessInfo :=
  let 'mkProcessInfo a b c d e f g h i j _ l m n o q r s t := p in
  mkProcessInfo a b c d e f g h i j v l m n o q r s t.

Definition set_container_name (v : option string) (p : ProcessInfo) : ProcessInfo :=
  let 'mkProcessInfo a b c d e f g h i j k l m _ o q r s t := p in
  mkProcessInfo a b c d e f g h i j k l m v o q r s t.

Definition set_container_image (v : option string) (p : ProcessInfo) : ProcessInfo :=
  let 'mkProcessInfo a b c d e f g h i j k l m n _ q r s t := p in
  mkProcessInfo a b c d e f g h i j k l m n v q r s t.

Definition set_listening_addresses (v : list string) (p : ProcessInfo) : ProcessInfo :=
  let 'mkProcessInfo a b c d e f g h i j k l m n o _ r s t := p in
  mkProcessInfo a b c d e f g h i j k l m n o v r s t.

Definition set_ancestry (v : list ProcessInfo) (p : ProcessInfo) : ProcessInfo :=
  let 'mkProcessInfo a b c d e f g h i j k l m n o q r _ t := p in
  mkProcessInfo a b c d e f g h i j k l m n o q r v t.

(** [==] on two lists, given [==] on their elements *)
Definition list_eqb {A} (eqb : A -> A -> bool) : list A -> list A -> bool :=
  fix go (l1 l2 : list A) : bool :=
    match l1, l2 with
    | [], [] => true
    | x :: l1', y :: l2' => eqb x y && go l1' l2'
    | _, _ => false
    end.

Definition option_eqb {A} (eqb : A -> A -> bool) (a b : option A) : bool :=
  match a, b with
  | None, None => true
  | Some x, Some y => eqb x y
  | _, _ => false
  end.

(** The [__eq__] the dataclass decorator generates: the tuples of all
    the fields are compared. *)
Fixpoint ProcessInfo_eqb (p q : ProcessInfo) {struct p} : bool :=
  match p, q with
  | mkProcessInfo a1 b1 c1 d1 e1 f1 g1 h1 i1 j1 k1 l1 m1 n1 o1 q1 r1 s1 t1,
    mkProcessInfo a2 b2 c2 d2 e2 f2 g2 h2 i2 j2 k2 l2 m2 n2 o2 q2 r2 s2 t2 =>
      (a1 =? a2) && String.eqb b1 b2 && (c1 =? c2) && String.eqb d1 d2 &&
      String.eqb e1 e2 && (f1 =? f2) && option_eqb String.eqb g1 g2 &&
      (h1 =? h2) && (i1 =? i2) &&
      option_eqb String.eqb j1 j2 && option_eqb String.eqb k1 k2 &&
      option_eqb String.eqb l1 l2 && option_eqb String.eqb m1 m2 &&
      option_eqb String.eqb n1 n2 && option_eqb String.eqb o1 o2 &&
      list_eqb String.eqb q1 q2 && bool_decide (r1 = r2) &&
      list_eqb ProcessInfo_eqb s1 s2 && list_eqb ProcessInfo_eqb t1 t2
  end.

(** [x in l] *)
Definition mem {A} (eqb : A -> A -> bool) (x : A) (l : list A) : bool :=
  existsb (eqb x) l.

(** ** The world *)

Inductive Platform : Type := Darwin | Linux | OtherSystem.

(** What the operating system answers at one instant.  The floating
    point computation of the Linux start time,
    [now - timedelta(seconds=float(u) - ticks / hz)], is an oracle as a
    whole: [float_start_time u ticks hz]. *)
Record Instant : Type := {
  read_file : string -> Result string;
  owner_name : string -> Result string;
  readlink : string -> Result string;
  iterdir : string -> Result (list string);
  is_dir : string -> bool;
  path_exists : string -> bool;
  sysconf_clk_tck : Result Z;
  now : Z;
  float_start_time : string -> Z -> Z -> Result Z;
  subprocess_run : list string -> Result (Z * string * string)
}.

(** The platform the tool runs on, and the system's answers at each
    tick of a clock that the callers of the snapshot provider advance. *)
Record World : Type := {
  platform : Platform;
  at_tick : nat -> Instant
}.

Definition IS_MACOS (w : World) : bool :=
  match platform w with Darwin => true | _ => false end.
Definition IS_LINUX (w : World) : bool :=
  match platform w with Linux => true | _ => false end.

(** [run_command(cmd)]: the return code and the two outputs; a missing
    executable is return code 1. *)
Definition run_command (os : Instant) (cmd : list string) : Result (Z * string * string) :=
  try_except (subprocess_run os cmd)
    (fun e => match e with
              | CalledProcessError rc out err => Ok (rc, out, err)
              | FileNotFoundError =>
                  c0 ← item cmd 0; Ok (1, "", "Command not found: " +:+ c0)
              | _ => Raise e
              end).

(** ** The snapshot provider *)

(** The leading characters that satisfy [p], and the rest *)
Fixpoint span (p : ascii -> bool) (s : string) : string * string :=
  match s with
  | EmptyString => ("", "")
  | String c r =>
      if p c then let '(a, b) := span p r in (String c a, b)
      else ("", s)
  end.

(** [\) (\S) (\d+)] at the head of [s]: the state and the parent pid *)
Definition stat_tail (s : string) : option (string * string) :=
  match s with
  | String c0 (String c1 (String st (String c3 r))) =>
      if Ascii.eqb c0 ")" && Ascii.eqb c1 " " && negb (Py.isspace st) && Ascii.eqb c3 " "
      then let '(d, _) := span Py.isdecimal r in
           if Py.is_empty d then None else Some (String st "", d)
      else None
  | _ => None
  end.

(** [(.+?)] followed by [stat_tail]: the shortest non-empty run of
    characters other than a newline after which the tail matches.
    [acc] is the run read so far, reversed. *)
Fixpoint lazy_name (acc s : string) : option (string * string * string) :=
  match s with
  | EmptyString => None
  | String c r =>
      match (if Py.is_empty acc then None else stat_tail s) with
      | Some (st, pp) => Some (Py.rev acc, st, pp)
      | None =>
          if (Py.code c =? 10)%N then None else lazy_name (String c acc) r
      end
  end.

(** [re.match(r'^(\d+) \((.+?)\) (\S) (\d+)', stat)]: the four groups *)
Definition match_stat (stat : string) : option (string * string * string * string) :=
  let '(d, r) := span Py.isdecimal stat in
  if Py.is_empty d then None
  else match r with
       | String c0 (String c1 r') =>
           if Ascii.eqb c0 " " && Ascii.eqb c1 "("
           then '(nm, st, pp) ← lazy_name "" r'; Some (d, nm, st, pp)
           else None
       | _ => None
       end.

Definition proc_path (pid : Z) (leaf : string) : string :=
  "/proc/" +:+ Py.str pid +:+ leaf.

Definition bracketed (s : string) : string := "[" +:+ s +:+ "]".

(** The command line: NULs become spaces; [[name]] when it is empty or
    unreadable *)
Definition linux_cmdline_lookup (os : Instant) (pid : Z) (name : string) : Result string :=
  raw ← read_file os (proc_path pid "/cmdline");
  let cmdline := Py.strip (Py.replace_char "000" " " raw) in
  Ok (if Py.is_empty cmdline then bracketed name else cmdline).

Definition linux_cmdline (os : Instant) (pid : Z) (name : string) : string :=
  attempt (linux_cmdline_lookup os pid name) (bracketed name).

(** The owner of /proc/pid, [unknown] when the lookup fails *)
Definition linux_user_lookup (os : Instant) (pid : Z) : Result string :=
  owner_name os (proc_path pid "").

Definition linux_user (os : Instant) (pid : Z) : string :=
  attempt (linux_user_lookup os pid) "unknown".

(** The start time: field 22 of stat is at index 19 after the last
    closing parenthesis; [now()] when anything fails *)
Definition linux_start_time_lookup (os : Instant) (pid : Z) : Result Z :=
  up ← read_file os "/proc/uptime";
  u0 ← item (Py.split up) 0;
  stat ← read_file os (proc_path pid "/stat");
  let stat_fields := Py.split (List.last (Py.split_on ")" stat) "") in
  f19 ← item stat_fields 19;
  starttime_ticks ← int_of f19;
  ticks_per_second ← sysconf_clk_tck os;
  float_start_time os u0 starttime_ticks ticks_per_second.

Definition linux_start_time (os : Instant) (pid : Z) : Z :=
  attempt (linux_start_time_lookup os pid) (now os).

(** The resident memory: the first line of status that starts with
    VmRSS: decides; 0 when there is none or anything fails *)
Fixpoint first_vmrss (lines : list string) : Result Z :=
  match lines with
  | [] => Ok 0
  | line :: rest =>
      if Py.startswith "VmRSS:" line
      then (f1 ← item (Py.split line) 1; int_of f1)
      else first_vmrss rest
  end.

Definition linux_rss_lookup (os : Instant) (pid : Z) : Result Z :=
  status ← read_file os (proc_path pid "/status");
  first_vmrss (Py.file_lines status).

Definition linux_rss_kb (os : Instant) (pid : Z) : Z :=
  attempt (linux_rss_lookup os pid) 0.

(** The working directory, [None] when the link cannot be read *)
Definition linux_cwd_lookup (os : Instant) (pid : Z) : Result (option string) :=
  l ← readlink os (proc_path pid "/cwd"); Ok (Some l).

Definition linux_cwd (os : Instant) (pid : Z) : option string :=
  attempt (linux_cwd_lookup os pid) None.

(** [key, value = item.split('=', 1)] for each item with an equals
    sign *)
Fixpoint environ_items (items : list string) (env : gmap string string) : gmap string string :=
  match items with
  | [] => env
  | it :: rest =>
      if Py.has_char "=" it
      then match Py.split_once "=" it with
           | [key; value] => environ_items rest (<[key := value]> env)
           | _ => environ_items rest env
           end
      else environ_items rest env
  end.

(** The environment, empty when the file cannot be read *)
Definition linux_env_lookup (os : Instant) (pid : Z) : Result (gmap string string) :=
  env_data ← read_file os (proc_path pid "/environ");
  Ok (environ_items (Py.split_on "000" env_data) ∅).

Definition linux_env_vars (os : Instant) (pid : Z) : gmap string string :=
  attempt (linux_env_lookup os pid) ∅.

Definition get_process_info_linux (os : Instant) (pid : Z) : Result (option ProcessInfo) :=
  try_except
    (stat ← read_file os (proc_path pid "/stat");
     match match_stat stat with
     | None => Ok None
     | Some (pid_parsed, name, state, ppid_s) =>
         ppid ← int_of ppid_s;
         let cmdline := linux_cmdline os pid name in
         let user := linux_user os pid in
         let start_time := linux_start_time os pid in
         let rss_kb := linux_rss_kb os pid in
         let cwd := linux_cwd os pid in
         let env_vars := linux_env_vars os pid in
         Ok (Some (new_ProcessInfo pid name ppid user cmdline start_time cwd
                                   rss_kb env_vars))
     end)
    (fun _ => Ok None).

(** [timedelta(seconds=n)] exists for at most 999999999 days either
    way, and a [datetime] lies between the years 1 and 9999:
    [now - timedelta(seconds=n)] raises [OverflowError] otherwise. *)
Definition timedelta_ok (n : Z) : bool :=
  (- (999999999 * 86400) <=? n) && (n <=? 999999999 * 86400 + 86399).

Definition datetime_min : Z := - 62135596800 * 1000000.
Definition datetime_max : Z := 253402300799 * 1000000 + 999999.

Definition datetime_sub_seconds (t n : Z) : Result Z :=
  if timedelta_ok n then
    let r := t - n * 1000000 in
    if (datetime_min <=? r) && (r <=? datetime_max) then Ok r
    else Raise OverflowError
  else Raise OverflowError.

(** [parse_elapsed_time_macos]: [[dd-]hh:]mm:ss before now; now itself
    when the text does not parse *)
Definition elapsed_lookup (os : Instant) (etime : string) : Result Z :=
  let parts := Py.split_on "-" etime in
  '(days, time_part) ←
     (if (length parts =? 2)%nat
      then (p0 ← item parts 0; d ← int_of p0; p1 ← item parts 1; Ok (d, p1))
      else (p0 ← item parts 0; Ok (0, p0)));
  let time_components := Py.split_on ":" time_part in
  '(hours, minutes, seconds) ←
     match time_components with
     | [a; b; c] => h ← int_of a; m ← int_of b; s ← int_of c; Ok (h, m, s)
     | [a; b] => m ← int_of a; s ← int_of b; Ok (0, m, s)
     | _ => c0 ← item time_components 0; s ← int_of c0; Ok (0, 0, s)
     end;
  let total_seconds := days * 86400 + hours * 3600 + minutes * 60 + seconds in
  datetime_sub_seconds (now os) total_seconds.

Definition parse_elapsed_time_macos (os : Instant) (etime : string) : Z :=
  attempt (elapsed_lookup os etime) (now os).

(** The first line lsof tags with n, without the tag *)
Fixpoint first_n_line (lines : list string) : option string :=
  match lines with
  | [] => None
  | line :: rest =>
      if Py.startswith "n" line then Some (Py.drop 1 line)
      else first_n_line rest
  end.

Fixpoint macos_env_lines (lines : list string) (env : gmap string string) : gmap string string :=
  match lines with
  | [] => env
  | line :: rest =>
      if Py.has_char "=" line
      then match Py.split_once "=" line with
           | [k; v] => macos_env_lines rest (<[Py.strip k := Py.strip v]> env)
           | _ => macos_env_lines rest env
           end
      else macos_env_lines rest env
  end.

(** The four commands of the macOS provider *)
Definition ps_fields_cmd (pid : Z) : list string :=
  ["ps"; "-p"; Py.str pid; "-o"; "pid=,ppid=,user=,comm=,etime=,rss="].
Definition ps_command_cmd (pid : Z) : list string :=
  ["ps"; "-p"; Py.str pid; "-o"; "command="].
Definition lsof_cwd_cmd (pid : Z) : list string :=
  ["lsof"; "-a"; "-p"; Py.str pid; "-d"; "cwd"; "-Fn"].
Definition ps_env_cmd (pid : Z) : list string :=
  ["ps"; "-p"; Py.str pid; "-E"].

Definition get_process_info_macos (os : Instant) (pid : Z) : Result (option ProcessInfo) :=
  try_except
    ('(rc, stdout, _) ← run_command os (ps_fields_cmd pid);
     if negb (rc =? 0) || Py.is_empty (Py.strip stdout) then Ok None
     else
       let parts := Py.split_n 5 (Py.strip stdout) in
       if (length parts <? 6)%nat then Ok None
       else
         p0 ← item parts 0; pid_parsed ← int_of p0;
         p1 ← item parts 1; ppid ← int_of p1;
         user ← item parts 2;
         p3 ← item parts 3;
         let name := Py.basename p3 in
         etime ← item parts 4;
         p5 ← item parts 5; rss_kb ← int_of p5;
         '(rc, cmd_out, _) ← run_command os (ps_command_cmd pid);
         let cmd := if rc =? 0 then Py.strip cmd_out else name in
         let start_time := parse_elapsed_time_macos os etime in
         '(rc, lsof_out, _) ← run_command os (lsof_cwd_cmd pid);
         let cwd := if rc =? 0 then first_n_line (Py.split_on "010" lsof_out)
                    else None in
         '(rc, env_out, _) ← run_command os (ps_env_cmd pid);
         let env_vars := if rc =? 0
                         then macos_env_lines (Py.split_on "010" env_out) ∅
                         else ∅ in
         Ok (Some (new_ProcessInfo pid_parsed name ppid user cmd start_time cwd
                                   rss_kb env_vars)))
    (fun _ => Ok None).

(** [get_process_info]: the platform picks the provider; an unknown
    system tries the macOS one. *)
Definition get_process_info (w : World) (t : nat) (pid : Z) : Result (option ProcessInfo) :=
  if IS_MACOS w then get_process_info_macos (at_tick w t) pid
  else if IS_LINUX w then get_process_info_linux (at_tick w t) pid
  else get_process_info_macos (at_tick w t) pid.

(** ** The ancestry resolver *)

(** The [while] loop of [build_ancestry].  Each snapshot takes one tick
    of the clock; [None] means the loop has not ended within [fuel]
    iterations. *)
Fixpoint build_ancestry_loop (w : World) (fuel : nat) (ancestry : list ProcessInfo)
    (current_pid : Z) (t : nat) : option (Result (list ProcessInfo) * nat) :=
  match fuel with
  | O => None
  | S fuel' =>
      if 0 <? current_pid then
        match get_process_info w t current_pid with
        | Raise e => Some (Raise e, S t)
        | Ok None => Some (Ok ancestry, S t)
        | Ok (Some parent) =>
            let ancestry := parent :: ancestry in
            let current_pid := ppid parent in
            if (current_pid =? 1) || (20 <? length ancestry)%nat
            then Some (Ok ancestry, S t)
            else build_ancestry_loop w fuel' ancestry current_pid (S t)
        end
      else Some (Ok ancestry, t)
  end.

Definition build_ancestry_fuel (w : World) (fuel : nat) (proc : ProcessInfo) (t : nat)
    : option (Result (list ProcessInfo) * nat) :=
  build_ancestry_loop w fuel [] (ppid proc) t.

(** Twenty-one iterations are all the loop can make. *)
Definition build_ancestry (w : World) (proc : ProcessInfo) (t : nat)
    : option (Result (list ProcessInfo) * nat) :=
  build_ancestry_fuel w 21 proc t.

(** ** The source classifier *)

(** The class [[a-zA-Z0-9._-]] *)
Definition is_unit_char (c : ascii) : bool :=
  Py.between 97 122 c || Py.between 65 90 c || Py.between 48 57 c ||
  Ascii.eqb c "." || Ascii.eqb c "_" || Ascii.eqb c "-".

(** [\.(service|socket|timer)] at the head of [s] *)
Definition unit_tail (s : string) : option string :=
  if Py.startswith ".service" s then Some ".service"
  else if Py.startswith ".socket" s then Some ".socket"
  else if Py.startswith ".timer" s then Some ".timer"
  else None.

(** [[a-zA-Z0-9._-]+\.(service|socket|timer)] from the head of [s]: the
    greedy [+] keeps the longest run after which the tail still
    matches. *)
Fixpoint unit_from (s : string) : option string :=
  match s with
  | EmptyString => None
  | String c r =>
      if is_unit_char c then
        match unit_from r with
        | Some m => Some (String c m)
        | None => String c <$> unit_tail r
        end
      else None
  end.

(** [re.search(r'([a-zA-Z0-9._-]+\.(service|socket|timer))', line)]:
    group 1 of the leftmost match *)
Fixpoint search_unit (line : string) : option string :=
  match unit_from line with
  | Some m => Some m
  | None =>
      match line with
      | EmptyString => None
      | String _ r => search_unit r
      end
  end.

(** The loop over the lines of [systemctl status]: the first line that
    names a service or a socket and has a match sets the detail. *)
Fixpoint systemd_lines (lines : list string) (proc : ProcessInfo) : ProcessInfo :=
  match lines with
  | [] => proc
  | line :: rest =>
      if Py.contains ".service" line || Py.contains ".socket" line then
        match search_unit line with
        | Some m => set_source_detail (Some m) proc
        | None => systemd_lines rest proc
        end
      else systemd_lines rest proc
  end.

(** The loop over the lines of [docker ps]: every line that contains
    the pid and has two columns overwrites the three fields. *)
Fixpoint docker_lines (lines : list string) (proc : ProcessInfo) : ProcessInfo :=
  match lines with
  | [] => proc
  | line :: rest =>
      if Py.contains (Py.str (pid proc)) line then
        let parts := Py.split line in
        if (1 <? length parts)%nat then
          let proc := set_container_name (last parts) proc in
          let proc := set_container_image (parts !! 1%nat) proc in
          let proc := set_source_detail (container_name proc) proc in
          docker_lines rest proc
        else docker_lines rest proc
      else docker_lines rest proc
  end.

Definition shells : list string :=
  ["bash"; "zsh"; "fish"; "sh"; "dash"; "tcsh"; "csh"].

(** The rules applied to one ancestor, in the order of the code: [None]
    when none matches and the scan goes on to the next ancestor. *)
Definition classify_ancestor (w : World) (os : Instant) (proc ancestor : ProcessInfo)
    : option (Result ProcessInfo) :=
  if String.eqb (name ancestor) "systemd" && negb (pid ancestor =? 1) then
    let proc := set_source (Some "systemd") proc in
    Some (if IS_LINUX w then
            '(rc, stdout, _) ← run_command os ["systemctl"; "status"; Py.str (pid proc)];
            Ok (if rc =? 0 then systemd_lines (Py.splitlines stdout) proc else proc)
          else Ok proc)
  else if String.eqb (name ancestor) "launchd" then
    Some (Ok (set_source (Some "launchd") proc))
  else if Py.contains "docker" (name ancestor) || Py.contains "containerd" (name ancestor) then
    let proc := set_source (Some "docker") proc in
    Some ('(rc, stdout, _) ← run_command os ["docker"; "ps"; "--no-trunc"];
          Ok (if rc =? 0 then docker_lines (Py.splitlines stdout) proc else proc))
  else if Py.contains "PM2" (cmd ancestor) || Py.contains "pm2" (name ancestor) then
    Some (Ok (set_source (Some "pm2") proc))
  else if Py.contains "supervisor" (name ancestor) then
    Some (Ok (set_source (Some "supervisor") proc))
  else if String.eqb (name ancestor) "cron" || Py.contains "CRON" (cmd ancestor) then
    Some (Ok (set_source (Some "cron") proc))
  else if mem String.eqb (name ancestor) shells then
    Some (Ok (set_source_detail (Some (name ancestor))
                (set_source (Some "interactive shell") proc)))
  else None.

(** [not proc.source] *)
Definition falsy (s : option string) : bool :=
  match s with
  | None => true
  | Some v => Py.is_empty v
  end.

(** The scan over [reversed(proc.ancestry)], then the default *)
Fixpoint detect_source_scan (w : World) (os : Instant) (proc : ProcessInfo)
    (ancestors : list ProcessInfo) : Result ProcessInfo :=
  match ancestors with
  | [] => Ok (if falsy (source proc) then set_source (Some "unknown") proc else proc)
  | ancestor :: rest =>
      match classify_ancestor w os proc ancestor with
      | Some r => r
      | None => detect_source_scan w os proc rest
      end
  end.

(** [detect_source(proc)]: the process as the call leaves it *)
Definition detect_source (w : World) (t : nat) (proc : ProcessInfo) : Result ProcessInfo :=
  detect_source_scan w (at_tick w t) proc (List.rev (ancestry proc)).

(** ** The port resolver *)

(** The inner loop of [find_process_by_socket_inode_linux] over the
    entries of one fd directory.  [Some r] is the value the function
    returns from inside the loop; a failing step goes on to the next
    entry. *)
Fixpoint scan_fds (w : World) (inode pid_name fd_dir : string) (fds : list string)
    (t : nat) : option (option ProcessInfo) * nat :=
  match fds with
  | [] => (None, t)
  | fd :: rest =>
      match readlink (at_tick w t) (fd_dir +:+ "/" +:+ fd) with
      | Raise _ => scan_fds w inode pid_name fd_dir rest t
      | Ok link =>
          if Py.contains ("socket:[" +:+ inode +:+ "]") link then
            match int_of pid_name with
            | Raise _ => scan_fds w inode pid_name fd_dir rest t
            | Ok p =>
                match get_process_info w t p with
                | Ok r => (Some r, S t)
                | Raise _ => scan_fds w inode pid_name fd_dir rest (S t)
                end
            end
          else scan_fds w inode pid_name fd_dir rest t
      end
  end.

(** The outer loop over the entries of /proc *)
Fixpoint scan_pid_dirs (w : World) (inode : string) (names : list string) (t : nat)
    : option ProcessInfo * nat :=
  match names with
  | [] => (None, t)
  | nm :: rest =>
      let os := at_tick w t in
      let pid_dir := "/proc/" +:+ nm in
      if negb (is_dir os pid_dir) || negb (Py.isdigit nm)
      then scan_pid_dirs w inode rest t
      else
        let fd_dir := pid_dir +:+ "/fd" in
        if negb (path_exists os fd_dir) then scan_pid_dirs w inode rest t
        else
          match iterdir os fd_dir with
          | Raise _ => scan_pid_dirs w inode rest t
          | Ok fds =>
              match scan_fds w inode nm fd_dir fds t with
              | (Some r, t') => (r, t')
              | (None, t') => scan_pid_dirs w inode rest t'
              end
          end
  end.

(** [find_process_by_socket_inode_linux(inode)]: the first process with
    an fd on the socket *)
Definition find_process_by_socket_inode_linux (w : World) (inode : string) (t : nat)
    : option ProcessInfo * nat :=
  match iterdir (at_tick w t) "/proc" with
  | Raise _ => (None, t)
  | Ok names => scan_pid_dirs w inode names t
  end.

(** [[str(int(a[i:i+2], 16)) for i in range(6, -1, -2)]] joined by
    dots *)
Definition ipv4_dotted (addr : string) : Result string :=
  b3 ← int16_of (Py.slice 6 8 addr);
  b2 ← int16_of (Py.slice 4 6 addr);
  b1 ← int16_of (Py.slice 2 4 addr);
  b0 ← int16_of (Py.slice 0 2 addr);
  Ok (Py.join "." [Py.str b3; Py.str b2; Py.str b1; Py.str b0]).

(** The address text the port resolver's fallback builds *)
Definition fallback_ip_str (addr_ip : string) : Result string :=
  if (String.length addr_ip =? 8)%nat then ipv4_dotted addr_ip else Ok addr_ip.

(** [if x not in l: l.append(x)] *)
Definition append_new (x : ProcessInfo) (l : list ProcessInfo) : list ProcessInfo :=
  if mem ProcessInfo_eqb x l then l else l ++ [x].

(** One line of a socket table in [find_process_by_port_linux_proc].
    The state is the result list and the clock; [Raise] leaves the
    file. *)
Definition net_line (w : World) (port : Z) (line : string) (st : list ProcessInfo * nat)
    : Result unit * (list ProcessInfo * nat) :=
  let '(processes, t) := st in
  let parts := Py.split line in
  if (length parts <? 10)%nat then (Ok (), st)
  else
    match (local_addr ← item parts 1; state ← item parts 3; inode ← item parts 9;
           Ok (local_addr, state, inode)) with
    | Raise e => (Raise e, st)
    | Ok (local_addr, state, inode) =>
        if negb (String.eqb state "0A") then (Ok (), st)
        else if Py.has_char ":" local_addr then
          match item (Py.split_on ":" local_addr) 1 with
          | Raise e => (Raise e, st)
          | Ok addr_port =>
              if String.eqb (Py.upper addr_port) (Py.upper (Py.format_04X port)) then
                match find_process_by_socket_inode_linux w inode t with
                | (None, t') => (Ok (), (processes, t'))
                | (Some proc_info, t') =>
                    match (addr_ip ← item (Py.split_on ":" local_addr) 0;
                           fallback_ip_str addr_ip) with
                    | Raise e => (Raise e, (processes, t'))
                    | Ok ip_str =>
                        let proc_info :=
                          set_listening_addresses
                            (listening_addresses proc_info ++ [ip_str +:+ ":" +:+ Py.str port])
                            proc_info in
                        (Ok (), (append_new proc_info processes, t'))
                    end
                end
              else (Ok (), st)
          end
        else (Ok (), st)
    end.

Fixpoint net_lines (w : World) (port : Z) (lines : list string) (st : list ProcessInfo * nat)
    : list ProcessInfo * nat :=
  match lines with
  | [] => st
  | line :: rest =>
      match net_line w port line st with
      | (Ok _, st') => net_lines w port rest st'
      | (Raise _, st') => st'
      end
  end.

Definition net_file (w : World) (port : Z) (path : string) (st : list ProcessInfo * nat)
    : list ProcessInfo * nat :=
  match read_file (at_tick w (snd st)) path with
  | Raise _ => st
  | Ok text => net_lines w port (Py.file_lines text) st
  end.

(** [find_process_by_port_linux_proc(port)] *)
Definition find_process_by_port_linux_proc (w : World) (port : Z) (t : nat)
    : list ProcessInfo * nat :=
  net_file w port "/proc/net/tcp6" (net_file w port "/proc/net/tcp" ([], t)).

(** The lines of the second lsof call: column 9 of each LISTEN line is
    added unless it is there already. *)
Fixpoint lsof_lines (lines : list string) (proc_info : ProcessInfo) : ProcessInfo :=
  match lines with
  | [] => proc_info
  | line :: rest =>
      if Py.contains "LISTEN" line then
        let parts := Py.split line in
        match parts !! 8%nat with
        | Some addr =>
            if mem String.eqb addr (listening_addresses proc_info)
            then lsof_lines rest proc_info
            else lsof_lines rest
                   (set_listening_addresses (listening_addresses proc_info ++ [addr])
                                            proc_info)
        | None => lsof_lines rest proc_info
        end
      else lsof_lines rest proc_info
  end.

Definition lsof_port_args (port : Z) : list string :=
  ["lsof"; "-i"; ":" +:+ Py.str port; "-sTCP:LISTEN"].

(** One pid of the first lsof call; whatever is raised is passed
    over. *)
Definition port_pid (w : World) (port : Z) (pid_str : string) (st : list ProcessInfo * nat)
    : list ProcessInfo * nat :=
  let '(processes, t) := st in
  if Py.is_empty pid_str then st
  else
    match int_of pid_str with
    | Raise _ => st
    | Ok p =>
        match get_process_info w t p with
        | Raise _ => (processes, S t)
        | Ok None => (processes, S t)
        | Ok (Some proc_info) =>
            match run_command (at_tick w (S t)) (lsof_port_args port ++ ["-a"; "-p"; Py.str p]) with
            | Raise _ => (processes, S t)
            | Ok (rc2, addr_out, _) =>
                let proc_info :=
                  if rc2 =? 0 then lsof_lines (Py.split_on "010" addr_out) proc_info
                  else proc_info in
                (append_new proc_info processes, S t)
            end
        end
    end.

(** [find_process_by_port(port)] *)
Definition find_process_by_port (w : World) (port : Z) (t : nat)
    : Result (list ProcessInfo) * nat :=
  match run_command (at_tick w t) (lsof_port_args port ++ ["-t"]) with
  | Raise e => (Raise e, t)
  | Ok (rc, stdout, _) =>
      let '(processes, t') :=
        if rc =? 0
        then fold_left (fun st pid_str => port_pid w port pid_str st)
                       (Py.split_on "010" (Py.strip stdout)) ([], t)
        else ([], t) in
      match processes with
      | [] =>
          if IS_LINUX w
          then let '(more, t'') := find_process_by_port_linux_proc w port t' in
               (Ok (processes ++ more)%list, t'')
          else (Ok processes, t')
      | _ => (Ok processes, t')
      end
  end.

(** ** The listening ports of one process, read from /proc *)

(** [link[8:-1]] *)
Definition slice_8_m1 (link : string) : string :=
  let r := Py.drop 8 link in Py.take (String.length r - 1) r.

Fixpoint socket_inodes_of (os : Instant) (fd_dir : string) (fds : list string)
    (acc : gset string) : gset string :=
  match fds with
  | [] => acc
  | fd :: rest =>
      match readlink os (fd_dir +:+ "/" +:+ fd) with
      | Raise _ => socket_inodes_of os fd_dir rest acc
      | Ok link =>
          if Py.startswith "socket:[" link
          then socket_inodes_of os fd_dir rest ({[ slice_8_m1 link ]} ∪ acc)
          else socket_inodes_of os fd_dir rest acc
      end
  end.

(** The address text [detect_listening_ports_linux_proc] builds *)
Definition listening_ip_str (addr_hex : string) : Result string :=
  if (String.length addr_hex =? 8)%nat then ipv4_dotted addr_hex
  else Ok (bracketed addr_hex).

(** One line of a socket table in [detect_listening_ports_linux_proc] *)
Definition listening_line (socket_inodes : gset string) (line : string)
    (proc : ProcessInfo) : Result ProcessInfo :=
  let parts := Py.split line in
  if (length parts <? 10)%nat then Ok proc
  else
    local_addr ← item parts 1;
    state ← item parts 3;
    inode ← item parts 9;
    if String.eqb state "0A" && bool_decide (inode ∈ socket_inodes) then
      if Py.has_char ":" local_addr then
        match Py.split_on ":" local_addr with
        | [addr_hex; port_hex] =>
            port ← int16_of port_hex;
            ip_str ← listening_ip_str addr_hex;
            Ok (set_listening_addresses
                  (listening_addresses proc ++ [ip_str +:+ ":" +:+ Py.str port]) proc)
        | _ => Raise ValueError
        end
      else Ok proc
    else Ok proc.

Fixpoint listening_lines (socket_inodes : gset string) (lines : list string)
    (proc : ProcessInfo) : ProcessInfo :=
  match lines with
  | [] => proc
  | line :: rest =>
      match listening_line socket_inodes line proc with
      | Ok proc' => listening_lines socket_inodes rest proc'
      | Raise _ => proc
      end
  end.

Definition listening_file (os : Instant) (socket_inodes : gset string) (path : string)
    (proc : ProcessInfo) : ProcessInfo :=
  match read_file os path with
  | Raise _ => proc
  | Ok text => listening_lines socket_inodes (Py.file_lines text) proc
  end.

(** [detect_listening_ports_linux_proc(proc)]: the process as the call
    leaves it *)
Definition detect_listening_ports_linux_proc (os : Instant) (proc : ProcessInfo)
    : ProcessInfo :=
  let fd_dir := proc_path (pid proc) "/fd" in
  if negb (path_exists os fd_dir) then proc
  else
    match iterdir os fd_dir with
    | Raise _ => proc
    | Ok fds =>
        let socket_inodes := socket_inodes_of os fd_dir fds ∅ in
        if bool_decide (socket_inodes = ∅) then proc
        else listening_file os socket_inodes "/proc/net/tcp6"
               (listening_file os socket_inodes "/proc/net/tcp" proc)
    end.

(** ** Notions the properties are stated with *)

(** Every snapshot the provider returns carries the pid it was asked
    for. *)
Definition provider_consistent (w : World) : Prop :=
  forall t p r, get_process_info w t p = Ok (Some r) -> pid r = p.

(** Each element is the parent of the next one. *)
Definition linked (l : list ProcessInfo) : Prop :=
  forall (i : nat) a b, l !! i = Some a -> l !! S i = Some b -> pid a = ppid b.

(** The list is a parent-linked chain that ends at the parent of the
    process whose parent pid is [pp]. *)
Definition chain_to (pp : Z) (l : list ProcessInfo) : Prop :=
  linked l /\ (forall x, last l = Some x -> pid x = pp).

(** What the systemd loop writes: the unit of the first line that has
    one. *)
Fixpoint systemd_detail (lines : list string) : option string :=
  match lines with
  | [] => None
  | line :: rest =>
      if Py.contains ".service" line || Py.contains ".socket" line then
        match search_unit line with
        | Some m => Some m
        | None => systemd_detail rest
        end
      else systemd_detail rest
  end.

Definition write_detail (d : option string) (p : ProcessInfo) : ProcessInfo :=
  match d with
  | Some m => set_source_detail (Some m) p
  | None => p
  end.

(** What the docker loop writes: the last and the second column of the
    last line that contains the pid and has two columns. *)
Fixpoint docker_fields (pid_str : string) (lines : list string)
    (acc : option (option string * option string)) : option (option string * option string) :=
  match lines with
  | [] => acc
  | line :: rest =>
      if Py.contains pid_str line then
        let parts := Py.split line in
        if (1 <? length parts)%nat
        then docker_fields pid_str rest (Some (last parts, parts !! 1%nat))
        else docker_fields pid_str rest acc
      else docker_fields pid_str rest acc
  end.

Definition write_container (f : option (option string * option string)) (p : ProcessInfo)
    : ProcessInfo :=
  match f with
  | Some (n, i) => set_source_detail n (set_container_image i (set_container_name n p))
  | None => p
  end.

(** Whether one of the rules recognises the ancestor *)
Definition recognised (a : ProcessInfo) : bool :=
  String.eqb (name a) "systemd" && negb (pid a =? 1)
  || String.eqb (name a) "launchd"
  || (Py.contains "docker" (name a) || Py.contains "containerd" (name a))
  || (Py.contains "PM2" (cmd a) || Py.contains "pm2" (name a))
  || Py.contains "supervisor" (name a)
  || (String.eqb (name a) "cron" || Py.contains "CRON" (cmd a))
  || mem String.eqb (name a) shells.

(** A hexadecimal digit, and the byte two of them spell *)
Definition is_hex (c : ascii) : bool :=
  match Py.digit_value c with Some _ => true | None => false end.

Definition hex_value (c : ascii) : Z := default 0 (Py.digit_value c).

Definition hex_byte (hi lo : ascii) : Z := 16 * hex_value hi + hex_value lo.

Definition all_ascii : list ascii := map ascii_of_nat (seq 0 256).

Definition pair_ok (a b : ascii) : bool :=
  implb (is_hex a && is_hex b)
        (match Py.int16 (String a (String b "")) with
         | Some v => (v =? hex_byte a b) && (0 <=? v) && (v <? 256)
         | None => false
         end
         && negb (Ascii.eqb a ":") && negb (Py.isspace a)).

(** The text of eight characters *)
Definition text8 (c0 c1 c2 c3 c4 c5 c6 c7 : ascii) : string :=
  String c0 (String c1 (String c2 (String c3 (String c4 (String c5
    (String c6 (String c7 ""))))))).

(** The dotted form of the four bytes, the last pair first *)
Definition dotted_reversed (c0 c1 c2 c3 c4 c5 c6 c7 : ascii) : string :=
  Py.join "." [Py.str (hex_byte c6 c7); Py.str (hex_byte c4 c5);
               Py.str (hex_byte c2 c3); Py.str (hex_byte c0 c1)].

(** What a decimal digit is not, and what it is worth *)
Definition decimal_ok (c : ascii) : bool :=
  implb (Py.isdecimal c)
        (negb (Py.isspace c) && negb (Py.code c =? 45)%N && negb (Py.code c =? 43)%N &&
         negb (Py.is_underscore c) &&
         match Py.digit_value c with Some d => d <? 10 | None => false end).

(** The outermost-parenthesis convention in the words of the
    specification: the name is the text between the first opening and
    the last closing parenthesis, and the parent pid is the second field
    after that closing parenthesis. *)
Definition outermost_fields (stat : string) : option (string * string) :=
  let parts := Py.split_on ")" stat in
  match Py.split_once "(" (Py.join ")" (removelast parts)) with
  | [_; comm] => pp ← Py.split (List.last parts "") !! 1%nat; Some (comm, pp)
  | _ => None
  end.

(** ** Example worlds *)

Module Examples.

(** A system that answers nothing: no file, no command, no /proc. *)
Definition silent (clock : Z) : Instant := {|
  read_file := fun _ => Raise FileNotFoundError;
  owner_name := fun _ => Raise KeyError;
  readlink := fun _ => Raise PermissionError;
  iterdir := fun _ => Raise FileNotFoundError;
  is_dir := fun _ => false;
  path_exists := fun _ => false;
  sysconf_clk_tck := Ok 100;
  now := clock;
  float_start_time := fun _ _ _ => Raise OverflowError;
  subprocess_run := fun _ => Raise FileNotFoundError
|}.

(** A row of a process table: pid, comm and parent pid *)
Definition row : Type := Z * string * Z.

(** The stat record the kernel prints for a row *)
Definition stat_of (r : row) : string :=
  let '(p, comm, pp) := r in
  Py.str p +:+ " (" +:+ comm +:+ ") S " +:+ Py.str pp +:+
  " 1 1 0 -1 4194560 100 0 0 0 1 1 0 0 20 0 1 0 500 1000000 200".

Definition NUL : string := String "000" "".
Definition LF : string := String "010" "".

Fixpoint table_file (table : list row) (path : string) : Result string :=
  match table with
  | [] => Raise FileNotFoundError
  | r :: rest =>
      if String.eqb path (proc_path (fst (fst r)) "/stat") then Ok (stat_of r)
      else if String.eqb path (proc_path (fst (fst r)) "/cmdline")
      then Ok ("/usr/bin/" +:+ snd (fst r) +:+ NUL)
      else table_file rest path
  end.

(** A Linux system with the processes of [table], each owned by root;
    its clock reads [clock]. *)
Definition linux_instant (table : list row) (clock : Z) : Instant := {|
  read_file := table_file table;
  owner_name := fun _ => Ok "root";
  readlink := fun _ => Raise PermissionError;
  iterdir := fun _ => Raise PermissionError;
  is_dir := fun _ => false;
  path_exists := fun _ => false;
  sysconf_clk_tck := Ok 100;
  now := clock;
  float_start_time := fun _ _ _ => Raise OverflowError;
  subprocess_run := fun _ => Raise FileNotFoundError
|}.

(** The clock starts on 2024-01-01 and gains a millisecond a tick. *)
Definition clock_at (t : nat) : Z := 1704067200000000 + 1000 * Z.of_nat t.

Definition linux_world (table : list row) : World := {|
  platform := Linux;
  at_tick := fun t => linux_instant table (clock_at t)
|}.

(** A target process as the provider would have returned it *)
Definition target (p : Z) (nm : string) (pp : Z) : ProcessInfo :=
  new_ProcessInfo p nm pp "root" nm (clock_at 0) None 0 ∅.

(** init, a server it started, and a worker of the server *)
Definition small_table : list row :=
  [(1, "systemd", 0); (100, "sshd", 1); (200, "worker", 100)].

(** init and a line of nested shells, pid 2 to pid 60, each the child
    of the one before; pid 2 is a child of init. *)
Definition deep_table : list row :=
  (1, "systemd", 0) :: map (fun k => (Z.of_nat k, "sh", Z.of_nat k - 1)) (seq 2 59).

(** An ancestor as the provider would have returned it *)
Definition ancestor (p : Z) (nm c : string) (pp : Z) : ProcessInfo :=
  new_ProcessInfo p nm pp "root" c (clock_at 0) None 0 ∅.

(** init, a user manager, the docker daemon and a shell, root first *)
Definition docker_shell_chain : list ProcessInfo :=
  [ancestor 1 "systemd" "/sbin/init" 0;
   ancestor 900 "systemd" "/lib/systemd/systemd --user" 1;
   ancestor 1200 "dockerd" "/usr/bin/dockerd" 900;
   ancestor 1300 "bash" "-bash" 1200].

Definition python_under (chain : list ProcessInfo) : ProcessInfo :=
  set_ancestry chain (target 1400 "python3" 1300).

(** A Linux system whose service manager and container runtime
    answer *)
Definition systemctl_out : string :=
  "* nginx.service - A high performance web server" +:+ LF +:+
  "     Loaded: loaded (/lib/systemd/system/nginx.service; enabled)" +:+ LF.

Definition docker_ps_out : string :=
  "CONTAINER ID IMAGE COMMAND CREATED STATUS PORTS NAMES" +:+ LF +:+
  "3f4e1400ab12 nginx:latest nginx-debug 2 hours ago Up 2 hours 80/tcp web" +:+ LF.

Definition service_instant (clock : Z) : Instant := {|
  read_file := fun _ => Raise FileNotFoundError;
  owner_name := fun _ => Raise KeyError;
  readlink := fun _ => Raise PermissionError;
  iterdir := fun _ => Raise PermissionError;
  is_dir := fun _ => false;
  path_exists := fun _ => false;
  sysconf_clk_tck := Ok 100;
  now := clock;
  float_start_time := fun _ _ _ => Raise OverflowError;
  subprocess_run := fun c =>
    match c with
    | c0 :: _ =>
        if String.eqb c0 "systemctl" then Ok (0, systemctl_out, "")
        else if String.eqb c0 "docker" then Ok (0, docker_ps_out, "")
        else Raise FileNotFoundError
    | [] => Raise IndexError
    end
|}.

Definition service_world : World := {|
  platform := Linux;
  at_tick := fun t => service_instant (clock_at t)
|}.

(** A Linux system without lsof where nginx, pid 100, listens on port
    8080: fd 3 is the IPv4 socket with inode 12345, fd 4 the IPv6 socket
    with inode 12346. *)
Definition tcp_header : string :=
  "  sl  local_address rem_address   st tx_queue rx_queue tr tm->when retrnsmt   uid  timeout inode".

Definition tcp_listen_line : string :=
  "   0: 0100007F:1F90 00000000:0000 0A 00000000:00000000 00:00000000 00000000     0        0 12345 1 0000000000000000 100 0 0 10 0".

Definition tcp_established_line : string :=
  "   1: 0100007F:1F90 0100007F:C350 01 00000000:00000000 00:00000000 00000000     0        0 12399 1 0000000000000000 20 4 30 10 -1".

Definition tcp6_listen_line : string :=
  "   0: 00000000000000000000000000000000:1F90 00000000000000000000000000000000:0000 0A 00000000:00000000 00:00000000 00000000     0        0 12346 1 0000000000000000 100 0 0 10 0".

Definition tcp_text : string :=
  tcp_header +:+ LF +:+ tcp_established_line +:+ LF +:+ tcp_listen_line +:+ LF.

Definition tcp6_text : string := tcp_header +:+ LF +:+ tcp6_listen_line +:+ LF.

Definition socket_table : list row := [(1, "systemd", 0); (100, "nginx", 1)].

Definition socket_instant (clock : Z) : Instant := {|
  read_file := fun path =>
    if String.eqb path "/proc/net/tcp" then Ok tcp_text
    else if String.eqb path "/proc/net/tcp6" then Ok tcp6_text
    else table_file socket_table path;
  owner_name := fun _ => Ok "www";
  readlink := fun path =>
    if String.eqb path "/proc/100/fd/0" then Ok "/dev/null"
    else if String.eqb path "/proc/100/fd/3" then Ok "socket:[12345]"
    else if String.eqb path "/proc/100/fd/4" then Ok "socket:[12346]"
    else Raise PermissionError;
  iterdir := fun path =>
    if String.eqb path "/proc" then Ok ["1"; "100"; "net"; "uptime"]
    else if String.eqb path "/proc/100/fd" then Ok ["0"; "3"; "4"]
    else Raise PermissionError;
  is_dir := fun path =>
    String.eqb path "/proc/1" || String.eqb path "/proc/100" || String.eqb path "/proc/net";
  path_exists := fun path =>
    String.eqb path "/proc/1/fd" || String.eqb path "/proc/100/fd";
  sysconf_clk_tck := Ok 100;
  now := clock;
  float_start_time := fun _ _ _ => Raise OverflowError;
  subprocess_run := fun _ => Raise FileNotFoundError
|}.

Definition socket_world : World := {|
  platform := Linux;
  at_tick := fun t => socket_instant (clock_at t)
|}.

(** A macOS system where nginx, pid 100, listens on port 8080 and lsof
    prints its pid once for the IPv4 and once for the IPv6 socket. *)
Definition ps_row : string := "  100     1 www      /usr/sbin/nginx 05:00   2048" +:+ LF.

Definition lsof_listen : string :=
  "COMMAND PID USER FD TYPE DEVICE SIZE/OFF NODE NAME" +:+ LF +:+
  "nginx 100 www 6u IPv4 0x1a2b3c 0t0 TCP *:8080 (LISTEN)" +:+ LF +:+
  "nginx 100 www 7u IPv6 0x1a2b3d 0t0 TCP *:8080 (LISTEN)" +:+ LF.

Definition mac_commands (pids : string) (c : list string) : Result (Z * string * string) :=
  if list_eqb String.eqb c ["ps"; "-p"; "100"; "-o"; "pid=,ppid=,user=,comm=,etime=,rss="]
  then Ok (0, ps_row, "")
  else if list_eqb String.eqb c ["ps"; "-p"; "100"; "-o"; "command="]
  then Ok (0, "nginx: master process /usr/sbin/nginx" +:+ LF, "")
  else if list_eqb String.eqb c ["lsof"; "-a"; "-p"; "100"; "-d"; "cwd"; "-Fn"]
  then Ok (0, "p100" +:+ LF +:+ "fcwd" +:+ LF +:+ "n/" +:+ LF, "")
  else if list_eqb String.eqb c ["lsof"; "-i"; ":8080"; "-sTCP:LISTEN"; "-t"]
  then Ok (0, pids, "")
  else if list_eqb String.eqb c ["lsof"; "-i"; ":8080"; "-sTCP:LISTEN"; "-a"; "-p"; "100"]
  then Ok (0, lsof_listen, "")
  else Ok (1, "", "").

Definition mac_instant (pids : string) (clock : Z) : Instant := {|
  read_file := fun _ => Raise FileNotFoundError;
  owner_name := fun _ => Raise KeyError;
  readlink := fun _ => Raise FileNotFoundError;
  iterdir := fun _ => Raise FileNotFoundError;
  is_dir := fun _ => false;
  path_exists := fun _ => false;
  sysconf_clk_tck := Ok 100;
  now := clock;
  float_start_time := fun _ _ _ => Raise OverflowError;
  subprocess_run := mac_commands pids
|}.

(** lsof names pid 100 twice, and the clock moves between the two
    snapshots *)
Definition mac_world : World := {|
  platform := Darwin;
  at_tick := fun t => mac_instant ("100" +:+ LF +:+ "100" +:+ LF) (clock_at t)
|}.

(** The same with a clock that stands still *)
Definition mac_frozen_world : World := {|
  platform := Darwin;
  at_tick := fun t => mac_instant ("100" +:+ LF +:+ "100" +:+ LF) (clock_at 0)
|}.

(** A Linux system with a process whose name holds a closing
    parenthesis, a state letter and a number *)
Definition paren_table : list row :=
  [(1, "systemd", 0); (7, "cron", 1); (4242, "a) R 7", 1)].

(** A macOS system where the path of the executable of pid 501 holds a
    space *)
Definition chrome_row : string :=
  "  501     1 alice    /Applications/Google Chrome.app/Contents/MacOS/Google Chrome 01:02:03 123456" +:+ LF.

Definition chrome_instant (clock : Z) : Instant := {|
  read_file := fun _ => Raise FileNotFoundError;
  owner_name := fun _ => Raise KeyError;
  readlink := fun _ => Raise FileNotFoundError;
  iterdir := fun _ => Raise FileNotFoundError;
  is_dir := fun _ => false;
  path_exists := fun _ => false;
  sysconf_clk_tck := Ok 100;
  now := clock;
  float_start_time := fun _ _ _ => Raise OverflowError;
  subprocess_run := fun c =>
    if list_eqb String.eqb c ["ps"; "-p"; "501"; "-o"; "pid=,ppid=,user=,comm=,etime=,rss="]
    then Ok (0, chrome_row, "")
    else Ok (1, "", "")
|}.

Definition chrome_world : World := {|
  platform := Darwin;
  at_tick := fun t => chrome_instant (clock_at t)
|}.

(** A Linux system where the name of pid 501 holds a space *)
Definition chrome_table : list row :=
  [(1, "systemd", 0); (501, "Google Chrome", 1)].

End Examples.

Import Examples.

(** ** Further notions *)

Definition not_space (c : ascii) : bool := negb (Py.isspace c).

(** ** More of Python's string primitives *)

Module PyText.

(** [s.lower()] on the characters below 256: the ASCII capitals and the
    Latin-1 capitals (all of 0xC0-0xDE but the multiplication sign) move
    up by 32. *)
Definition lower_char (c : ascii) : ascii :=
  if Py.between 65 90 c || Py.between 192 214 c || Py.between 216 222 c
  then ascii_of_N (Py.code c + 32) else c.

Fixpoint lower (s : string) : string :=
  match s with
  | EmptyString => ""
  | String c r => String (lower_char c) (lower r)
  end.

(** [s.replace(old, new)] for a non-empty [old]: the occurrences are
    taken from the left and do not overlap.  [skip] counts the
    characters of an occurrence still to pass over. *)
Fixpoint replace_go (old new : string) (skip : nat) (s : string) : string :=
  match s with
  | EmptyString => ""
  | String c r =>
      match skip with
      | S k => replace_go old new k r
      | O =>
          if Py.startswith old s
          then new +:+ replace_go old new (String.length old - 1) r
          else String c (replace_go old new 0 r)
      end
  end.

Definition replace (old new s : string) : string := replace_go old new 0 s.

End PyText.

(** ** Paths *)

(** A [PurePosixPath]: the root (empty, one slash or two) and the
    components. *)
Record PosixPath : Type := {
  path_root : string;
  path_parts : list string
}.

(** [Path(s)]: two leading slashes, and only two, are a root of their
    own; empty components and single dots are dropped. *)
Definition parse_path (s : string) : PosixPath := {|
  path_root :=
    if Py.startswith "/" s
    then (if Py.startswith "//" s && negb (Py.startswith "///" s) then "//" else "/")
    else "";
  path_parts :=
    List.filter (fun x => negb (Py.is_empty x) && negb (String.eqb x "."))
                (Py.split_on "/" s)
|}.

(** [str(p)] *)
Definition path_str (p : PosixPath) : string :=
  match path_parts p with
  | [] => if Py.is_empty (path_root p) then "." else path_root p
  | _ => path_root p +:+ Py.join "/" (path_parts p)
  end.

(** [p.name] *)
Definition path_name (p : PosixPath) : string := List.last (path_parts p) "".

(** [p.parent]: a path without components is its own parent. *)
Definition path_parent (p : PosixPath) : PosixPath :=
  {| path_root := path_root p; path_parts := removelast (path_parts p) |}.

(** [p / child] for a single component *)
Definition path_join (p : PosixPath) (child : string) : PosixPath :=
  {| path_root := path_root p; path_parts := path_parts p ++ [child] |}.

(** [p == q] *)
Definition path_eqb (p q : PosixPath) : bool :=
  String.eqb (path_root p) (path_root q) &&
  list_eqb String.eqb (path_parts p) (path_parts q).

(** ** The git context *)

(** What the file system answers to [exists()] and to reading a text
    file; either may raise. *)
Record FileSystem : Type := {
  fs_exists : string -> Result bool;
  fs_read : string -> Result string
}.

Definition set_git_repo (v : option string) (p : ProcessInfo) : ProcessInfo :=
  let 'mkProcessInfo a b c d e f g h i j k _ m n o q r s t := p in
  mkProcessInfo a b c d e f g h i j k v m n o q r s t.

Definition set_git_branch (v : option string) (p : ProcessInfo) : ProcessInfo :=
  let 'mkProcessInfo a b c d e f g h i j k l _ n o q r s t := p in
  mkProcessInfo a b c d e f g h i j k l v n o q r s t.

Definition heads_prefix : string := "ref: refs/heads/".

(** The branch a HEAD file names *)
Definition read_head (fs : FileSystem) (head_file : PosixPath) (proc : ProcessInfo)
    : ProcessInfo :=
  match fs_exists fs (path_str head_file) with
  | Ok true =>
      match fs_read fs (path_str head_file) with
      | Ok text =>
          let head_content := Py.strip text in
          if Py.startswith heads_prefix head_content
          then set_git_branch (Some (PyText.replace heads_prefix "" head_content)) proc
          else proc
      | Raise _ => proc
      end
  | _ => proc
  end.

(** The loop [for _ in range(10)] of [detect_git_context]; whatever is
    raised ends the walk with what has been written so far. *)
Fixpoint git_walk (fs : FileSystem) (n : nat) (current : PosixPath) (proc : ProcessInfo)
    : ProcessInfo :=
  match n with
  | O => proc
  | S n' =>
      let git_dir := path_join current ".git" in
      match fs_exists fs (path_str git_dir) with
      | Raise _ => proc
      | Ok true =>
          read_head fs (path_join git_dir "HEAD")
                    (set_git_repo (Some (path_name current)) proc)
      | Ok false =>
          if path_eqb current (path_parent current) then proc
          else git_walk fs n' (path_parent current) proc
      end
  end.

(** [detect_git_context(proc)]: the process as the call leaves it *)
Definition detect_git_context (fs : FileSystem) (proc : ProcessInfo) : ProcessInfo :=
  match cwd proc with
  | None => proc
  | Some c => if Py.is_empty c then proc else git_walk fs 10 (parse_path c) proc
  end.

(** ** Warnings and ages *)

(** [(a - b).days] and [(a - b).seconds] for a difference of [d]
    microseconds: the days round down, the seconds are what is left
    within the day. *)
Definition timedelta_days (d : Z) : Z := d / 86400000000.
Definition timedelta_seconds (d : Z) : Z := (d mod 86400000000) / 1000000.

Definition is_public (addr : string) : bool :=
  Py.startswith "0.0.0.0:" addr || Py.startswith "*:" addr || Py.startswith ":::" addr.

(** The loop over the addresses, which stops at the first public one *)
Fixpoint public_warning (addrs : list string) : list string :=
  match addrs with
  | [] => []
  | addr :: rest =>
      if is_public addr then ["Listening on public interface (" +:+ addr +:+ ")"]
      else public_warning rest
  end.

(** [get_warnings(proc)] *)
Definition get_warnings (os : Instant) (proc : ProcessInfo) : list string :=
  let root_w :=
    if String.eqb (user proc) "root" && negb (pid proc =? 1)
    then ["Process is running as root"] else [] in
  let restart_w :=
    if 5 <? restart_count proc
    then ["Process has restarted " +:+ Py.str (restart_count proc) +:+ " times"] else [] in
  let memory_w :=
    if 1024 * 1024 <? rss_kb proc
    then ["High memory usage (" +:+ Py.str (rss_kb proc / 1024) +:+ " MB)"] else [] in
  let uptime := now os - start_time proc in
  let age_w :=
    if 90 <? timedelta_days uptime
    then ["Process has been running for " +:+ Py.str (timedelta_days uptime) +:+ " days"]
    else [] in
  (root_w ++ public_warning (listening_addresses proc) ++ restart_w ++ memory_w ++ age_w)%list.

(** ['s' if n != 1 else ''] *)
Definition plural (n : Z) : string := if n =? 1 then "" else "s".

(** [format_time_ago(dt)] *)
Definition format_time_ago (os : Instant) (dt : Z) : string :=
  let delta := now os - dt in
  let days := timedelta_days delta in
  let seconds := timedelta_seconds delta in
  if 0 <? days then Py.str days +:+ " day" +:+ plural days +:+ " ago"
  else if 3600 <=? seconds then
    let hours := seconds / 3600 in
    Py.str hours +:+ " hour" +:+ plural hours +:+ " ago"
  else if 60 <=? seconds then
    let minutes := seconds / 60 in
    Py.str minutes +:+ " minute" +:+ plural minutes +:+ " ago"
  else Py.str seconds +:+ " second" +:+ plural seconds +:+ " ago".

(** ** The listening ports of one process *)

(** The loop over the lines of lsof in [detect_listening_ports] *)
Fixpoint listen_lines (lines : list string) (proc : ProcessInfo) : ProcessInfo :=
  match lines with
  | [] => proc
  | line :: rest =>
      let parts := Py.split line in
      if (9 <=? length parts)%nat && Py.contains "LISTEN" line then
        match parts !! 8%nat with
        | Some addr =>
            if mem String.eqb addr (listening_addresses proc)
            then listen_lines rest proc
            else listen_lines rest
                   (set_listening_addresses (listening_addresses proc ++ [addr]) proc)
        | None => listen_lines rest proc
        end
      else listen_lines rest proc
  end.

(** [detect_listening_ports(proc)]: the process as the call leaves
    it *)
Definition detect_listening_ports (w : World) (t : nat) (proc : ProcessInfo) : ProcessInfo :=
  match listening_addresses proc with
  | _ :: _ => proc
  | [] =>
      match run_command (at_tick w t)
              ["lsof"; "-a"; "-p"; Py.str (pid proc); "-iTCP"; "-sTCP:LISTEN"] with
      | Raise _ => proc
      | Ok (rc, stdout, _) =>
          let proc := if rc =? 0 then listen_lines (Py.splitlines stdout) proc else proc in
          match listening_addresses proc with
          | [] => if IS_LINUX w
                  then detect_listening_ports_linux_proc (at_tick w t) proc
                  else proc
          | _ :: _ => proc
          end
      end
  end.

(** ** Search by name *)

(** The pids ps prints, without the tool's own *)
Fixpoint ps_pids (own_pid : Z) (lines : list string) : list Z :=
  match lines with
  | [] => []
  | line :: rest =>
      match int_of (Py.strip line) with
      | Ok p => if negb (p =? own_pid) then p :: ps_pids own_pid rest
                else ps_pids own_pid rest
      | Raise _ => ps_pids own_pid rest
      end
  end.

(** Whether the words of the command hold the tool followed by the
    searched name *)
Fixpoint is_our_arg (nm : string) (cmd_parts : list string) : bool :=
  match cmd_parts with
  | part :: rest =>
      match rest with
      | next :: _ =>
          if Py.contains "wayr" part && String.eqb next nm then true
          else is_our_arg nm rest
      | [] => false
      end
  | [] => false
  end.

(** Whether a snapshot is a match for the name [nm] *)
Definition name_matches (nm : string) (exact : bool) (proc_info : ProcessInfo) : bool :=
  if Py.contains "wayr" (cmd proc_info) && Py.contains nm (cmd proc_info) then false
  else if exact then String.eqb (name proc_info) nm
  else if Py.contains (PyText.lower nm) (PyText.lower (name proc_info)) then true
  else if Py.contains (PyText.lower nm) (PyText.lower (cmd proc_info))
  then negb (is_our_arg nm (Py.split (cmd proc_info)))
  else false.

(** The loop over the pids: one snapshot each *)
Fixpoint name_scan (w : World) (nm : string) (exact : bool) (pids : list Z)
    (matches : list ProcessInfo) (t : nat) : Result (list ProcessInfo) * nat :=
  match pids with
  | [] => (Ok matches, t)
  | p :: rest =>
      match get_process_info w t p with
      | Raise e => (Raise e, S t)
      | Ok None => name_scan w nm exact rest matches (S t)
      | Ok (Some proc_info) =>
          if name_matches nm exact proc_info
          then name_scan w nm exact rest (matches ++ [proc_info]) (S t)
          else name_scan w nm exact rest matches (S t)
      end
  end.

(** [find_processes_by_name(name, exact)]; [own_pid] is [os.getpid()]. *)
Definition find_processes_by_name (w : World) (own_pid : Z) (nm : string) (exact : bool)
    (t : nat) : Result (list ProcessInfo) * nat :=
  match run_command (at_tick w t)
          (if IS_MACOS w then ["ps"; "-A"; "-o"; "pid="] else ["ps"; "-eo"; "pid="]) with
  | Raise e => (Raise e, t)
  | Ok (rc, stdout, _) =>
      if negb (rc =? 0) then (Ok [], t)
      else name_scan w nm exact
             (ps_pids own_pid (Py.split_on "010" (Py.strip stdout))) [] t
  end.

(** ** Notions for the further properties *)

(** The four fields the classifier writes *)
Definition annotate (s d cn ci : option string) (p : ProcessInfo) : ProcessInfo :=
  set_container_image ci (set_container_name cn (set_source_detail d (set_source s p))).

(** The sources the classifier knows *)
Definition categories : list string :=
  ["systemd"; "launchd"; "docker"; "pm2"; "supervisor"; "cron"; "interactive shell";
   "unknown"].

(** [q] is [p] but for the four fields, and its source is [s]. *)
Definition written (p q : ProcessInfo) (s : option string) : Prop :=
  exists d cn ci, q = annotate s d cn ci p.

(** A snapshot as the provider makes it: every field the provider does
    not read has its default. *)
Definition fresh (r : ProcessInfo) : Prop :=
  exists pid name ppid user cmd start_time cwd rss_kb env_vars,
    r = new_ProcessInfo pid name ppid user cmd start_time cwd rss_kb env_vars.

(** [line] is a row of a socket table in the state LISTEN whose local
    address is [local_addr], with the port [port], and whose socket is
    [inode]. *)
Definition listen_row (port : Z) (line local_addr inode : string) : Prop :=
  Py.split line !! 1%nat = Some local_addr /\
  Py.split line !! 3%nat = Some "0A" /\
  Py.split line !! 9%nat = Some inode /\
  exists addr_port,
    Py.split_on ":" local_addr !! 1%nat = Some addr_port /\
    Py.upper addr_port = Py.upper (Py.format_04X port).

(** [ip] is the address text the port resolver makes of the part of
    [local_addr] before the colon. *)
Definition row_address (local_addr ip : string) : Prop :=
  exists addr_ip,
    Py.split_on ":" local_addr !! 0%nat = Some addr_ip /\
    fallback_ip_str addr_ip = Ok ip.

(** [p] is the snapshot [q] of the owner of the socket of a LISTEN row
    for [port] in one of the two socket tables, with one address
    added: that of the row, then a colon and the port. *)
Definition reported_for (w : World) (port : Z) (p : ProcessInfo) : Prop :=
  exists path t0 text line local_addr inode t1 t2 q ip,
    In path ["/proc/net/tcp"; "/proc/net/tcp6"] /\
    read_file (at_tick w t0) path = Ok text /\
    In line (Py.file_lines text) /\
    listen_row port line local_addr inode /\
    row_address local_addr ip /\
    find_process_by_socket_inode_linux w inode t1 = (Some q, t2) /\
    p = set_listening_addresses [ip +:+ ":" +:+ Py.str port] q.

(** The process [p] is the snapshot of the numeric entry [nm] of /proc,
    which holds a descriptor that links to the socket [inode]. *)
Definition holds_socket (w : World) (inode : string) (p : ProcessInfo) : Prop :=
  exists nm fd link n t0 t1,
    Py.isdigit nm = true /\
    readlink (at_tick w t0) ((("/proc/" +:+ nm) +:+ "/fd") +:+ "/" +:+ fd) = Ok link /\
    Py.contains ("socket:[" +:+ inode +:+ "]") link = true /\
    int_of nm = Ok n /\
    get_process_info w t1 n = Ok (Some p).

(** The text has no minus sign. *)
Definition no_minus (s : string) : bool :=
  Py.all_chars (fun c => negb (Ascii.eqb c "-")) s.

(** The text has no line feed. *)
Definition no_newline (s : string) : bool :=
  Py.all_chars (fun c => negb (Py.code c =? 10)%N) s.

(** The text has no slash. *)
Definition no_slash (s : string) : bool :=
  Py.all_chars (fun c => negb (Ascii.eqb c "/")) s.

(** What [find_processes_by_name] promises of a match *)
Definition name_match (own_pid : Z) (nm : string) (exact : bool) (p : ProcessInfo) : Prop :=
  pid p <> own_pid /\
  Py.contains "wayr" (cmd p) && Py.contains nm (cmd p) = false /\
  (if exact then name p = nm
   else Py.contains (PyText.lower nm) (PyText.lower (name p)) = true \/
        Py.contains (PyText.lower nm) (PyText.lower (cmd p)) = true).

(** A Linux system with the processes of [small_table] whose ps lists
    them and the tool itself, pid 300 *)
Definition ps_listing : string :=
  "    1" +:+ LF +:+ "  100" +:+ LF +:+ "  200" +:+ LF +:+ "  300" +:+ LF.

Definition ps_instant (clock : Z) : Instant := {|
  read_file := table_file (small_table ++ [(300, "python3", 200)]);
  owner_name := fun _ => Ok "root";
  readlink := fun _ => Raise PermissionError;
  iterdir := fun _ => Raise PermissionError;
  is_dir := fun _ => false;
  path_exists := fun _ => false;
  sysconf_clk_tck := Ok 100;
  now := clock;
  float_start_time := fun _ _ _ => Raise OverflowError;
  subprocess_run := fun c =>
    if list_eqb String.eqb c ["ps"; "-eo"; "pid="] then Ok (0, ps_listing, "")
    else Raise FileNotFoundError
|}.

Definition ps_world : World := {|
  platform := Linux;
  at_tick := fun t => ps_instant (clock_at t)
|}.

(** The [k]-th directory above [c], [c] itself for 0 *)
Definition dir_above (c : string) (k : nat) : PosixPath :=
  Nat.iter k path_parent (parse_path c).

(** The first of the ten directories from [c] upwards that has a .git
    entry is the [k]-th. *)
Definition nearest_git (fs : FileSystem) (c : string) (k : nat) : Prop :=
  (k < 10)%nat /\
  (forall j, (j < k)%nat ->
     fs_exists fs (path_str (path_join (dir_above c j) ".git")) = Ok false) /\
  fs_exists fs (path_str (path_join (dir_above c k) ".git")) = Ok true.

(** The two fields [detect_git_context] writes *)
Definition git_written (p q : ProcessInfo) : Prop :=
  exists r b, q = set_git_branch b (set_git_repo r p).

(** A checkout of the branch main in /srv/app, seen from
    /srv/app/src/lib *)
Definition checkout_fs : FileSystem := {|
  fs_exists := fun path =>
    Ok (String.eqb path "/srv/app/.git" || String.eqb path "/srv/app/.git/HEAD");
  fs_read := fun path =>
    if String.eqb path "/srv/app/.git/HEAD" then Ok ("ref: refs/heads/main" +:+ LF)
    else Raise FileNotFoundError
|}.

Definition in_checkout : ProcessInfo :=
  new_ProcessInfo 4321 "node" 1 "app" "node server.js" (clock_at 0)
                  (Some "/srv/app/src/lib") 0 ∅.

(** A checkout in /a, seen from ten directories below it *)
Definition far_fs : FileSystem := {|
  fs_exists := fun path => Ok (String.eqb path "/a/.git");
  fs_read := fun _ => Raise FileNotFoundError
|}.

Definition far_cwd : string := "/a/b/c/d/e/f/g/h/i/j/k".

Definition far_below : ProcessInfo :=
  new_ProcessInfo 4322 "node" 1 "app" "node server.js" (clock_at 0) (Some far_cwd) 0 ∅.

(** [q] is [p] with addresses added at the end of its list. *)
Definition extends (p q : ProcessInfo) : Prop :=
  exists extra, q = set_listening_addresses (listening_addresses p ++ extra) p.

(** A macOS system where lsof lists the two listening sockets of pid
    100, both shown as [*:8080] *)
Definition mac_listen_instant (clock : Z) : Instant := {|
  read_file := fun _ => Raise FileNotFoundError;
  owner_name := fun _ => Raise KeyError;
  readlink := fun _ => Raise FileNotFoundError;
  iterdir := fun _ => Raise FileNotFoundError;
  is_dir := fun _ => false;
  path_exists := fun _ => false;
  sysconf_clk_tck := Ok 100;
  now := clock;
  float_start_time := fun _ _ _ => Raise OverflowError;
  subprocess_run := fun c =>
    if list_eqb String.eqb c ["lsof"; "-a"; "-p"; "100"; "-iTCP"; "-sTCP:LISTEN"]
    then Ok (0, lsof_listen, "")
    else mac_commands ("100" +:+ LF) c
|}.

Definition mac_listen_world : World := {|
  platform := Darwin;
  at_tick := fun t => mac_listen_instant (clock_at t)
|}.

Definition nginx_mac : ProcessInfo :=
  new_ProcessInfo 100 "nginx" 1 "www" "nginx: master process /usr/sbin/nginx" (clock_at 0)
                  (Some "/") 2048 ∅.

(** ** The steps of [main] that build the context of one process *)

(** [proc.ancestry = build_ancestry(proc)], [detect_source(proc)],
    [detect_git_context(proc)], [detect_listening_ports(proc)]: the
    process as the four steps leave it.  [None] stands for an ancestry
    loop that has not ended, which does not happen. *)
Definition build_context (w : World) (fs : FileSystem) (t : nat) (proc : ProcessInfo)
    : option (Result ProcessInfo * nat) :=
  match build_ancestry w proc t with
  | None => None
  | Some (Raise e, t') => Some (Raise e, t')
  | Some (Ok anc, t') =>
      match detect_source w t' (set_ancestry anc proc) with
      | Raise e => Some (Raise e, t')
      | Ok proc => Some (Ok (detect_listening_ports w t' (detect_git_context fs proc)), t')
      end
  end.

(** What the provider reads of a process, and the two fields nothing
    writes *)
Definition provider_fields (p : ProcessInfo) :=
  (pid p, name p, ppid p, user p, cmd p, start_time p, cwd p, rss_kb p, env_vars p,
   restart_count p, children p).

(** One day, in microseconds *)
Definition one_day : Z := 86400000000.

(** ** The elapsed time as ps prints it *)

Definition two_digits (n : Z) : string := Py.zfill 2 (Py.str n).

Definition clock_text (h m s : Z) : string :=
  two_digits h +:+ ":" +:+ two_digits m +:+ ":" +:+ two_digits s.

(** [[[dd-]hh:]mm:ss]: the days and the hours are left out when they are
    zero. *)
Definition etime_text (d h m s : Z) : string :=
  if 0 <? d then Py.str d +:+ "-" +:+ clock_text h m s
  else if 0 <? h then clock_text h m s
  else two_digits m +:+ ":" +:+ two_digits s.

(** The [n] integers from [start] upwards *)
Fixpoint z_range (start : Z) (n : nat) : list Z :=
  match n with
  | O => []
  | S n' => start :: z_range (start + 1) n'
  end.

(** * Properties *)

(** ** The snapshot provider never raises *)

Lemma try_except_none_total {A} (c : Result (option A)) :
  exists r, try_except c (fun _ => Ok None) = Ok r.
Proof. destruct c as [a|e]; simpl; eauto. Qed.

Lemma get_process_info_linux_total os p :
  exists r, get_process_info_linux os p = Ok r.
Proof. apply try_except_none_total. Qed.

Lemma get_process_info_macos_total os p :
  exists r, get_process_info_macos os p = Ok r.
Proof. apply try_except_none_total. Qed.

Lemma get_process_info_total w t p :
  exists r, get_process_info w t p = Ok r.
Proof.
  unfold get_process_info.
  destruct (IS_MACOS w); [apply get_process_info_macos_total|].
  destruct (IS_LINUX w);
    [apply get_process_info_linux_total | apply get_process_info_macos_total].
Qed.

(** ** The ancestry resolver *)

Section Ancestry.

Variable w : World.

(** The loop ends within the fuel as soon as the fuel covers what is
    left of the 21 places of the list. *)
Lemma build_ancestry_loop_returns fuel :
  forall anc cur t,
    (1 <= fuel)%nat -> (21 <= fuel + length anc)%nat ->
    exists l t', build_ancestry_loop w fuel anc cur t = Some (Ok l, t').
Proof.
  induction fuel as [|fuel IH]; intros anc cur t Hpos Hfuel; [lia|].
  simpl. destruct (0 <? cur); [|eauto].
  destruct (get_process_info_total w t cur) as [r ->].
  destruct r as [parent|]; [|eauto].
  destruct (ppid parent =? 1); simpl; [eauto|].
  destruct (Nat.ltb_spec 20 (S (length anc))); [eauto|].
  apply IH; simpl; lia.
Qed.

(** More fuel than that changes nothing. *)
Lemma build_ancestry_loop_fuel fuel :
  forall fuel' anc cur t r,
    build_ancestry_loop w fuel anc cur t = Some r -> (fuel <= fuel')%nat ->
    build_ancestry_loop w fuel' anc cur t = Some r.
Proof.
  induction fuel as [|fuel IH]; intros fuel' anc cur t r H Hle; [discriminate|].
  destruct fuel' as [|fuel']; [lia|].
  simpl in *. destruct (0 <? cur); [|exact H].
  destruct (get_process_info w t cur) as [[parent|]|e]; try exact H.
  destruct ((ppid parent =? 1) || (20 <? S (length anc))%nat); [exact H|].
  apply IH; [exact H | lia].
Qed.

Lemma build_ancestry_returns proc t :
  exists l t', build_ancestry w proc t = Some (Ok l, t').
Proof. apply build_ancestry_loop_returns; simpl; lia. Qed.

Lemma build_ancestry_fuel_irrelevant proc t fuel :
  (21 <= fuel)%nat -> build_ancestry_fuel w fuel proc t = build_ancestry w proc t.
Proof.
  intros Hle. destruct (build_ancestry_returns proc t) as (l & t' & H).
  rewrite H. eapply build_ancestry_loop_fuel; [exact H | exact Hle].
Qed.

(** The list never grows beyond 21 entries. *)
Lemma build_ancestry_loop_length fuel :
  forall anc cur t l t',
    build_ancestry_loop w fuel anc cur t = Some (Ok l, t') ->
    (length anc <= 20)%nat -> (length l <= 21)%nat.
Proof.
  induction fuel as [|fuel IH]; intros anc cur t l t' H Hlen; [discriminate|].
  simpl in H. destruct (0 <? cur); [|injection H as <- _; lia].
  destruct (get_process_info w t cur) as [[parent|]|e];
    [|injection H as <- _; lia|discriminate].
  destruct (ppid parent =? 1); simpl in H; [injection H as <- _; simpl; lia|].
  destruct (Nat.ltb_spec 20 (S (length anc))); [injection H as <- _; simpl; lia|].
  eapply IH; [exact H | simpl; lia].
Qed.

Lemma build_ancestry_length proc t l t' :
  build_ancestry w proc t = Some (Ok l, t') -> (length l <= 21)%nat.
Proof. intros H. eapply build_ancestry_loop_length; [exact H | simpl; lia]. Qed.

Lemma linked_cons a l :
  linked l -> (forall h, head l = Some h -> pid a = ppid h) -> linked (a :: l).
Proof.
  intros Hl Hh [|i] x y Hx Hy; simpl in *.
  - injection Hx as <-. apply Hh. destruct l; simpl in *; congruence.
  - eapply Hl; eassumption.
Qed.

Lemma build_ancestry_loop_chain (Hc : provider_consistent w) pp fuel :
  forall anc cur t l t',
    build_ancestry_loop w fuel anc cur t = Some (Ok l, t') ->
    chain_to pp anc ->
    (forall h, head anc = Some h -> cur = ppid h) ->
    (anc = [] -> cur = pp) ->
    chain_to pp l.
Proof.
  induction fuel as [|fuel IH]; intros anc cur t l t' H Hch Hhd Hnil; [discriminate|].
  simpl in H. destruct (0 <? cur); [|injection H as <- _; exact Hch].
  destruct (get_process_info w t cur) as [[parent|]|e] eqn:Hg;
    [|injection H as <- _; exact Hch|discriminate].
  apply Hc in Hg.
  assert (Hnew : chain_to pp (parent :: anc)).
  { destruct Hch as [Hl Hlast]. split.
    - apply linked_cons; [exact Hl|]. intros h Hh. rewrite Hg. auto.
    - intros x Hx. destruct anc as [|a anc'].
      + simpl in Hx. injection Hx as <-. rewrite Hg. auto.
      + apply Hlast. rewrite last_cons in Hx.
        destruct (last (a :: anc')) eqn:E; [exact Hx|].
        apply last_None in E. discriminate. }
  destruct ((ppid parent =? 1) || (20 <? S (length anc))%nat);
    [injection H as <- _; exact Hnew|].
  eapply IH; [exact H | exact Hnew | | discriminate].
  intros h Hh. simpl in Hh. congruence.
Qed.

(** With a consistent provider, pid 1 enters the list only as the
    parent of the target itself: further up, the loop leaves as soon as
    the next pid to look up is 1. *)
Lemma build_ancestry_loop_no_init (Hc : provider_consistent w) fuel :
  forall anc cur t l t',
    build_ancestry_loop w fuel anc cur t = Some (Ok l, t') ->
    Forall (fun a => pid a <> 1) anc -> cur <> 1 ->
    Forall (fun a => pid a <> 1) l.
Proof.
  induction fuel as [|fuel IH]; intros anc cur t l t' H Hall Hcur; [discriminate|].
  simpl in H. destruct (0 <? cur); [|injection H as <- _; exact Hall].
  destruct (get_process_info w t cur) as [[parent|]|e] eqn:Hg;
    [|injection H as <- _; exact Hall|discriminate].
  apply Hc in Hg.
  assert (Hnew : Forall (fun a => pid a <> 1) (parent :: anc)).
  { constructor; [congruence | exact Hall]. }
  destruct (Z.eqb_spec (ppid parent) 1) as [|Hne]; simpl in H;
    [injection H as <- _; exact Hnew|].
  destruct (20 <? S (length anc))%nat; [injection H as <- _; exact Hnew|].
  eapply IH; [exact H | exact Hnew | exact Hne].
Qed.

End Ancestry.

Lemma build_ancestry_skips_init w proc t l t' :
  provider_consistent w -> ppid proc <> 1 ->
  build_ancestry w proc t = Some (Ok l, t') ->
  Forall (fun a => pid a <> 1) l.
Proof.
  intros Hc Hp H.
  eapply build_ancestry_loop_no_init; [exact Hc | exact H | constructor | exact Hp].
Qed.

(** The Linux provider copies the pid it was called with. *)
Lemma get_process_info_linux_pid os p r :
  get_process_info_linux os p = Ok (Some r) -> pid r = p.
Proof.
  unfold get_process_info_linux. intros H.
  destruct (read_file os (proc_path p "/stat")) as [stat|e]; simpl in H; [|discriminate].
  destruct (match_stat stat) as [[[[pid_parsed nm] st] pp]|]; simpl in H; [|discriminate].
  destruct (int_of pp) as [n|e]; simpl in H; [|discriminate].
  injection H as <-. reflexivity.
Qed.

Lemma linux_provider_consistent w :
  platform w = Linux -> provider_consistent w.
Proof.
  intros Hp t p r. unfold get_process_info, IS_MACOS, IS_LINUX. rewrite Hp.
  apply get_process_info_linux_pid.
Qed.


(** C10.  With a provider whose snapshots carry the pid they were asked
    for, [build_ancestry] returns, and what it returns is a chain of
    parent links that ends at the parent of the target: the pid of the
    last element is the target's ppid, and in every pair of neighbours
    the pid of the earlier element is the ppid of the later one. *)
Theorem build_ancestry_chain (w : World) (proc : ProcessInfo) (t : nat) :
  provider_consistent w ->
  exists l t',
    build_ancestry w proc t = Some (Ok l, t') /\
    (forall x, last l = Some x -> pid x = ppid proc) /\
    (forall (i : nat) a b, l !! i = Some a -> l !! S i = Some b -> pid a = ppid b).
Proof.
  intros Hc. destruct (build_ancestry_returns w proc t) as (l & t' & H).
  exists l, t'. split; [exact H|].
  assert (Hch : chain_to (ppid proc) l).
  { eapply build_ancestry_loop_chain; [exact Hc | exact H | | | ].
    - split; [intros i a b Ha; discriminate | intros x Hx; discriminate].
    - intros h Hh. discriminate.
    - reflexivity. }
  destruct Hch as [Hl Hlast]. split; [exact Hlast | exact Hl].
Qed.

Lemma build_ancestry_chain_witness :
  provider_consistent (linux_world deep_table) /\
  exists l t',
    build_ancestry (linux_world deep_table) (target 60 "sh" 59) 0 = Some (Ok l, t') /\
    (forall x, last l = Some x -> pid x = ppid (target 60 "sh" 59)) /\
    (forall (i : nat) a b, l !! i = Some a -> l !! S i = Some b -> pid a = ppid b).
Proof.
  split.
  - apply linux_provider_consistent. reflexivity.
  - apply (build_ancestry_chain (linux_world deep_table) (target 60 "sh" 59) 0).
    apply linux_provider_consistent. reflexivity.
Defined.

(** C2.  Below pid 60 of the deep table lie 58 further shells and init.
    [build_ancestry] stops once the list holds more than 20 entries,
    which is when it holds 21: the ancestors 39 to 59 are returned. *)
Theorem build_ancestry_deep_chain :
  exists l t',
    build_ancestry (linux_world deep_table) (target 60 "sh" 59) 0 = Some (Ok l, t') /\
    map pid l = map Z.of_nat (seq 39 21) /\
    length l = 21%nat.
Proof.
  destruct (build_ancestry_returns (linux_world deep_table) (target 60 "sh" 59) 0)
    as (l & t' & H).
  exists l, t'. split; [exact H|].
  revert H. vm_compute. intros [= <- <-]. split; reflexivity.
Qed.

(** A process that is its own parent fills the list in the same way. *)
Example build_ancestry_self_parent :
  exists l t',
    build_ancestry (linux_world [(5, "loop", 5)]) (target 5 "loop" 5) 0 = Some (Ok l, t') /\
    map pid l = repeat 5 21.
Proof.
  destruct (build_ancestry_returns (linux_world [(5, "loop", 5)]) (target 5 "loop" 5) 0)
    as (l & t' & H).
  exists l, t'. split; [exact H|].
  revert H. vm_compute. intros [= <- <-]. reflexivity.
Qed.

(** C3.  In the small table the worker's parent is sshd and sshd's
    parent is init, which the provider resolves.  [build_ancestry] looks
    up sshd, sees that the next pid is 1 and leaves the loop before it
    looks init up: the list holds sshd alone. *)
Theorem build_ancestry_stops_before_init :
  (exists r, get_process_info (linux_world small_table) 0 100 = Ok (Some r) /\ ppid r = 1) /\
  (exists r, get_process_info (linux_world small_table) 0 1 = Ok (Some r) /\ pid r = 1) /\
  exists l t',
    build_ancestry (linux_world small_table) (target 200 "worker" 100) 0 = Some (Ok l, t') /\
    map pid l = [100] /\
    Forall (fun a => pid a <> 1) l.
Proof.
  split; [|split].
  - eexists. split; [vm_compute; reflexivity | reflexivity].
  - eexists. split; [vm_compute; reflexivity | reflexivity].
  - destruct (build_ancestry_returns (linux_world small_table) (target 200 "worker" 100) 0)
      as (l & t' & H).
    exists l, t'. split; [exact H|].
    revert H. vm_compute. intros [= <- <-].
    split; [reflexivity|]. repeat constructor. discriminate.
Qed.

(** Init is in the list when it is the parent of the target itself. *)
Example build_ancestry_child_of_init :
  exists l t',
    build_ancestry (linux_world small_table) (target 100 "sshd" 1) 0 = Some (Ok l, t') /\
    map pid l = [1].
Proof.
  destruct (build_ancestry_returns (linux_world small_table) (target 100 "sshd" 1) 0)
    as (l & t' & H).
  exists l, t'. split; [exact H|].
  revert H. vm_compute. intros [= <- <-]. reflexivity.
Qed.

(** ** The source classifier *)

Ltac fields p := destruct p; reflexivity.

Lemma pid_set_source v p : pid (set_source v p) = pid p.
Proof. fields p. Qed.
Lemma pid_set_source_detail v p : pid (set_source_detail v p) = pid p.
Proof. fields p. Qed.
Lemma pid_set_container_name v p : pid (set_container_name v p) = pid p.
Proof. fields p. Qed.
Lemma pid_set_container_image v p : pid (set_container_image v p) = pid p.
Proof. fields p. Qed.
Lemma ancestry_set_source v p : ancestry (set_source v p) = ancestry p.
Proof. fields p. Qed.
Lemma ancestry_set_source_detail v p : ancestry (set_source_detail v p) = ancestry p.
Proof. fields p. Qed.
Lemma ancestry_set_container_name v p : ancestry (set_container_name v p) = ancestry p.
Proof. fields p. Qed.
Lemma ancestry_set_container_image v p : ancestry (set_container_image v p) = ancestry p.
Proof. fields p. Qed.
Lemma source_set_source v p : source (set_source v p) = v.
Proof. fields p. Qed.
Lemma source_set_source_detail v p : source (set_source_detail v p) = source p.
Proof. fields p. Qed.
Lemma source_set_container_name v p : source (set_container_name v p) = source p.
Proof. fields p. Qed.
Lemma source_set_container_image v p : source (set_container_image v p) = source p.
Proof. fields p. Qed.

Ltac simpl_fields :=
  repeat progress rewrite ?pid_set_source, ?pid_set_source_detail, ?pid_set_container_name,
    ?pid_set_container_image, ?ancestry_set_source, ?ancestry_set_source_detail,
    ?ancestry_set_container_name, ?ancestry_set_container_image,
    ?source_set_source, ?source_set_source_detail, ?source_set_container_name,
    ?source_set_container_image.

Lemma systemd_lines_writes lines p :
  systemd_lines lines p = write_detail (systemd_detail lines) p.
Proof.
  induction lines as [|line rest IH]; simpl; [reflexivity|].
  destruct (Py.contains ".service" line || Py.contains ".socket" line); [|exact IH].
  destruct (search_unit line); [reflexivity | exact IH].
Qed.

Lemma pid_write_container f p : pid (write_container f p) = pid p.
Proof. destruct f as [[n i]|]; simpl; [fields p | reflexivity]. Qed.

Lemma docker_lines_writes lines :
  forall acc p,
    docker_lines lines (write_container acc p) =
    write_container (docker_fields (Py.str (pid p)) lines acc) p.
Proof.
  induction lines as [|line rest IH]; intros acc p; simpl; [reflexivity|].
  rewrite pid_write_container.
  destruct (Py.contains (Py.str (pid p)) line); [|apply IH].
  destruct (1 <? length (Py.split line))%nat; [|apply IH].
  rewrite <- IH. f_equal.
  destruct acc as [[n i]|]; destruct p; reflexivity.
Qed.

Lemma docker_lines_writes0 lines p :
  docker_lines lines p = write_container (docker_fields (Py.str (pid p)) lines None) p.
Proof. apply (docker_lines_writes lines None p). Qed.

Lemma classify_ancestor_none w os p a :
  classify_ancestor w os p a = None <-> recognised a = false.
Proof.
  unfold classify_ancestor, recognised.
  repeat match goal with
         | |- context [if ?c then _ else _] =>
             destruct c; cbn [orb]; [split; discriminate|]
         end.
  split; reflexivity.
Qed.

(** A rule that fires leaves the pid and the ancestry alone and sets a
    source; firing again on the outcome changes nothing. *)
Lemma classify_ancestor_again w os p a p1 :
  classify_ancestor w os p a = Some (Ok p1) ->
  classify_ancestor w os p1 a = Some (Ok p1) /\
  pid p1 = pid p /\ ancestry p1 = ancestry p /\ falsy (source p1) = false.
Proof.
  unfold classify_ancestor.
  destruct (String.eqb (name a) "systemd" && negb (pid a =? 1)).
  { rewrite !pid_set_source.
    destruct (IS_LINUX w).
    - destruct (run_command os ["systemctl"; "status"; Py.str (pid p)])
        as [[[rc out] err]|e] eqn:Hrun; simpl; [|discriminate].
      rewrite !systemd_lines_writes.
      destruct (rc =? 0) eqn:Hrc; intros [= <-].
      + destruct (systemd_detail (Py.splitlines out)) eqn:Hd; simpl;
          simpl_fields; rewrite Hrun; simpl; rewrite Hrc, systemd_lines_writes, Hd;
          (split; [destruct p; reflexivity|auto]).
      + simpl_fields. rewrite Hrun. simpl. rewrite Hrc.
        split; [destruct p; reflexivity|auto].
    - intros [= <-]. simpl_fields. split; [destruct p; reflexivity|auto]. }
  destruct (String.eqb (name a) "launchd").
  { intros [= <-]. simpl_fields. split; [destruct p; reflexivity|auto]. }
  destruct (Py.contains "docker" (name a) || Py.contains "containerd" (name a)).
  { destruct (run_command os ["docker"; "ps"; "--no-trunc"])
      as [[[rc out] err]|e] eqn:Hrun; simpl; [|discriminate].
    rewrite !docker_lines_writes0. rewrite !pid_set_source.
    destruct (rc =? 0); intros [= <-].
    - destruct (docker_fields (Py.str (pid p)) (Py.splitlines out) None) as [[n i]|] eqn:Hf;
        simpl; simpl_fields; rewrite ?Hf; simpl;
        (split; [destruct p; reflexivity|auto]).
    - simpl_fields. split; [destruct p; reflexivity|auto]. }
  destruct (Py.contains "PM2" (cmd a) || Py.contains "pm2" (name a)).
  { intros [= <-]. simpl_fields. split; [destruct p; reflexivity|auto]. }
  destruct (Py.contains "supervisor" (name a)).
  { intros [= <-]. simpl_fields. split; [destruct p; reflexivity|auto]. }
  destruct (String.eqb (name a) "cron" || Py.contains "CRON" (cmd a)).
  { intros [= <-]. simpl_fields. split; [destruct p; reflexivity|auto]. }
  destruct (mem String.eqb (name a) shells); [|discriminate].
  intros [= <-]. simpl_fields. split; [destruct p; reflexivity|auto].
Qed.

Lemma detect_source_scan_again w os ancestors :
  forall p p1,
    detect_source_scan w os p ancestors = Ok p1 ->
    detect_source_scan w os p1 ancestors = Ok p1 /\
    pid p1 = pid p /\ ancestry p1 = ancestry p /\ falsy (source p1) = false.
Proof.
  induction ancestors as [|a rest IH]; intros p p1; simpl.
  - destruct (falsy (source p)) eqn:Hf; intros [= <-].
    + simpl_fields. simpl. auto.
    + rewrite Hf. auto.
  - destruct (classify_ancestor w os p a) as [r|] eqn:Hc.
    + intros ->. apply classify_ancestor_again in Hc as (-> & H). auto.
    + intros H. apply classify_ancestor_none in Hc.
      apply (proj2 (classify_ancestor_none w os p1 a)) in Hc. rewrite Hc.
      apply IH, H.
Qed.

Lemma detect_source_scan_unknown w os p ancestors :
  Forall (fun a => recognised a = false) ancestors ->
  detect_source_scan w os p ancestors =
    Ok (if falsy (source p) then set_source (Some "unknown") p else p).
Proof.
  intros Hall. induction Hall as [|a rest Ha _ IH]; simpl; [reflexivity|].
  apply (proj2 (classify_ancestor_none w os p a)) in Ha. rewrite Ha. exact IH.
Qed.

(** C8.  Classifying twice is classifying once: when [detect_source]
    returns, a second call on its outcome, with the same answers of the
    external commands, returns that outcome unchanged (so source,
    source_detail, container_name and container_image are the same),
    and the source is set.  For a process without a source whose chain
    holds no recognised ancestor, both calls yield [unknown]. *)
Theorem detect_source_idempotent (w : World) (t : nat) (proc : ProcessInfo) :
  (forall p1, detect_source w t proc = Ok p1 ->
     detect_source w t p1 = Ok p1 /\ source p1 <> None /\ source p1 <> Some "") /\
  (Forall (fun a => recognised a = false) (ancestry proc) ->
   falsy (source proc) = true ->
     detect_source w t proc = Ok (set_source (Some "unknown") proc) /\
     detect_source w t (set_source (Some "unknown") proc) =
       Ok (set_source (Some "unknown") proc)).
Proof.
  assert (Hidem : forall p1, detect_source w t proc = Ok p1 ->
            detect_source w t p1 = Ok p1 /\ source p1 <> None /\ source p1 <> Some "").
  { intros p1 H. unfold detect_source in *.
    apply detect_source_scan_again in H as (H1 & _ & Ha & Hs).
    rewrite Ha. split; [exact H1|].
    split; intros E; rewrite E in Hs; discriminate. }
  split; [exact Hidem|].
  intros Hall Hsrc.
  assert (H : detect_source w t proc = Ok (set_source (Some "unknown") proc)).
  { unfold detect_source. rewrite detect_source_scan_unknown.
    - rewrite Hsrc. reflexivity.
    - apply List.Forall_rev, Hall. }
  split; [exact H | apply Hidem, H].
Qed.

Lemma detect_source_idempotent_witness :
  (let p := python_under (firstn 2 docker_shell_chain) in
   let p1 := set_source_detail (Some "nginx.service") (set_source (Some "systemd") p) in
   detect_source service_world 0 p = Ok p1 /\
   detect_source service_world 0 p1 = Ok p1 /\ source p1 <> None /\ source p1 <> Some "") /\
  (let p := python_under (firstn 1 docker_shell_chain) in
   Forall (fun a => recognised a = false) (ancestry p) /\
   falsy (source p) = true /\
   detect_source service_world 0 p = Ok (set_source (Some "unknown") p) /\
   detect_source service_world 0 (set_source (Some "unknown") p) =
     Ok (set_source (Some "unknown") p)).
Proof.
  split.
  - assert (H : detect_source service_world 0 (python_under (firstn 2 docker_shell_chain)) =
                Ok (set_source_detail (Some "nginx.service")
                      (set_source (Some "systemd")
                         (python_under (firstn 2 docker_shell_chain)))))
      by (vm_compute; reflexivity).
    split; [exact H|].
    exact (proj1 (detect_source_idempotent service_world 0
                    (python_under (firstn 2 docker_shell_chain))) _ H).
  - assert (Hall : Forall (fun a => recognised a = false)
                     (ancestry (python_under (firstn 1 docker_shell_chain))))
      by (repeat constructor).
    split; [exact Hall|]. split; [reflexivity|].
    exact (proj2 (detect_source_idempotent service_world 0
                    (python_under (firstn 1 docker_shell_chain))) Hall eq_refl).
Defined.

(** The chain init, systemd unit, docker, bash is classified by its
    nearest ancestor, the shell: the docker daemon further up is never
    looked at. *)
Lemma detect_source_docker_shell_chain :
  exists p1,
    detect_source service_world 0 (python_under docker_shell_chain) = Ok p1 /\
    source p1 = Some "interactive shell" /\
    source_detail p1 = Some "bash" /\
    source p1 <> Some "docker".
Proof.
  eexists. split; [vm_compute; reflexivity|].
  split; [reflexivity|]. split; [reflexivity | discriminate].
Qed.

(** Docker is the answer when the daemon is the nearest recognised
    ancestor, here the nearest one. *)
Example detect_source_docker_nearest :
  exists p1,
    detect_source service_world 0 (python_under (firstn 3 docker_shell_chain)) = Ok p1 /\
    source p1 = Some "docker" /\
    container_name p1 = Some "web" /\
    container_image p1 = Some "nginx:latest" /\
    source_detail p1 = Some "web".
Proof.
  eexists. split; [vm_compute; reflexivity|]. repeat split; reflexivity.
Qed.

(** C1, as the code has it.  For an ancestry that reads, root first,
    init, systemd unit, docker, bash, the scan starts at bash and the
    shell rule fires there, unless the command line of that shell holds
    PM2 or CRON: the source is [interactive shell] and the detail
    [bash], whatever the ancestors further up are. *)
Theorem detect_source_nearest_shell (w : World) (t : nat)
    (proc a_init a_unit a_docker a_bash : ProcessInfo) :
  ancestry proc = [a_init; a_unit; a_docker; a_bash] ->
  name a_bash = "bash" ->
  Py.contains "PM2" (cmd a_bash) = false ->
  Py.contains "CRON" (cmd a_bash) = false ->
  detect_source w t proc =
    Ok (set_source_detail (Some "bash") (set_source (Some "interactive shell") proc)).
Proof.
  intros Hanc Hname Hpm2 Hcron.
  unfold detect_source. rewrite Hanc. simpl.
  unfold classify_ancestor. rewrite Hname, Hpm2, Hcron. reflexivity.
Qed.

Lemma detect_source_nearest_shell_witness :
  let p := python_under docker_shell_chain in
  detect_source service_world 0 p =
    Ok (set_source_detail (Some "bash") (set_source (Some "interactive shell") p)).
Proof.
  apply (detect_source_nearest_shell service_world 0 (python_under docker_shell_chain)
           (ancestor 1 "systemd" "/sbin/init" 0)
           (ancestor 900 "systemd" "/lib/systemd/systemd --user" 1)
           (ancestor 1200 "dockerd" "/usr/bin/dockerd" 900)
           (ancestor 1300 "bash" "-bash" 1200)); reflexivity.
Defined.

(** ** The port resolver *)

Lemma all_ascii_complete (c : ascii) : In c all_ascii.
Proof.
  rewrite <- (ascii_nat_embedding c). apply in_map, in_seq.
  pose proof (nat_ascii_bounded c). lia.
Qed.

Lemma pairs_ok :
  forallb (fun a => forallb (pair_ok a) all_ascii) all_ascii = true.
Proof. vm_compute. reflexivity. Qed.

Lemma int16_pair (a b : ascii) :
  is_hex a = true -> is_hex b = true ->
  Py.int16 (String a (String b "")) = Some (hex_byte a b) /\
  0 <= hex_byte a b < 256.
Proof.
  intros Ha Hb. pose proof pairs_ok as H.
  rewrite List.forallb_forall in H. specialize (H a (all_ascii_complete a)).
  rewrite List.forallb_forall in H. specialize (H b (all_ascii_complete b)).
  unfold pair_ok in H. rewrite Ha, Hb in H. simpl in H.
  destruct (Py.int16 (String a (String b ""))) as [v|]; [|discriminate].
  apply andb_prop in H as [H _]. apply andb_prop in H as [H _].
  apply andb_prop in H as [H H2]. apply andb_prop in H as [H0 H1].
  apply Z.eqb_eq in H0. subst v. split; [reflexivity | lia].
Qed.

Lemma hex_not_colon (a : ascii) : is_hex a = true -> Ascii.eqb a ":" = false.
Proof.
  intros Ha. pose proof pairs_ok as H.
  rewrite List.forallb_forall in H. specialize (H a (all_ascii_complete a)).
  rewrite List.forallb_forall in H. specialize (H a (all_ascii_complete a)).
  unfold pair_ok in H. rewrite Ha in H. simpl in H.
  apply andb_prop in H as [H _]. apply andb_prop in H as [_ H].
  destruct (Ascii.eqb a ":"); [discriminate | reflexivity].
Qed.

Lemma ipv4_dotted_reversed c0 c1 c2 c3 c4 c5 c6 c7 :
  forallb is_hex [c0; c1; c2; c3; c4; c5; c6; c7] = true ->
  fallback_ip_str (text8 c0 c1 c2 c3 c4 c5 c6 c7) =
    Ok (dotted_reversed c0 c1 c2 c3 c4 c5 c6 c7).
Proof.
  intros H. simpl in H.
  repeat (apply andb_prop in H as [? H]).
  unfold fallback_ip_str, ipv4_dotted, int16_of, text8, dotted_reversed.
  cbn [String.length Nat.eqb Py.slice Py.take Py.drop Nat.sub].
  rewrite (proj1 (int16_pair c6 c7 ltac:(assumption) ltac:(assumption))).
  rewrite (proj1 (int16_pair c4 c5 ltac:(assumption) ltac:(assumption))).
  rewrite (proj1 (int16_pair c2 c3 ltac:(assumption) ltac:(assumption))).
  rewrite (proj1 (int16_pair c0 c1 ltac:(assumption) ltac:(assumption))).
  reflexivity.
Qed.

Lemma append_empty_r (s : string) : s +:+ "" = s.
Proof.
  induction s as [|c r IH]; [reflexivity|].
  change (String c (r +:+ "") = String c r). f_equal. exact IH.
Qed.

Lemma rev_app_rev_app (s : string) :
  forall a b, Py.rev_app (Py.rev_app s a) b = Py.rev_app a (s +:+ b).
Proof.
  induction s as [|c r IH]; intros a b; [reflexivity|].
  change (Py.rev_app (Py.rev_app r (String c a)) b = Py.rev_app (String c a) (r +:+ b)).
  apply IH.
Qed.

Lemma rev_rev (s : string) : Py.rev (Py.rev s) = s.
Proof. unfold Py.rev. rewrite rev_app_rev_app. simpl. apply append_empty_r. Qed.

Lemma split_on_go_no_sep (sep : ascii) (s : string) :
  Py.has_char sep s = false ->
  forall cur, Py.split_on_go sep cur s = [Py.rev (Py.rev_app s cur)].
Proof.
  induction s as [|c r IH]; intros H cur; simpl in *; [reflexivity|].
  apply orb_false_iff in H as [Hc Hr]. rewrite Hc. apply IH, Hr.
Qed.

Lemma split_on_address (c0 c1 c2 c3 c4 c5 c6 c7 : ascii) (port_field : string) :
  forallb is_hex [c0; c1; c2; c3; c4; c5; c6; c7] = true ->
  Py.has_char ":" port_field = false ->
  Py.has_char ":" (text8 c0 c1 c2 c3 c4 c5 c6 c7 +:+ ":" +:+ port_field) = true /\
  Py.split_on ":" (text8 c0 c1 c2 c3 c4 c5 c6 c7 +:+ ":" +:+ port_field) =
    [text8 c0 c1 c2 c3 c4 c5 c6 c7; port_field].
Proof.
  intros H Hp. simpl in H.
  repeat (apply andb_prop in H as [?%hex_not_colon H]).
  change (text8 c0 c1 c2 c3 c4 c5 c6 c7 +:+ ":" +:+ port_field)
    with (String c0 (String c1 (String c2 (String c3 (String c4 (String c5
            (String c6 (String c7 (String ":" port_field))))))))).
  unfold Py.split_on, text8. cbn [Py.has_char Py.split_on_go].
  repeat match goal with E : Ascii.eqb _ ":" = false |- _ => rewrite E; clear E end.
  cbn [orb Ascii.eqb Bool.eqb andb]. split; [reflexivity|].
  rewrite (split_on_go_no_sep ":" port_field Hp). simpl.
  fold (Py.rev port_field). rewrite rev_rev. reflexivity.
Qed.

(** C7.  A listening line whose local address is eight hexadecimal
    digits and whose port is the one asked for: the owner of the socket
    gets the address whose four numbers are the four byte pairs read
    from the last to the first, followed by the port in decimal.  On
    the example system the line with [0100007F:1F90] gives
    [127.0.0.1:8080] for port 8080. *)
Theorem fallback_ipv4_address :
  (forall (w : World) (port : Z) (line : string) (processes : list ProcessInfo)
          (t t' : nat) (parts : list string) (c0 c1 c2 c3 c4 c5 c6 c7 : ascii)
          (port_field inode : string) (owner : ProcessInfo),
      Py.split line = parts ->
      (10 <= length parts)%nat ->
      parts !! 1%nat = Some (text8 c0 c1 c2 c3 c4 c5 c6 c7 +:+ ":" +:+ port_field) ->
      parts !! 3%nat = Some "0A" ->
      parts !! 9%nat = Some inode ->
      forallb is_hex [c0; c1; c2; c3; c4; c5; c6; c7] = true ->
      Py.has_char ":" port_field = false ->
      Py.upper port_field = Py.upper (Py.format_04X port) ->
      find_process_by_socket_inode_linux w inode t = (Some owner, t') ->
      net_line w port line (processes, t) =
        (Ok (),
         (append_new
            (set_listening_addresses
               (listening_addresses owner ++
                [dotted_reversed c0 c1 c2 c3 c4 c5 c6 c7 +:+ ":" +:+ Py.str port])
               owner)
            processes, t'))) /\
  dotted_reversed "0" "1" "0" "0" "0" "0" "7" "F" = "127.0.0.1" /\
  (exists p rest t',
      find_process_by_port_linux_proc socket_world 8080 0 = (p :: rest, t') /\
      pid p = 100 /\ listening_addresses p = ["127.0.0.1:8080"]).
Proof.
  split; [|split].
  - intros w port line processes t t' parts c0 c1 c2 c3 c4 c5 c6 c7 port_field inode
           owner Hsplit Hlen H1 H3 H9 Hhex Hcolon Hport Hown.
    unfold net_line. rewrite Hsplit.
    destruct (Nat.ltb_spec (length parts) 10) as [|_]; [lia|].
    unfold item. rewrite H1, H3, H9. cbn [or_raise mbind Result_bind].
    cbn [String.eqb Ascii.eqb Bool.eqb negb andb].
    destruct (split_on_address c0 c1 c2 c3 c4 c5 c6 c7 port_field Hhex Hcolon)
      as [Hhas Hsp].
    rewrite Hhas, Hsp. cbn [lookup list_lookup or_raise].
    rewrite Hport, String.eqb_refl, Hown.
    cbn [mbind Result_bind].
    rewrite (ipv4_dotted_reversed _ _ _ _ _ _ _ _ Hhex). reflexivity.
  - vm_compute. reflexivity.
  - eexists _, _, _. split; [vm_compute; reflexivity|]. split; reflexivity.
Qed.

Lemma fallback_ipv4_address_witness :
  exists owner,
    find_process_by_socket_inode_linux socket_world "12345" 0 = (Some owner, 1%nat) /\
    net_line socket_world 8080 tcp_listen_line ([], 0%nat) =
      (Ok (),
       ([set_listening_addresses (listening_addresses owner ++ ["127.0.0.1:8080"]) owner],
        1%nat)).
Proof.
  destruct (find_process_by_socket_inode_linux socket_world "12345" 0) as [o t'] eqn:Hown.
  assert (Ho : exists owner, (o, t') = (Some owner, 1%nat))
    by (revert Hown; vm_compute; intros [= <- <-]; eexists; reflexivity).
  destruct Ho as [owner Ho]. rewrite Ho in Hown. rewrite Ho.
  exists owner. split; [reflexivity|].
  exact (proj1 fallback_ipv4_address socket_world 8080 tcp_listen_line [] 0%nat 1%nat
           (Py.split tcp_listen_line) "0"%char "1"%char "0"%char "0"%char "0"%char
           "0"%char "7"%char "F"%char "1F90" "12345" owner
           eq_refl ltac:(vm_compute; lia) eq_refl eq_refl eq_refl eq_refl eq_refl eq_refl
           Hown).
Defined.

(** An address that is not eight characters long is copied as it
    stands by the port resolver's fallback, without brackets. *)
Lemma fallback_ip_str_other_length (addr_ip : string) :
  String.length addr_ip <> 8%nat -> fallback_ip_str addr_ip = Ok addr_ip.
Proof.
  intros H. unfold fallback_ip_str.
  destruct (Nat.eqb_spec (String.length addr_ip) 8); [contradiction | reflexivity].
Qed.

(** The same address in [detect_listening_ports_linux_proc] is put in
    brackets. *)
Lemma listening_ip_str_other_length (addr_hex : string) :
  String.length addr_hex <> 8%nat -> listening_ip_str addr_hex = Ok (bracketed addr_hex).
Proof.
  intros H. unfold listening_ip_str.
  destruct (Nat.eqb_spec (String.length addr_hex) 8); [contradiction | reflexivity].
Qed.

(** C6.  On the example system the IPv6 socket of nginx is reported by
    the port resolver as the bare 32 digits and the port; for the same
    line of the same table [detect_listening_ports_linux_proc] writes
    the digits in brackets. *)
Theorem fallback_ipv6_address_not_bracketed :
  (exists p q t',
      find_process_by_port socket_world 8080 0 = (Ok [p; q], t') /\
      pid q = 100 /\
      listening_addresses q = ["00000000000000000000000000000000:8080"] /\
      listening_addresses q <> ["[00000000000000000000000000000000]:8080"]) /\
  (exists p,
      get_process_info socket_world 0 100 = Ok (Some p) /\
      listening_addresses (detect_listening_ports_linux_proc (at_tick socket_world 0) p) =
        ["127.0.0.1:8080"; "[00000000000000000000000000000000]:8080"]).
Proof.
  split.
  - eexists _, _, _. split; [vm_compute; reflexivity|].
    split; [reflexivity|]. split; [reflexivity | discriminate].
  - eexists. split; [vm_compute; reflexivity|]. vm_compute. reflexivity.
Qed.

(** C5.  On the example system lsof names pid 100 twice.  The two
    snapshots of the process differ in their start time, which is
    reckoned from the clock at each call, so the second is not found in
    the list by [==] and is added: the result holds pid 100 twice. *)
Theorem find_process_by_port_same_pid_twice :
  exists p q t',
    find_process_by_port mac_world 8080 0 = (Ok [p; q], t') /\
    pid p = 100 /\ pid q = 100 /\
    start_time p <> start_time q /\
    listening_addresses p = listening_addresses q /\
    ProcessInfo_eqb q p = false.
Proof.
  eexists _, _, _. split; [vm_compute; reflexivity|].
  split; [reflexivity|]. split; [reflexivity|]. split; [discriminate|].
  split; [reflexivity | vm_compute; reflexivity].
Qed.

(** With a clock that stands still the two snapshots are equal in every
    field and the second is left out. *)
Example find_process_by_port_equal_snapshots :
  exists p t',
    find_process_by_port mac_frozen_world 8080 0 = (Ok [p], t') /\ pid p = 100.
Proof. eexists _, _. split; [vm_compute; reflexivity | reflexivity]. Qed.

(** ** Reading the stat record *)

Lemma decimals_ok : forallb decimal_ok all_ascii = true.
Proof. vm_compute. reflexivity. Qed.

Lemma decimal_facts (c : ascii) :
  Py.isdecimal c = true ->
  Py.isspace c = false /\ (Py.code c =? 45)%N = false /\ (Py.code c =? 43)%N = false /\
  Py.is_underscore c = false /\
  exists d, Py.digit_value c = Some d /\ (d <? 10) = true.
Proof.
  intros Hc. pose proof decimals_ok as H.
  rewrite List.forallb_forall in H. specialize (H c (all_ascii_complete c)).
  unfold decimal_ok in H. rewrite Hc in H. simpl in H.
  repeat (apply andb_prop in H as [H ?]).
  repeat match goal with E : negb _ = true |- _ => apply negb_true_iff in E end.
  repeat split; try assumption.
  destruct (Py.digit_value c) as [d|]; [eauto | discriminate].
Qed.

Lemma all_chars_rev_app (p : ascii -> bool) (s : string) :
  forall acc, Py.all_chars p (Py.rev_app s acc) = Py.all_chars p s && Py.all_chars p acc.
Proof.
  induction s as [|c r IH]; intros acc; simpl; [reflexivity|].
  rewrite IH. simpl. destruct (p c), (Py.all_chars p r); reflexivity.
Qed.

Lemma rev_nonempty (s : string) : s <> "" -> Py.rev s <> "".
Proof.
  intros Hs E. apply Hs. rewrite <- (rev_rev s), E. reflexivity.
Qed.

Lemma span_all (p : ascii -> bool) (s : string) :
  Py.all_chars p (fst (span p s)) = true.
Proof.
  induction s as [|c r IH]; simpl; [reflexivity|].
  destruct (p c) eqn:Hc; [|reflexivity].
  destruct (span p r) as [a b]. simpl in *. rewrite Hc, IH. reflexivity.
Qed.

Lemma stat_tail_decimal (s st pp : string) :
  stat_tail s = Some (st, pp) -> pp <> "" /\ Py.all_chars Py.isdecimal pp = true.
Proof.
  unfold stat_tail.
  destruct s as [|c0 [|c1 [|c2 [|c3 r]]]]; try discriminate.
  destruct (_ && _); [|discriminate].
  pose proof (span_all Py.isdecimal r) as Hall.
  destruct (span Py.isdecimal r) as [d rest]. simpl in Hall.
  destruct d as [|x d']; simpl; [discriminate|].
  intros [= _ <-]. split; [discriminate | exact Hall].
Qed.

Lemma lazy_name_decimal (s : string) :
  forall acc nm st pp,
    lazy_name acc s = Some (nm, st, pp) ->
    pp <> "" /\ Py.all_chars Py.isdecimal pp = true.
Proof.
  induction s as [|c r IH]; intros acc nm st pp; cbn [lazy_name]; [discriminate|].
  destruct (if Py.is_empty acc then None else stat_tail (String c r))
    as [[st' pp']|] eqn:Ht.
  - intros [= _ _ <-]. destruct (Py.is_empty acc); [discriminate|].
    eapply stat_tail_decimal, Ht.
  - destruct (Py.code c =? 10)%N; [discriminate | apply IH].
Qed.

(** C4.  The stat record of a process named [a) R 7], whose parent is
    pid 1.  By the outermost parentheses the name is [a) R 7] and the
    parent pid 1, and this is how the start time is read from the same
    record; the pattern with the lazy [.+?] ends the name at the first
    closing parenthesis that a state and a number follow, so the
    snapshot is named [a] and has parent pid 7. *)
Theorem stat_name_cut_at_first_parenthesis :
  exists stat p,
    read_file (at_tick (linux_world paren_table) 0) (proc_path 4242 "/stat") = Ok stat /\
    outermost_fields stat = Some ("a) R 7", "1") /\
    Py.split (List.last (Py.split_on ")" stat) "") !! 1%nat = Some "1" /\
    get_process_info (linux_world paren_table) 0 4242 = Ok (Some p) /\
    name p = "a" /\ ppid p = 7.
Proof.
  eexists _, _. split; [vm_compute; reflexivity|].
  split; [vm_compute; reflexivity|]. split; [vm_compute; reflexivity|].
  split; [vm_compute; reflexivity|]. split; reflexivity.
Qed.

(** A name without such a run inside is read whole, parentheses and
    spaces included. *)
Example stat_name_with_parentheses :
  match_stat "4242 ((sd-pam)) S 1 4242 4242 0 -1" = Some ("4242", "(sd-pam)", "S", "1") /\
  match_stat "77 (Web Content) S 4242 77 77 0 -1" = Some ("77", "Web Content", "S", "4242").
Proof. split; reflexivity. Qed.

(** ** The snapshot provider at its boundary *)

(** C9.  On macOS the path of the executable of pid 501 holds a space.
    ps answers with return code 0 and the row of the process, but
    [split(None, 5)] cuts the row at each space: the sixth field starts
    at the second word of the path and is no integer.  [int(parts[5])]
    stands under the [try] of the whole function, so the memory that
    cannot be read does not stay at 0: the provider returns None for a
    process that exists.  The Linux provider, given a process of the
    same name whose status file cannot be read, returns the snapshot
    with the name in full and 0 for the memory. *)
Theorem get_process_info_macos_spaced_path :
  (exists stdout err,
      run_command (at_tick chrome_world 0) (ps_fields_cmd 501) = Ok (0, stdout, err) /\
      Py.split_n 5 (Py.strip stdout) !! 0%nat = Some "501" /\
      Py.split_n 5 (Py.strip stdout) !! 5%nat = Some "Chrome 01:02:03 123456" /\
      int_of "Chrome 01:02:03 123456" = Raise ValueError /\
      get_process_info chrome_world 0 501 = Ok None) /\
  (exists q,
      linux_rss_lookup (at_tick (linux_world chrome_table) 0) 501 =
        Raise FileNotFoundError /\
      get_process_info (linux_world chrome_table) 0 501 = Ok (Some q) /\
      pid q = 501 /\ name q = "Google Chrome" /\ rss_kb q = 0).
Proof.
  split.
  - eexists _, _. split; [vm_compute; reflexivity|].
    split; [vm_compute; reflexivity|]. split; [vm_compute; reflexivity|].
    split; vm_compute; reflexivity.
  - eexists. split; [vm_compute; reflexivity|].
    split; [vm_compute; reflexivity|]. repeat split.
Qed.

(** ** The equality of the dataclass *)

Lemma ProcessInfo_nested_ind (P : ProcessInfo -> Prop) :
  (forall a b c d e f g h i j k l m n o q r s t,
      Forall P s -> Forall P t ->
      P (mkProcessInfo a b c d e f g h i j k l m n o q r s t)) ->
  forall p, P p.
Proof.
  intros H.
  exact (fix F (p : ProcessInfo) : P p :=
           match p with
           | mkProcessInfo a b c d e f g h i j k l m n o q r s t =>
               H a b c d e f g h i j k l m n o q r s t
                 ((fix G (x : list ProcessInfo) : Forall P x :=
                     match x return Forall P x with
                     | [] => List.Forall_nil P
                     | y :: x' => List.Forall_cons P y x' (F y) (G x')
                     end) s)
                 ((fix G (x : list ProcessInfo) : Forall P x :=
                     match x return Forall P x with
                     | [] => List.Forall_nil P
                     | y :: x' => List.Forall_cons P y x' (F y) (G x')
                     end) t)
           end).
Qed.

Lemma list_eqb_eq {A} (eqb : A -> A -> bool) (l1 : list A) :
  Forall (fun x => forall y, eqb x y = true <-> x = y) l1 ->
  forall l2, list_eqb eqb l1 l2 = true <-> l1 = l2.
Proof.
  induction 1 as [|x l1 Hx _ IH]; intros [|y l2]; simpl;
    try (split; [discriminate | discriminate]); [split; reflexivity|].
  rewrite andb_true_iff, Hx, IH. split; [intros [-> ->]; reflexivity|].
  intros [= -> ->]. split; reflexivity.
Qed.

Lemma option_eqb_eq {A} (eqb : A -> A -> bool) :
  (forall x y, eqb x y = true <-> x = y) ->
  forall a b, option_eqb eqb a b = true <-> a = b.
Proof.
  intros H [x|] [y|]; simpl; try (split; discriminate); [|split; reflexivity].
  rewrite H. split; [intros ->; reflexivity | intros [= ->]; reflexivity].
Qed.

(** [==] on two records holds exactly when all their fields agree. *)
Lemma ProcessInfo_eqb_eq (p q : ProcessInfo) : ProcessInfo_eqb p q = true <-> p = q.
Proof.
  revert q. induction p as [a b c d e f g h i j k l m n o q r s t Hs Ht]
    using ProcessInfo_nested_ind.
  intros [a' b' c' d' e' f' g' h' i' j' k' l' m' n' o' q' r' s' t'].
  cbn [ProcessInfo_eqb]. rewrite !andb_true_iff.
  rewrite !Z.eqb_eq, !String.eqb_eq, !(option_eqb_eq String.eqb String.eqb_eq).
  rewrite (list_eqb_eq String.eqb q), bool_decide_eq_true, (list_eqb_eq _ s Hs),
    (list_eqb_eq _ t Ht).
  - split; [|intros [= -> -> -> -> -> -> -> -> -> -> -> -> -> -> -> -> -> -> ->];
           repeat split].
    intros H. repeat match goal with H : _ /\ _ |- _ => destruct H end.
    subst. reflexivity.
  - apply Forall_forall. intros x _ y. apply String.eqb_eq.
Qed.

(** What [append_new] keeps out is a record equal in every field; a
    second snapshot of the same pid that differs anywhere is added. *)
Lemma append_new_differs (x : ProcessInfo) (l : list ProcessInfo) :
  Forall (fun y => x <> y) l -> append_new x l = (l ++ [x])%list.
Proof.
  intros H. unfold append_new, mem.
  assert (E : existsb (ProcessInfo_eqb x) l = false).
  { induction H as [|y l Hy _ IH]; simpl; [reflexivity|].
    rewrite IH, orb_false_r. destruct (ProcessInfo_eqb x y) eqn:E; [|reflexivity].
    apply ProcessInfo_eqb_eq in E. contradiction. }
  rewrite E. reflexivity.
Qed.

(** * Further properties *)

(** ** Numbers written and read back *)

Lemma rev_cons_of_lu (d : Decimal.uint) (k : N) (dk : Decimal.uint -> Decimal.uint) :
  (forall x, DecimalPos.Unsigned.of_lu (dk x) = (k + 10 * DecimalPos.Unsigned.of_lu x)%N) ->
  (forall x y, Decimal.revapp (dk x) y = Decimal.revapp x (dk y)) ->
  DecimalPos.Unsigned.of_lu (Decimal.rev (dk d)) =
    (DecimalPos.Unsigned.of_lu (Decimal.rev d) + k * 10 ^ DecimalPos.Unsigned.usize d)%N.
Proof.
  intros Hk Hr. unfold Decimal.rev at 1. rewrite Hr.
  rewrite DecimalPos.Unsigned.of_lu_revapp, Hk. simpl. lia.
Qed.

Lemma digits_step (c : ascii) (r : string) (acc v : Z) (seen no_us : bool) :
  Py.is_underscore c = false -> Py.digit_value c = Some v -> (v <? 10) = true ->
  Py.digits 10 acc seen no_us (String c r) = Py.digits 10 (10 * acc + v) true false r.
Proof. intros H1 H2 H3. cbn [Py.digits]. rewrite H1, H2, H3. reflexivity. Qed.

(** Reading the digits of [d] after [acc] *)
Lemma digits_string_of_uint (d : Decimal.uint) :
  forall acc,
    Py.digits 10 acc true false (NilEmpty.string_of_uint d) =
      Some (acc * 10 ^ Z.of_N (DecimalPos.Unsigned.usize d) +
            Z.of_N (DecimalPos.Unsigned.of_lu (Decimal.rev d))).
Proof.
  induction d; intros acc;
    [simpl; f_equal; lia | ..];
    cbn [NilEmpty.string_of_uint];
    erewrite digits_step by (vm_compute; reflexivity);
    rewrite IHd; f_equal;
    match goal with
    | |- context [DecimalPos.Unsigned.of_lu (Decimal.rev (?f d))] =>
        first [ rewrite (rev_cons_of_lu d 0%N f) by (intros; reflexivity)
              | rewrite (rev_cons_of_lu d 1%N f) by (intros; reflexivity)
              | rewrite (rev_cons_of_lu d 2%N f) by (intros; reflexivity)
              | rewrite (rev_cons_of_lu d 3%N f) by (intros; reflexivity)
              | rewrite (rev_cons_of_lu d 4%N f) by (intros; reflexivity)
              | rewrite (rev_cons_of_lu d 5%N f) by (intros; reflexivity)
              | rewrite (rev_cons_of_lu d 6%N f) by (intros; reflexivity)
              | rewrite (rev_cons_of_lu d 7%N f) by (intros; reflexivity)
              | rewrite (rev_cons_of_lu d 8%N f) by (intros; reflexivity)
              | rewrite (rev_cons_of_lu d 9%N f) by (intros; reflexivity) ]
    end;
    cbn [DecimalPos.Unsigned.usize];
    rewrite N2Z.inj_succ, Z.pow_succ_r by lia;
    rewrite N2Z.inj_add, N2Z.inj_mul, N2Z.inj_pow; lia.
Qed.

Lemma int_space_isspace (c : ascii) : Py.int_space c = true -> Py.isspace c = true.
Proof. destruct c as [[] [] [] [] [] [] [] []]; intros H; try reflexivity; discriminate H. Qed.

Lemma lstrip_int_not_space (s : string) :
  Py.all_chars not_space s = true -> Py.lstrip_int s = s.
Proof.
  destruct s as [|c r]; simpl; [reflexivity|].
  unfold not_space at 1. intros [Hc _]%andb_prop. apply negb_true_iff in Hc.
  destruct (Py.int_space c) eqn:E; [|reflexivity].
  apply int_space_isspace in E. congruence.
Qed.

(** [int] skips nothing of a text without white space. *)
Lemma strip_int_not_space (s : string) :
  Py.all_chars not_space s = true -> Py.strip_int s = s.
Proof.
  intros H. unfold Py.strip_int. rewrite (lstrip_int_not_space s H).
  rewrite lstrip_int_not_space; [apply rev_rev|].
  unfold Py.rev. rewrite all_chars_rev_app, H. reflexivity.
Qed.

Lemma string_of_uint_decimal (d : Decimal.uint) :
  Py.all_chars Py.isdecimal (NilEmpty.string_of_uint d) = true.
Proof. induction d; simpl; [reflexivity | exact IHd ..]. Qed.

Lemma all_chars_impl (p q : ascii -> bool) (s : string) :
  (forall c, p c = true -> q c = true) ->
  Py.all_chars p s = true -> Py.all_chars q s = true.
Proof.
  intros Hpq. induction s as [|c r IH]; simpl; [reflexivity|].
  intros [Hc Hr]%andb_prop. rewrite (Hpq c Hc), (IH Hr). reflexivity.
Qed.

Lemma decimal_not_space (c : ascii) : Py.isdecimal c = true -> not_space c = true.
Proof.
  intros H. apply decimal_facts in H as [H _]. unfold not_space. rewrite H. reflexivity.
Qed.

Lemma digit_count_string_of_uint (d : Decimal.uint) :
  Py.digit_count (NilEmpty.string_of_uint d) = DecimalPos.Unsigned.usize d.
Proof.
  induction d; cbn [NilEmpty.string_of_uint DecimalPos.Unsigned.usize]; [reflexivity|..];
    change (Py.digit_count (String ?c ?r)) with (N.succ (Py.digit_count r));
    rewrite IHd; reflexivity.
Qed.

(** [int] reads a run of at most 4300 decimal digits as the number they
    spell. *)
Lemma int_string_of_uint (d : Decimal.uint) :
  d <> Decimal.Nil ->
  (DecimalPos.Unsigned.usize d <= Py.int_max_str_digits)%N ->
  Py.int (NilEmpty.string_of_uint d) = Some (Z.of_N (Pos.of_uint d)) /\
  Py.limited_literal 10 (NilEmpty.string_of_uint d) = Some (Z.of_N (Pos.of_uint d)).
Proof.
  intros Hd Hlen.
  assert (Hu : Py.limited_literal 10 (NilEmpty.string_of_uint d) =
               Some (Z.of_N (Pos.of_uint d))).
  { unfold Py.limited_literal. rewrite digit_count_string_of_uint.
    apply N.leb_le in Hlen. rewrite Hlen. cbn [Z.eqb orb].
    rewrite DecimalPos.Unsigned.of_uint_alt.
    assert (Hdig : forall no_us, Py.digits 10 0 false no_us (NilEmpty.string_of_uint d) =
              Some (Z.of_N (DecimalPos.Unsigned.of_lu (Decimal.rev d)))).
    { intros no_us. pose proof (string_of_uint_decimal d) as Hall.
      destruct (NilEmpty.string_of_uint d) as [|c r] eqn:E.
      - destruct d; try discriminate; congruence.
      - simpl in Hall. apply andb_prop in Hall as [Hc _].
        apply decimal_facts in Hc as (_ & _ & _ & Hus & v & Hv & Hlt).
        rewrite (digits_step c r 0 v false no_us Hus Hv Hlt).
        pose proof (digits_string_of_uint d 0) as Hfull. rewrite E in Hfull.
        rewrite (digits_step c r 0 v true false Hus Hv Hlt) in Hfull.
        rewrite Hfull. f_equal; lia. }
    unfold Py.unsigned_literal.
    destruct (NilEmpty.string_of_uint d) as [|c0 [|c1 r]] eqn:E; apply Hdig. }
  split; [|exact Hu].
  unfold Py.int, Py.int_base.
  rewrite strip_int_not_space
    by (eapply all_chars_impl; [apply decimal_not_space | apply string_of_uint_decimal]).
  pose proof (string_of_uint_decimal d) as Hall.
  destruct (NilEmpty.string_of_uint d) as [|c r] eqn:E; [destruct d; try discriminate; congruence|].
  simpl in Hall. apply andb_prop in Hall as [Hc _].
  apply decimal_facts in Hc as (_ & -> & -> & _). exact Hu.
Qed.

Lemma nilzero_string_of_uint (d : Decimal.uint) :
  d <> Decimal.Nil -> NilZero.string_of_uint d = NilEmpty.string_of_uint d.
Proof. destruct d; [congruence | reflexivity ..]. Qed.

(** A numeral without a leading zero is worth at least ten to the
    number of its digits less one. *)
Lemma of_lu_rev_lower (d : Decimal.uint) :
  d <> Decimal.Nil -> (forall d', d <> Decimal.D0 d') ->
  (10 ^ N.pred (DecimalPos.Unsigned.usize d) <=
   DecimalPos.Unsigned.of_lu (Decimal.rev d))%N.
Proof.
  intros Hnil Hz.
  destruct d as [|d|d|d|d|d|d|d|d|d|d]; [congruence | exfalso; eapply Hz; reflexivity | ..];
    cbn [DecimalPos.Unsigned.usize]; rewrite N.pred_succ;
    match goal with
    | |- context [DecimalPos.Unsigned.of_lu (Decimal.rev (?f d))] =>
        first [ rewrite (rev_cons_of_lu d 1%N f) by (intros; reflexivity)
              | rewrite (rev_cons_of_lu d 2%N f) by (intros; reflexivity)
              | rewrite (rev_cons_of_lu d 3%N f) by (intros; reflexivity)
              | rewrite (rev_cons_of_lu d 4%N f) by (intros; reflexivity)
              | rewrite (rev_cons_of_lu d 5%N f) by (intros; reflexivity)
              | rewrite (rev_cons_of_lu d 6%N f) by (intros; reflexivity)
              | rewrite (rev_cons_of_lu d 7%N f) by (intros; reflexivity)
              | rewrite (rev_cons_of_lu d 8%N f) by (intros; reflexivity)
              | rewrite (rev_cons_of_lu d 9%N f) by (intros; reflexivity) ]
    end; nia.
Qed.

(** The numeral of a positive number below ten to the 4300 has at most
    4300 digits. *)
Lemma usize_to_uint (p : positive) :
  (N.pos p < 10 ^ Py.int_max_str_digits)%N ->
  (DecimalPos.Unsigned.usize (Pos.to_uint p) <= Py.int_max_str_digits)%N.
Proof.
  intros Hp.
  assert (Hnorm : Decimal.unorm (Pos.to_uint p) = Pos.to_uint p).
  { rewrite <- (DecimalPos.Unsigned.to_of (Pos.to_uint p)), DecimalPos.Unsigned.of_to.
    reflexivity. }
  assert (Hz : forall d', Pos.to_uint p <> Decimal.D0 d').
  { intros d' E. pose proof (DecimalPos.Unsigned.to_uint_nonzero p) as Hnz.
    unfold Decimal.unorm in Hnorm.
    destruct (Decimal.nzhead (Pos.to_uint p)) eqn:En;
      try (rewrite <- Hnorm in E; discriminate E).
    - apply Hnz. rewrite <- Hnorm. reflexivity.
    - exact (DecimalFacts.nzhead_nonzero _ _ En). }
  pose proof (of_lu_rev_lower _ (DecimalPos.Unsigned.to_uint_nonnil p) Hz) as Hlow.
  rewrite <- DecimalPos.Unsigned.of_uint_alt, DecimalPos.Unsigned.of_to in Hlow.
  assert (Hlt : (10 ^ N.pred (DecimalPos.Unsigned.usize (Pos.to_uint p)) <
                 10 ^ Py.int_max_str_digits)%N) by lia.
  apply N.pow_lt_mono_r_iff in Hlt; lia.
Qed.

(** What [str] writes of a number below ten to the 4300, [int] reads
    back. *)
Lemma int_str (n : Z) :
  Z.abs n < 10 ^ Z.of_N Py.int_max_str_digits -> Py.int (Py.str n) = Some n.
Proof.
  intros Hn. unfold Py.str.
  destruct n as [|p|p]; [reflexivity | |]; cbn [Z.to_int NilZero.string_of_int];
    pose proof (DecimalPos.Unsigned.to_uint_nonnil p) as Hnn;
    rewrite (nilzero_string_of_uint _ Hnn);
    (assert (Hlen : (DecimalPos.Unsigned.usize (Pos.to_uint p) <= Py.int_max_str_digits)%N)
      by (apply usize_to_uint; cbn [Z.abs] in Hn;
          apply N2Z.inj_lt; rewrite N2Z.inj_pow; exact Hn));
    destruct (int_string_of_uint _ Hnn Hlen) as [Hint Hu];
    rewrite DecimalPos.Unsigned.of_to in Hint, Hu.
  - exact Hint.
  - unfold Py.int, Py.int_base. rewrite strip_int_not_space.
    + change (Py.code "-" =? 45)%N with true. cbn iota. rewrite Hu. reflexivity.
    + cbn [Py.all_chars]. apply andb_true_intro. split; [reflexivity|].
      eapply all_chars_impl; [apply decimal_not_space | apply string_of_uint_decimal].
Qed.

Lemma str_nonneg_decimal (n : Z) :
  0 <= n -> Py.all_chars Py.isdecimal (Py.str n) = true /\ Py.str n <> "".
Proof.
  intros Hn. unfold Py.str. destruct n as [|p|p]; [split; [reflexivity | discriminate] | | lia].
  cbn [Z.to_int NilZero.string_of_int].
  pose proof (DecimalPos.Unsigned.to_uint_nonnil p) as Hnn.
  rewrite (nilzero_string_of_uint _ Hnn). split; [apply string_of_uint_decimal|].
  destruct (Pos.to_uint p); try discriminate; congruence.
Qed.

(** ** The ancestry resolver: how much it asks and returns *)

Lemma build_ancestry_loop_cost (w : World) fuel :
  forall anc cur t l t',
    build_ancestry_loop w fuel anc cur t = Some (Ok l, t') ->
    (length anc <= 20)%nat ->
    (length l <= 21)%nat /\ (length anc <= length l)%nat /\
    (t + (length l - length anc) <= t')%nat /\
    (t' <= t + (length l - length anc) + 1)%nat.
Proof.
  induction fuel as [|fuel IH]; intros anc cur t l t' H Hlen; [discriminate|].
  simpl in H. destruct (0 <? cur); [|injection H as <- <-; lia].
  destruct (get_process_info w t cur) as [[parent|]|e];
    [|injection H as <- <-; lia|discriminate].
  destruct (ppid parent =? 1); simpl in H; [injection H as <- <-; simpl; lia|].
  destruct (Nat.ltb_spec 20 (S (length anc))); [injection H as <- <-; simpl; lia|].
  apply IH in H; [|simpl; lia]. simpl in H. lia.
Qed.

(** X1.  [build_ancestry] always returns; the list has at most 21 entries;
    every entry costs one snapshot, and at most one snapshot more is
    taken (the one that finds no parent): never more than 21 in all. *)
Theorem build_ancestry_cost (w : World) (proc : ProcessInfo) (t : nat) :
  exists l t',
    build_ancestry w proc t = Some (Ok l, t') /\
    (length l <= 21)%nat /\
    (t + length l <= t')%nat /\ (t' <= t + length l + 1)%nat /\ (t' <= t + 21)%nat.
Proof.
  destruct (build_ancestry_returns w proc t) as (l & t' & H).
  exists l, t'. split; [exact H|].
  pose proof (build_ancestry_loop_cost w _ _ _ _ _ _ H) as Hc. simpl in Hc.
  specialize (Hc ltac:(lia)).
  assert (Hmax : (t' <= t + 21)%nat).
  { clear Hc. revert H. unfold build_ancestry, build_ancestry_fuel.
    generalize (ppid proc) as cur. generalize (@nil ProcessInfo) as anc.
    revert t. generalize 21%nat as fuel.
    induction fuel as [|fuel IH]; intros t anc cur H; [discriminate|].
    simpl in H. destruct (0 <? cur); [|injection H as _ <-; lia].
    destruct (get_process_info w t cur) as [[parent|]|e];
      [|injection H as _ <-; lia|discriminate].
    destruct ((ppid parent =? 1) || (20 <? S (length anc))%nat);
      [injection H as _ <-; lia|].
    apply IH in H. lia. }
  lia.
Qed.

Lemma ancestry_set_ancestry l p : ancestry (set_ancestry l p) = l.
Proof. fields p. Qed.
Lemma source_set_ancestry l p : source (set_ancestry l p) = source p.
Proof. fields p. Qed.

(** X2.  A process without a parent to look up (its parent pid is not
    positive, or the provider does not find the parent) gets an empty
    ancestry, and with that ancestry the classifier answers
    [unknown]. *)
Theorem orphan_is_unknown (w : World) (proc : ProcessInfo) (t : nat) :
  ppid proc <= 0 \/ get_process_info w t (ppid proc) = Ok None ->
  falsy (source proc) = true ->
  exists t',
    build_ancestry w proc t = Some (Ok [], t') /\
    forall t2, detect_source w t2 (set_ancestry [] proc) =
               Ok (set_source (Some "unknown") (set_ancestry [] proc)).
Proof.
  intros Hp Hs.
  assert (Hb : exists t', build_ancestry w proc t = Some (Ok [], t')).
  { unfold build_ancestry, build_ancestry_fuel. simpl.
    destruct (Z.ltb_spec 0 (ppid proc)) as [Hpos|Hle]; [|eauto].
    destruct Hp as [Hp|Hp]; [lia|]. rewrite Hp. eauto. }
  destruct Hb as [t' Hb]. exists t'. split; [exact Hb|].
  intros t2. unfold detect_source. rewrite ancestry_set_ancestry. simpl.
  rewrite source_set_ancestry, Hs. reflexivity.
Qed.

Lemma orphan_is_unknown_witness :
  exists t',
    build_ancestry (linux_world small_table) (target 1 "systemd" 0) 0 = Some (Ok [], t') /\
    forall t2, detect_source (linux_world small_table) t2
                 (set_ancestry [] (target 1 "systemd" 0)) =
               Ok (set_source (Some "unknown") (set_ancestry [] (target 1 "systemd" 0))).
Proof.
  apply (orphan_is_unknown (linux_world small_table) (target 1 "systemd" 0) 0).
  - left. simpl. lia.
  - reflexivity.
Defined.

(** X3.  A direct child of a systemd that runs as pid 1: the ancestry is
    that init alone, the systemd rule passes over pid 1, and the source
    is [unknown]. *)
Theorem child_of_systemd_init_is_unknown (w : World) (proc init : ProcessInfo) (t : nat) :
  ppid proc = 1 ->
  get_process_info w t 1 = Ok (Some init) ->
  pid init = 1 -> ppid init <= 0 -> name init = "systemd" ->
  Py.contains "PM2" (cmd init) = false -> Py.contains "CRON" (cmd init) = false ->
  falsy (source proc) = true ->
  build_ancestry w proc t = Some (Ok [init], S t) /\
  forall t2, detect_source w t2 (set_ancestry [init] proc) =
             Ok (set_source (Some "unknown") (set_ancestry [init] proc)).
Proof.
  intros Hpp Hget Hpid Hppid Hname Hpm2 Hcron Hs. split.
  - unfold build_ancestry, build_ancestry_fuel. rewrite Hpp.
    cbn [build_ancestry_loop]. change (0 <? 1) with true. cbn iota. rewrite Hget.
    destruct (Z.eqb_spec (ppid init) 1) as [E|_]; [lia|]. cbn [orb length].
    change (20 <? 1)%nat with false. cbn iota.
    destruct (Z.ltb_spec 0 (ppid init)); [lia | reflexivity].
  - intros t2. unfold detect_source. rewrite ancestry_set_ancestry. simpl.
    unfold classify_ancestor. rewrite Hname, Hpid, Hpm2, Hcron. simpl.
    rewrite source_set_ancestry, Hs. reflexivity.
Qed.

Lemma child_of_systemd_init_is_unknown_witness :
  exists init,
    get_process_info (linux_world small_table) 0 1 = Ok (Some init) /\
    build_ancestry (linux_world small_table) (target 100 "sshd" 1) 0 =
      Some (Ok [init], 1%nat) /\
    forall t2, detect_source (linux_world small_table) t2
                 (set_ancestry [init] (target 100 "sshd" 1)) =
               Ok (set_source (Some "unknown") (set_ancestry [init] (target 100 "sshd" 1))).
Proof.
  destruct (get_process_info (linux_world small_table) 0 1) as [[init|]|e] eqn:Hget;
    try (exfalso; revert Hget; vm_compute; discriminate).
  exists init. split; [reflexivity|].
  assert (Hinit : pid init = 1 /\ ppid init <= 0 /\ name init = "systemd" /\
                  Py.contains "PM2" (cmd init) = false /\
                  Py.contains "CRON" (cmd init) = false).
  { revert Hget. vm_compute. intros [= <-]. repeat split; discriminate. }
  destruct Hinit as (H1 & H2 & H3 & H4 & H5).
  exact (child_of_systemd_init_is_unknown (linux_world small_table)
           (target 100 "sshd" 1) init 0 eq_refl Hget H1 H2 H3 H4 H5 eq_refl).
Defined.

(** ** The classifier: what it writes *)

Lemma annotate_id p :
  p = annotate (source p) (source_detail p) (container_name p) (container_image p) p.
Proof. fields p. Qed.

Lemma annotate_set_source v s d cn ci p :
  set_source v (annotate s d cn ci p) = annotate v d cn ci p.
Proof. fields p. Qed.
Lemma source_annotate s d cn ci p : source (annotate s d cn ci p) = s.
Proof. fields p. Qed.

Ltac show_written p := destruct p; do 3 eexists; reflexivity.

Lemma classify_ancestor_written w os p a q :
  classify_ancestor w os p a = Some (Ok q) ->
  exists c, In c categories /\ written p q (Some c).
Proof.
  unfold classify_ancestor, written.
  destruct (String.eqb (name a) "systemd" && negb (pid a =? 1)).
  { intros H. exists "systemd". split; [simpl; tauto|]. revert H.
    destruct (IS_LINUX w).
    - destruct (run_command os _) as [[[rc out] err]|e]; simpl; [|discriminate].
      destruct (rc =? 0); intros [= <-]; [|show_written p].
      rewrite systemd_lines_writes. destruct (systemd_detail _); simpl; show_written p.
    - intros [= <-]. show_written p. }
  destruct (String.eqb (name a) "launchd").
  { intros [= <-]. exists "launchd". split; [simpl; tauto | show_written p]. }
  destruct (Py.contains "docker" (name a) || Py.contains "containerd" (name a)).
  { intros H. exists "docker". split; [simpl; tauto|]. revert H.
    destruct (run_command os _) as [[[rc out] err]|e]; simpl; [|discriminate].
    destruct (rc =? 0); intros [= <-]; [|show_written p].
    rewrite docker_lines_writes0. destruct (docker_fields _ _ _) as [[n i]|]; simpl;
      show_written p. }
  destruct (Py.contains "PM2" (cmd a) || Py.contains "pm2" (name a)).
  { intros [= <-]. exists "pm2". split; [simpl; tauto | show_written p]. }
  destruct (Py.contains "supervisor" (name a)).
  { intros [= <-]. exists "supervisor". split; [simpl; tauto | show_written p]. }
  destruct (String.eqb (name a) "cron" || Py.contains "CRON" (cmd a)).
  { intros [= <-]. exists "cron". split; [simpl; tauto | show_written p]. }
  destruct (mem String.eqb (name a) shells); [|discriminate].
  intros [= <-]. exists "interactive shell". split; [simpl; tauto | show_written p].
Qed.

Lemma detect_source_scan_written (w : World) (os : Instant) (p q : ProcessInfo)
    (l : list ProcessInfo) :
  detect_source_scan w os p l = Ok q ->
  exists s d cn ci,
    q = annotate s d cn ci p /\
    ((exists c, In c categories /\ s = Some c) \/
     (s = source p /\ falsy (source p) = false)).
Proof.
  induction l as [|a rest IH]; simpl.
  - destruct (falsy (source p)) eqn:Hf; intros [= <-].
    + exists (Some "unknown"), (source_detail p), (container_name p), (container_image p).
      split; [rewrite (annotate_id p) at 1; apply annotate_set_source|].
      left. exists "unknown". split; [simpl; tauto | reflexivity].
    + exists (source p), (source_detail p), (container_name p), (container_image p).
      split; [apply annotate_id|]. right. split; reflexivity.
  - destruct (classify_ancestor w os p a) as [r|] eqn:Hc; [|exact IH].
    intros ->. apply classify_ancestor_written in Hc as (c & Hin & d & cn & ci & ->).
    exists (Some c), d, cn, ci. split; [reflexivity|].
    left. exists c. split; [exact Hin | reflexivity].
Qed.



Lemma classify_ancestor_returns w os p a r :
  (exists x, run_command os ["systemctl"; "status"; Py.str (pid p)] = Ok x) ->
  (exists x, run_command os ["docker"; "ps"; "--no-trunc"] = Ok x) ->
  classify_ancestor w os p a = Some r -> exists q, r = Ok q.
Proof.
  intros [[[rc1 o1] e1] H1] [[[rc2 o2] e2] H2]. unfold classify_ancestor.
  rewrite pid_set_source, H1, H2. simpl.
  repeat match goal with
         | |- context [if ?c then _ else _] => destruct c
         end; intros [= <-]; eauto.
Qed.

(** X5.  When the two commands the classifier may run return, it returns,
    and a process that had no source has one of the eight categories
    afterwards. *)
Theorem detect_source_category (w : World) (t : nat) (p : ProcessInfo) :
  (exists x, run_command (at_tick w t) ["systemctl"; "status"; Py.str (pid p)] = Ok x) ->
  (exists x, run_command (at_tick w t) ["docker"; "ps"; "--no-trunc"] = Ok x) ->
  falsy (source p) = true ->
  exists q c, detect_source w t p = Ok q /\ In c categories /\ source q = Some c.
Proof.
  intros H1 H2 Hf.
  assert (Hret : exists q, detect_source w t p = Ok q).
  { unfold detect_source. generalize (List.rev (ancestry p)) as l.
    induction l as [|a rest IH]; simpl; [eauto|].
    destruct (classify_ancestor w (at_tick w t) p a) as [r|] eqn:Hc; [|exact IH].
    eapply classify_ancestor_returns; eassumption. }
  destruct Hret as [q Hq]. exists q.
  destruct (detect_source_scan_written w _ p q _ Hq) as (s & d & cn & ci & -> & Hs).
  destruct Hs as [(c & Hin & ->)|[_ Hnf]]; [|congruence].
  exists c. split; [exact Hq|]. split; [exact Hin | apply source_annotate].
Qed.

Lemma detect_source_category_witness :
  exists q c,
    detect_source service_world 0 (python_under docker_shell_chain) = Ok q /\
    In c categories /\ source q = Some c.
Proof.
  apply (detect_source_category service_world 0 (python_under docker_shell_chain)).
  - eexists. vm_compute. reflexivity.
  - eexists. vm_compute. reflexivity.
  - reflexivity.
Defined.

(** ** The snapshots and the port resolver *)

Lemma try_except_some {A} (c : Result (option A)) (r : A) :
  try_except c (fun _ => Ok None) = Ok (Some r) -> c = Ok (Some r).
Proof. destruct c; simpl; [tauto | discriminate]. Qed.

Lemma get_process_info_linux_fresh os p r :
  get_process_info_linux os p = Ok (Some r) -> fresh r.
Proof.
  unfold get_process_info_linux. intros H.
  destruct (read_file os (proc_path p "/stat")) as [stat|e]; simpl in H; [|discriminate].
  destruct (match_stat stat) as [[[[pid_parsed nm] st] pp]|]; simpl in H; [|discriminate].
  destruct (int_of pp) as [n|e]; simpl in H; [|discriminate].
  injection H as <-. unfold fresh. do 9 eexists. reflexivity.
Qed.

Lemma get_process_info_macos_fresh os p r :
  get_process_info_macos os p = Ok (Some r) -> fresh r.
Proof.
  unfold get_process_info_macos. intros H. apply try_except_some in H. revert H.
  destruct (run_command os (ps_fields_cmd p)) as [[[rc out] err]|e]; simpl; [|discriminate].
  destruct (negb (rc =? 0) || Py.is_empty (Py.strip out)); [discriminate|].
  destruct (length (Py.split_n 5 (Py.strip out)) <? 6)%nat; [discriminate|].
  set (parts := Py.split_n 5 (Py.strip out)).
  destruct (item parts 0) as [p0|?]; simpl; [|discriminate].
  destruct (int_of p0) as [pid_parsed|?]; simpl; [|discriminate].
  destruct (item parts 1) as [p1|?]; simpl; [|discriminate].
  destruct (int_of p1) as [pp|?]; simpl; [|discriminate].
  destruct (item parts 2) as [usr|?]; simpl; [|discriminate].
  destruct (item parts 3) as [p3|?]; simpl; [|discriminate].
  destruct (item parts 4) as [etime|?]; simpl; [|discriminate].
  destruct (item parts 5) as [p5|?]; simpl; [|discriminate].
  destruct (int_of p5) as [rss|?]; simpl; [|discriminate].
  destruct (run_command os (ps_command_cmd p)) as [[[rc1 o1] e1]|?]; simpl; [|discriminate].
  destruct (run_command os (lsof_cwd_cmd p)) as [[[rc2 o2] e2]|?]; simpl; [|discriminate].
  destruct (run_command os (ps_env_cmd p)) as [[[rc3 o3] e3]|?]; simpl; [|discriminate].
  intros [= <-]. unfold fresh. do 9 eexists. reflexivity.
Qed.

Lemma get_process_info_fresh w t p r :
  get_process_info w t p = Ok (Some r) -> fresh r.
Proof.
  unfold get_process_info.
  destruct (IS_MACOS w); [apply get_process_info_macos_fresh|].
  destruct (IS_LINUX w);
    [apply get_process_info_linux_fresh | apply get_process_info_macos_fresh].
Qed.

Lemma fresh_listening r : fresh r -> listening_addresses r = [].
Proof. intros (a & b & c & d & e & f & g & h & i & ->). reflexivity. Qed.

Lemma scan_fds_sound w inode nm fd_dir fds :
  forall t p t',
    scan_fds w inode nm fd_dir fds t = (Some (Some p), t') ->
    exists fd link n t0 t1,
      readlink (at_tick w t0) (fd_dir +:+ "/" +:+ fd) = Ok link /\
      Py.contains ("socket:[" +:+ inode +:+ "]") link = true /\
      int_of nm = Ok n /\
      get_process_info w t1 n = Ok (Some p).
Proof.
  induction fds as [|fd rest IH]; intros t p t'; simpl; [discriminate|].
  destruct (readlink (at_tick w t) (fd_dir +:+ "/" +:+ fd)) as [link|e] eqn:Hl; [|apply IH].
  destruct (Py.contains ("socket:[" +:+ inode +:+ "]") link) eqn:Hc; [|apply IH].
  destruct (int_of nm) as [n|e] eqn:Hn; [|apply IH].
  destruct (get_process_info w t n) as [r|e] eqn:Hg; [|apply IH].
  intros [= -> <-]. exists fd, link, n, t, t. auto.
Qed.

Lemma scan_pid_dirs_sound w inode names :
  forall t p t',
    scan_pid_dirs w inode names t = (Some p, t') -> holds_socket w inode p.
Proof.
  induction names as [|nm rest IH]; intros t p t'; simpl; [discriminate|].
  destruct (is_dir (at_tick w t) ("/proc/" +:+ nm)); simpl; [|apply IH].
  destruct (Py.isdigit nm) eqn:Hd; simpl; [|apply IH].
  destruct (path_exists (at_tick w t) (("/proc/" +:+ nm) +:+ "/fd")); simpl; [|apply IH].
  destruct (iterdir (at_tick w t) (("/proc/" +:+ nm) +:+ "/fd")) as [fds|e]; [|apply IH].
  destruct (scan_fds w inode nm (("/proc/" +:+ nm) +:+ "/fd") fds t) as [[r|] t1] eqn:Hs;
    [|apply IH].
  intros [= -> <-].
  apply scan_fds_sound in Hs as (fd & link & n & t0 & t2 & H1 & H2 & H3 & H4).
  exists nm, fd, link, n, t0, t2. auto.
Qed.

Lemma socket_owner_holds (w : World) (inode : string) (t t' : nat) (p : ProcessInfo) :
  find_process_by_socket_inode_linux w inode t = (Some p, t') -> holds_socket w inode p.
Proof.
  unfold find_process_by_socket_inode_linux.
  destruct (iterdir (at_tick w t) "/proc") as [names|e]; [|discriminate].
  apply scan_pid_dirs_sound.
Qed.

Lemma holds_socket_fresh (w : World) (inode : string) (p : ProcessInfo) :
  holds_socket w inode p -> fresh p.
Proof.
  intros (nm & fd & link & n & t0 & t1 & _ & _ & _ & _ & Hg).
  eapply get_process_info_fresh, Hg.
Qed.

(** X6.  The process [find_process_by_socket_inode_linux] returns is the
    snapshot of a numeric entry of /proc that holds a descriptor whose
    link names the socket; its fields outside the provider's are the
    defaults. *)
Theorem find_process_by_socket_inode_linux_sound (w : World) (inode : string)
    (t t' : nat) (p : ProcessInfo) :
  find_process_by_socket_inode_linux w inode t = (Some p, t') ->
  holds_socket w inode p /\ fresh p.
Proof.
  intros H. apply socket_owner_holds in H. split; [exact H|].
  eapply holds_socket_fresh, H.
Qed.

Lemma find_process_by_socket_inode_linux_sound_witness :
  exists p t', find_process_by_socket_inode_linux socket_world "12345" 0 = (Some p, t') /\
               holds_socket socket_world "12345" p /\ fresh p.
Proof.
  eexists. eexists. split; [vm_compute; reflexivity|].
  eapply (find_process_by_socket_inode_linux_sound socket_world "12345" 0).
  vm_compute. reflexivity.
Defined.

Lemma mem_ProcessInfo_false x l : mem ProcessInfo_eqb x l = false -> ~ In x l.
Proof.
  unfold mem. intros H Hin.
  assert (Ht : existsb (ProcessInfo_eqb x) l = true).
  { apply existsb_exists. exists x. split; [exact Hin|]. apply ProcessInfo_eqb_eq. reflexivity. }
  congruence.
Qed.

Lemma append_new_NoDup x l : NoDup l -> NoDup (append_new x l).
Proof.
  intros H. unfold append_new. destruct (mem ProcessInfo_eqb x l) eqn:E; [exact H|].
  apply NoDup_app. split; [exact H|]. split; [|apply NoDup_singleton].
  intros y Hy Hy1. apply list_elem_of_singleton in Hy1 as ->.
  apply (mem_ProcessInfo_false _ _ E). apply list_elem_of_In. exact Hy.
Qed.

Lemma append_new_Forall (P : ProcessInfo -> Prop) x l :
  P x -> Forall P l -> Forall P (append_new x l).
Proof.
  intros Hx Hl. unfold append_new. destruct (mem ProcessInfo_eqb x l); [exact Hl|].
  apply Forall_app. split; [exact Hl|]. apply Forall_singleton. exact Hx.
Qed.

(** What one row of a socket table does to the result *)
Lemma net_line_cases w port line l t r l' t' :
  net_line w port line (l, t) = (r, (l', t')) ->
  l' = l \/
  exists local_addr inode q t1 ip,
    listen_row port line local_addr inode /\
    row_address local_addr ip /\
    find_process_by_socket_inode_linux w inode t = (Some q, t1) /\
    l' = append_new (set_listening_addresses [ip +:+ ":" +:+ Py.str port] q) l.
Proof.
  unfold net_line, item.
  destruct (length (Py.split line) <? 10)%nat; [intros [= <- <- <-]; auto|].
  destruct (Py.split line !! 1%nat) as [local_addr|] eqn:H1; simpl;
    [|intros [= <- <- <-]; auto].
  destruct (Py.split line !! 3%nat) as [state|] eqn:H3; simpl;
    [|intros [= <- <- <-]; auto].
  destruct (Py.split line !! 9%nat) as [inode|] eqn:H9; simpl;
    [|intros [= <- <- <-]; auto].
  destruct (String.eqb state "0A") eqn:Hs; simpl; [|intros [= <- <- <-]; auto].
  apply String.eqb_eq in Hs. subst state.
  destruct (Py.has_char ":" local_addr); [|intros [= <- <- <-]; auto].
  destruct (Py.split_on ":" local_addr !! 1%nat) as [addr_port|] eqn:Hap; simpl;
    [|intros [= <- <- <-]; auto].
  destruct (String.eqb (Py.upper addr_port) (Py.upper (Py.format_04X port))) eqn:Hu;
    [|intros [= <- <- <-]; auto].
  apply String.eqb_eq in Hu.
  destruct (find_process_by_socket_inode_linux w inode t) as [[q|] t1] eqn:Hf;
    [|intros [= <- <- <-]; auto].
  destruct (Py.split_on ":" local_addr !! 0%nat) as [addr_ip|] eqn:H0; simpl;
    [|intros [= <- <- <-]; auto].
  destruct (fallback_ip_str addr_ip) as [ip|e] eqn:Hip; [|intros [= <- <- <-]; auto].
  intros [= <- <- <-]. right. exists local_addr, inode, q, t1, ip.
  split; [|split; [|split; [exact Hf|]]].
  - repeat split; try assumption. exists addr_port. split; assumption.
  - exists addr_ip. split; assumption.
  - apply socket_owner_holds, holds_socket_fresh in Hf as Hq.
    rewrite (fresh_listening q Hq). reflexivity.
Qed.

Section FallbackInvariant.

Variables (w : World) (port : Z) (I : list ProcessInfo -> Prop).

Lemma net_lines_inv (lines : list string) :
  (forall line local_addr inode q t t1 ip l,
      In line lines -> listen_row port line local_addr inode ->
      row_address local_addr ip ->
      find_process_by_socket_inode_linux w inode t = (Some q, t1) ->
      I l -> I (append_new (set_listening_addresses [ip +:+ ":" +:+ Py.str port] q) l)) ->
  forall st, I (fst st) -> I (fst (net_lines w port lines st)).
Proof.
  induction lines as [|line rest IH]; intros Hstep [l t] Hl; [exact Hl|].
  cbn [net_lines]. destruct (net_line w port line (l, t)) as [r [l' t']] eqn:Hn.
  assert (Hl' : I l').
  { apply net_line_cases in Hn as [->|(la & ino & q & t1 & ip & Hrow & Hip & Hf & ->)];
      [exact Hl|].
    eapply Hstep; eauto. left. reflexivity. }
  destruct r as [[]|e]; [|exact Hl'].
  apply IH; [|exact Hl'].
  intros. eapply Hstep; eauto. right. assumption.
Qed.

Lemma net_file_inv (path : string) :
  (forall t0 text line local_addr inode q t t1 ip l,
      read_file (at_tick w t0) path = Ok text -> In line (Py.file_lines text) ->
      listen_row port line local_addr inode ->
      row_address local_addr ip ->
      find_process_by_socket_inode_linux w inode t = (Some q, t1) ->
      I l -> I (append_new (set_listening_addresses [ip +:+ ":" +:+ Py.str port] q) l)) ->
  forall st, I (fst st) -> I (fst (net_file w port path st)).
Proof.
  intros Hstep st Hst. unfold net_file.
  destruct (read_file (at_tick w (snd st)) path) as [text|e] eqn:Hr; [|exact Hst].
  apply net_lines_inv; [|exact Hst]. intros. eapply Hstep; eauto.
Qed.

End FallbackInvariant.

(** X7.  Every process the fallback of the port resolver reports is the
    owner of the socket of a row in the state LISTEN, with the queried
    port, of /proc/net/tcp or /proc/net/tcp6, and carries one address,
    which ends with that port. *)
Theorem find_process_by_port_linux_proc_sound (w : World) (port : Z) (t : nat) :
  Forall (reported_for w port) (fst (find_process_by_port_linux_proc w port t)).
Proof.
  unfold find_process_by_port_linux_proc.
  apply net_file_inv.
  { intros. apply append_new_Forall; [|assumption].
    exists "/proc/net/tcp6", t0, text, line, local_addr, inode, t1, t2, q, ip.
    simpl. auto 10. }
  apply net_file_inv; [|constructor].
  intros. apply append_new_Forall; [|assumption].
  exists "/proc/net/tcp", t0, text, line, local_addr, inode, t1, t2, q, ip.
  simpl. auto 10.
Qed.

Lemma find_process_by_port_linux_proc_NoDup w port t :
  NoDup (fst (find_process_by_port_linux_proc w port t)).
Proof.
  unfold find_process_by_port_linux_proc.
  apply net_file_inv; [intros; apply append_new_NoDup; assumption|].
  apply net_file_inv; [intros; apply append_new_NoDup; assumption|].
  apply NoDup_nil_2.
Qed.

Lemma port_pid_NoDup w port pid_str st :
  NoDup (fst st) -> NoDup (fst (port_pid w port pid_str st)).
Proof.
  destruct st as [l t]. unfold port_pid. intros H.
  destruct (Py.is_empty pid_str); [exact H|].
  destruct (int_of pid_str) as [p|e]; [|exact H].
  destruct (get_process_info w t p) as [[q|]|e]; [|exact H|exact H].
  destruct (run_command _ _) as [[[rc2 out] err]|e]; [|exact H].
  apply append_new_NoDup. exact H.
Qed.

Lemma port_pids_NoDup w port pids :
  forall st, NoDup (fst st) ->
    NoDup (fst (fold_left (fun st pid_str => port_pid w port pid_str st) pids st)).
Proof.
  induction pids as [|x rest IH]; intros st H; simpl; [exact H|].
  apply IH. apply port_pid_NoDup. exact H.
Qed.

(** X8.  No two entries of the result of [find_process_by_port] are equal in
    every field, whichever of the two ways found them. *)
Theorem find_process_by_port_distinct (w : World) (port : Z) (t t' : nat)
    (l : list ProcessInfo) :
  find_process_by_port w port t = (Ok l, t') -> NoDup l.
Proof.
  unfold find_process_by_port.
  destruct (run_command _ _) as [[[rc out] err]|e]; [|discriminate].
  pose proof (port_pids_NoDup w port (Py.split_on "010" (Py.strip out)) ([], t)
                (NoDup_nil_2 : NoDup (fst ([], t)))) as Hl.
  destruct (rc =? 0).
  - destruct (fold_left _ _ _) as [processes t1]. simpl in Hl.
    destruct processes as [|x rest]; [|intros [= <- _]; exact Hl].
    destruct (IS_LINUX w); [|intros [= <- _]; apply NoDup_nil_2].
    pose proof (find_process_by_port_linux_proc_NoDup w port t1) as Hm.
    destruct (find_process_by_port_linux_proc w port t1) as [more t2].
    intros [= <- _]. exact Hm.
  - destruct (IS_LINUX w); [|intros [= <- _]; apply NoDup_nil_2].
    pose proof (find_process_by_port_linux_proc_NoDup w port t) as Hm.
    destruct (find_process_by_port_linux_proc w port t) as [more t2].
    intros [= <- _]. exact Hm.
Qed.

Lemma find_process_by_port_distinct_witness :
  exists l t', find_process_by_port mac_world 8080 0 = (Ok l, t') /\
               map pid l = [100; 100] /\ NoDup l.
Proof.
  eexists. eexists. split; [vm_compute; reflexivity|].
  split; [vm_compute; reflexivity|].
  eapply (find_process_by_port_distinct mac_world 8080 0). vm_compute. reflexivity.
Defined.

(** ** Integers without a sign, and the elapsed time *)

Lemma minus_code (c : ascii) : (Py.code c =? 45)%N = Ascii.eqb c "-".
Proof. destruct c as [[] [] [] [] [] [] [] []]; reflexivity. Qed.

Lemma all_chars_rev (p : ascii -> bool) (s : string) :
  Py.all_chars p (Py.rev s) = Py.all_chars p s.
Proof. unfold Py.rev. rewrite all_chars_rev_app. simpl. apply andb_true_r. Qed.

Lemma split_on_go_all (p : ascii -> bool) (sep : ascii) (s : string) :
  forall cur, Py.all_chars p s = true -> Py.all_chars p cur = true ->
    Forall (fun x => Py.all_chars p x = true) (Py.split_on_go sep cur s).
Proof.
  induction s as [|c r IH]; intros cur Hs Hcur; simpl.
  - apply Forall_singleton. rewrite all_chars_rev. exact Hcur.
  - simpl in Hs. apply andb_prop in Hs as [Hc Hr]. destruct (Ascii.eqb c sep).
    + apply Forall_cons. split; [rewrite all_chars_rev; exact Hcur|].
      apply IH; [exact Hr | reflexivity].
    + apply IH; [exact Hr|]. simpl. rewrite Hc, Hcur. reflexivity.
Qed.

Lemma split_on_go_free (sep : ascii) (s : string) :
  forall cur, Py.all_chars (fun c => negb (Ascii.eqb c sep)) cur = true ->
    Forall (fun x => Py.all_chars (fun c => negb (Ascii.eqb c sep)) x = true)
           (Py.split_on_go sep cur s).
Proof.
  induction s as [|c r IH]; intros cur Hcur; simpl.
  - apply Forall_singleton. rewrite all_chars_rev. exact Hcur.
  - destruct (Ascii.eqb c sep) eqn:Hc.
    + apply Forall_cons. split; [rewrite all_chars_rev; exact Hcur|].
      apply IH. reflexivity.
    + apply IH. simpl. rewrite Hc, Hcur. reflexivity.
Qed.

Lemma digit_value_nonneg (c : ascii) (d : Z) : Py.digit_value c = Some d -> 0 <= d.
Proof.
  unfold Py.digit_value, Py.between.
  destruct (48 <=? Py.code c)%N eqn:H1; simpl.
  - destruct (Py.code c <=? 57)%N; [intros [= <-]; apply N.leb_le in H1; lia|].
    destruct (97 <=? Py.code c)%N eqn:H2; simpl.
    + destruct (Py.code c <=? 102)%N; [intros [= <-]; apply N.leb_le in H2; lia|].
      destruct (65 <=? Py.code c)%N eqn:H3; simpl; [|discriminate].
      destruct (Py.code c <=? 70)%N; [intros [= <-]; apply N.leb_le in H3; lia|discriminate].
    + destruct (65 <=? Py.code c)%N eqn:H3; simpl; [|discriminate].
      destruct (Py.code c <=? 70)%N; [intros [= <-]; apply N.leb_le in H3; lia|discriminate].
  - destruct (97 <=? Py.code c)%N eqn:H2; simpl.
    + destruct (Py.code c <=? 102)%N; [intros [= <-]; apply N.leb_le in H2; lia|].
      destruct (65 <=? Py.code c)%N eqn:H3; simpl; [|discriminate].
      destruct (Py.code c <=? 70)%N; [intros [= <-]; apply N.leb_le in H3; lia|discriminate].
    + destruct (65 <=? Py.code c)%N eqn:H3; simpl; [|discriminate].
      destruct (Py.code c <=? 70)%N; [intros [= <-]; apply N.leb_le in H3; lia|discriminate].
Qed.

Lemma digits_nonneg (base : Z) (s : string) :
  0 <= base ->
  forall acc seen no_us n,
    0 <= acc -> Py.digits base acc seen no_us s = Some n -> 0 <= n.
Proof.
  intros Hb. induction s as [|c r IH]; intros acc seen no_us n Hacc; simpl.
  - destruct (seen && negb no_us); [intros [= <-]; exact Hacc | discriminate].
  - destruct (Py.is_underscore c).
    + destruct no_us; [discriminate | apply IH, Hacc].
    + destruct (Py.digit_value c) as [d|] eqn:Hd; [|discriminate].
      destruct (d <? base); [|discriminate].
      apply IH. apply digit_value_nonneg in Hd. nia.
Qed.

Lemma unsigned_literal_nonneg (base : Z) (s : string) (n : Z) :
  0 <= base -> Py.unsigned_literal base s = Some n -> 0 <= n.
Proof.
  intros Hb. unfold Py.unsigned_literal.
  destruct s as [|c0 [|c1 r]]; try (apply digits_nonneg; [exact Hb | lia]).
  destruct (_ && _); [|apply digits_nonneg; [exact Hb | lia]].
  destruct r as [|c2 r']; [discriminate|].
  destruct (Py.is_underscore c2); apply digits_nonneg; (exact Hb || lia).
Qed.

Lemma all_chars_lstrip_int (p : ascii -> bool) (s : string) :
  Py.all_chars p s = true -> Py.all_chars p (Py.lstrip_int s) = true.
Proof.
  induction s as [|c r IH]; simpl; [reflexivity|].
  intros [Hc Hr]%andb_prop. destruct (Py.int_space c); [apply IH, Hr|].
  simpl. rewrite Hc, Hr. reflexivity.
Qed.

Lemma all_chars_strip_int (p : ascii -> bool) (s : string) :
  Py.all_chars p s = true -> Py.all_chars p (Py.strip_int s) = true.
Proof.
  intros H. unfold Py.strip_int. rewrite all_chars_rev.
  apply all_chars_lstrip_int. rewrite all_chars_rev. apply all_chars_lstrip_int, H.
Qed.

Lemma limited_literal_nonneg (base : Z) (s : string) (n : Z) :
  0 <= base -> Py.limited_literal base s = Some n -> 0 <= n.
Proof.
  intros Hb. unfold Py.limited_literal.
  destruct (_ || _); [apply unsigned_literal_nonneg, Hb | discriminate].
Qed.

(** [int] of a text without a minus sign is not negative. *)
Lemma int_no_minus (s : string) (n : Z) :
  no_minus s = true -> int_of s = Ok n -> 0 <= n.
Proof.
  unfold int_of, Py.int, Py.int_base, no_minus. intros Hs.
  apply all_chars_strip_int in Hs. destruct (Py.strip_int s) as [|c r]; [discriminate|].
  simpl in Hs. apply andb_prop in Hs as [Hc _]. apply negb_true_iff in Hc.
  rewrite minus_code, Hc.
  destruct (Py.code c =? 43)%N;
    (destruct (Py.limited_literal 10 _) as [m|] eqn:Hm; simpl; [|discriminate]);
    intros [= <-]; eapply limited_literal_nonneg; try exact Hm; lia.
Qed.

Lemma item_Forall {A} (P : A -> Prop) (l : list A) (i : nat) (x : A) :
  Forall P l -> item l i = Ok x -> P x.
Proof.
  unfold item. intros Hl. destruct (l !! i) as [y|] eqn:Hi; simpl; [|discriminate].
  intros [= <-]. rewrite Forall_forall in Hl. apply Hl. eapply list_elem_of_lookup_2, Hi.
Qed.

Lemma datetime_sub_seconds_le (t n r : Z) :
  0 <= n -> datetime_sub_seconds t n = Ok r -> r <= t.
Proof.
  unfold datetime_sub_seconds. intros Hn.
  destruct (timedelta_ok n); [|discriminate].
  destruct (_ && _); [|discriminate]. intros [= <-]. lia.
Qed.

Lemma elapsed_lookup_le (os : Instant) (etime : string) (r : Z) :
  elapsed_lookup os etime = Ok r -> r <= now os.
Proof.
  intros H. unfold elapsed_lookup in H.
  assert (Hparts : Forall (fun x => no_minus x = true) (Py.split_on "-" etime))
    by (apply split_on_go_free; reflexivity).
  set (parts := Py.split_on "-" etime) in *.
  assert (Hd : forall days time_part,
             (if (length parts =? 2)%nat
              then (p0 ← item parts 0; d ← int_of p0; p1 ← item parts 1; Ok (d, p1))
              else (p0 ← item parts 0; Ok (0, p0))) = Ok (days, time_part) ->
             0 <= days /\ no_minus time_part = true).
  { intros days time_part. destruct (length parts =? 2)%nat.
    - destruct (item parts 0) as [p0|] eqn:H0; simpl; [|discriminate].
      destruct (int_of p0) as [d|] eqn:Hi; simpl; [|discriminate].
      destruct (item parts 1) as [p1|] eqn:H1; simpl; [|discriminate].
      intros [= <- <-]. split.
      + eapply int_no_minus; [|exact Hi]. eapply (item_Forall _ _ _ _ Hparts H0).
      + eapply (item_Forall _ _ _ _ Hparts H1).
    - destruct (item parts 0) as [p0|] eqn:H0; simpl; [|discriminate].
      intros [= <- <-]. split; [lia|]. eapply (item_Forall _ _ _ _ Hparts H0). }
  destruct (if (length parts =? 2)%nat then _ else _) as [[days time_part]|] eqn:Hdt;
    simpl in H; [|discriminate].
  destruct (Hd days time_part eq_refl) as [Hdays Htp].
  assert (Hc : Forall (fun x => no_minus x = true) (Py.split_on ":" time_part))
    by (apply split_on_go_all; [exact Htp | reflexivity]).
  assert (Hint : forall x n, In x (Py.split_on ":" time_part) -> int_of x = Ok n -> 0 <= n).
  { intros x n Hx. apply int_no_minus. rewrite Forall_forall in Hc.
    apply Hc, list_elem_of_In, Hx. }
  destruct (Py.split_on ":" time_part) as [|a [|b [|c [|d rest]]]]; simpl in H.
  - discriminate.
  - destruct (int_of a) as [s|] eqn:Hs; simpl in H; [|discriminate].
    apply datetime_sub_seconds_le in H; [exact H|].
    pose proof (Hint a s (or_introl eq_refl) Hs). lia.
  - destruct (int_of a) as [m|] eqn:Hm; simpl in H; [|discriminate].
    destruct (int_of b) as [s|] eqn:Hs; simpl in H; [|discriminate].
    apply datetime_sub_seconds_le in H; [exact H|].
    pose proof (Hint a m (or_introl eq_refl) Hm).
    pose proof (Hint b s (or_intror (or_introl eq_refl)) Hs). lia.
  - destruct (int_of a) as [h|] eqn:Hh; simpl in H; [|discriminate].
    destruct (int_of b) as [m|] eqn:Hm; simpl in H; [|discriminate].
    destruct (int_of c) as [s|] eqn:Hs; simpl in H; [|discriminate].
    apply datetime_sub_seconds_le in H; [exact H|].
    pose proof (Hint a h (or_introl eq_refl) Hh).
    pose proof (Hint b m (or_intror (or_introl eq_refl)) Hm).
    pose proof (Hint c s (or_intror (or_intror (or_introl eq_refl))) Hs). lia.
  - destruct (int_of a) as [s|] eqn:Hs; simpl in H; [|discriminate].
    apply datetime_sub_seconds_le in H; [exact H|].
    pose proof (Hint a s (or_introl eq_refl) Hs). lia.
Qed.

(** X9.  Whatever the elapsed-time column holds, the start time read from
    it is not later than the clock: no piece between the separators
    holds a minus sign, so no number read is negative, and a text that
    does not parse gives the clock itself. *)
Theorem parse_elapsed_time_macos_not_later (os : Instant) (etime : string) :
  parse_elapsed_time_macos os etime <= now os.
Proof.
  unfold parse_elapsed_time_macos.
  destruct (elapsed_lookup os etime) as [r|e] eqn:H; simpl; [|lia].
  eapply elapsed_lookup_le, H.
Qed.

(** A separator that [str.isspace] accepts and [int] does not skip, in
    front of a number: the text does not parse, and the start time is
    the clock. *)
Example parse_elapsed_time_macos_separator :
  Py.isspace "031" = true /\
  int_of (String "031" "8") = Raise ValueError /\
  parse_elapsed_time_macos (at_tick mac_world 0) (String "031" "8") =
    now (at_tick mac_world 0).
Proof. repeat split; vm_compute; reflexivity. Qed.

(** ** The shape of a snapshot *)

Lemma lazy_name_name (s : string) :
  forall acc nm st pp,
    lazy_name acc s = Some (nm, st, pp) -> no_newline acc = true ->
    nm <> "" /\ no_newline nm = true.
Proof.
  induction s as [|c r IH]; intros acc nm st pp; cbn [lazy_name]; [discriminate|].
  destruct (if Py.is_empty acc then None else stat_tail (String c r))
    as [[st' pp']|] eqn:Ht.
  - intros [= <- _ _] Hacc. destruct acc as [|a acc']; [discriminate|]. split.
    + apply rev_nonempty. discriminate.
    + unfold no_newline. rewrite all_chars_rev. exact Hacc.
  - destruct (Py.code c =? 10)%N eqn:Hc; [discriminate|].
    intros H Hacc. apply (IH _ _ _ _ H). unfold no_newline in *. simpl.
    rewrite Hc, Hacc. reflexivity.
Qed.

Lemma match_stat_shape (stat d nm st pp : string) :
  match_stat stat = Some (d, nm, st, pp) ->
  nm <> "" /\ no_newline nm = true /\ pp <> "" /\ Py.all_chars Py.isdecimal pp = true.
Proof.
  unfold match_stat. destruct (span Py.isdecimal stat) as [d0 r].
  destruct (Py.is_empty d0); [discriminate|].
  destruct r as [|c0 [|c1 r']]; try discriminate.
  destruct (_ && _); [|discriminate].
  destruct (lazy_name "" r') as [[[nm' st'] pp']|] eqn:Hl; simpl; [|discriminate].
  intros [= _ <- _ <-].
  destruct (lazy_name_name _ _ _ _ _ Hl eq_refl) as [H1 H2].
  destruct (lazy_name_decimal _ _ _ _ _ Hl) as [H3 H4]. auto.
Qed.

Lemma decimal_no_minus (s : string) :
  Py.all_chars Py.isdecimal s = true -> no_minus s = true.
Proof.
  unfold no_minus. induction s as [|c r IH]; simpl; [reflexivity|].
  intros [Hc Hr]%andb_prop. rewrite (IH Hr).
  apply decimal_facts in Hc as (_ & Hm & _). rewrite <- minus_code, Hm. reflexivity.
Qed.

Lemma bracketed_nonempty (s : string) : bracketed s <> "".
Proof.
  unfold bracketed. change ("[" +:+ s +:+ "]") with (String "[" (s +:+ "]")). discriminate.
Qed.

Lemma linux_cmdline_nonempty os p nm : linux_cmdline os p nm <> "".
Proof.
  unfold linux_cmdline, linux_cmdline_lookup.
  destruct (read_file os (proc_path p "/cmdline")) as [raw|e]; simpl;
    [|apply bracketed_nonempty].
  destruct (Py.strip (Py.replace_char "000" " " raw)) as [|c r]; simpl;
    [apply bracketed_nonempty | discriminate].
Qed.

(** X10.  A snapshot of the Linux provider carries the pid asked for, a name
    that is not empty and has no line feed, a command that is not
    empty and a parent pid that is not negative; the fields the
    provider does not read have their defaults. *)
Theorem get_process_info_linux_shape (os : Instant) (p : Z) (r : ProcessInfo) :
  get_process_info_linux os p = Ok (Some r) ->
  pid r = p /\ name r <> "" /\ no_newline (name r) = true /\ cmd r <> "" /\
  0 <= ppid r /\ fresh r.
Proof.
  intros H. pose proof (get_process_info_linux_fresh os p r H) as Hf.
  unfold get_process_info_linux in H.
  destruct (read_file os (proc_path p "/stat")) as [stat|e]; simpl in H; [|discriminate].
  destruct (match_stat stat) as [[[[pid_parsed nm] st] pp]|] eqn:Hm; simpl in H;
    [|discriminate].
  destruct (int_of pp) as [n|e] eqn:Hn; simpl in H; [|discriminate].
  injection H as <-. simpl.
  apply match_stat_shape in Hm as (H1 & H2 & H3 & H4).
  repeat split; try assumption.
  - apply linux_cmdline_nonempty.
  - eapply int_no_minus; [|exact Hn]. apply decimal_no_minus, H4.
Qed.

Lemma get_process_info_linux_shape_witness :
  exists r, get_process_info_linux (at_tick (linux_world small_table) 0) 200 = Ok (Some r) /\
            pid r = 200 /\ name r <> "" /\ no_newline (name r) = true /\ cmd r <> "" /\
            0 <= ppid r /\ fresh r.
Proof.
  eexists. split; [vm_compute; reflexivity|].
  apply (get_process_info_linux_shape (at_tick (linux_world small_table) 0) 200).
  vm_compute. reflexivity.
Defined.

Lemma last_Forall {A} (P : A -> Prop) (l : list A) (d : A) :
  Forall P l -> P d -> P (List.last l d).
Proof.
  intros Hl Hd. induction Hl as [|x l Hx Hl IH]; [exact Hd|].
  destruct l as [|y l']; [exact Hx | exact IH].
Qed.

Lemma basename_no_slash (s : string) : no_slash (Py.basename s) = true.
Proof.
  unfold Py.basename, no_slash.
  apply (last_Forall (fun x => Py.all_chars (fun c => negb (Ascii.eqb c "/")) x = true));
    [|reflexivity].
  apply split_on_go_free. reflexivity.
Qed.

(** X11.  A snapshot of the macOS provider has a start time that is not later
    than the clock and a name without a slash; the fields the provider
    does not read have their defaults. *)
Theorem get_process_info_macos_shape (os : Instant) (p : Z) (r : ProcessInfo) :
  get_process_info_macos os p = Ok (Some r) ->
  start_time r <= now os /\ no_slash (name r) = true /\ fresh r.
Proof.
  intros H. pose proof (get_process_info_macos_fresh os p r H) as Hf.
  unfold get_process_info_macos in H. apply try_except_some in H. revert H.
  destruct (run_command os (ps_fields_cmd p)) as [[[rc out] err]|e]; simpl; [|discriminate].
  destruct (negb (rc =? 0) || Py.is_empty (Py.strip out)); [discriminate|].
  destruct (length (Py.split_n 5 (Py.strip out)) <? 6)%nat; [discriminate|].
  set (parts := Py.split_n 5 (Py.strip out)).
  destruct (item parts 0) as [p0|?]; simpl; [|discriminate].
  destruct (int_of p0) as [pid_parsed|?]; simpl; [|discriminate].
  destruct (item parts 1) as [p1|?]; simpl; [|discriminate].
  destruct (int_of p1) as [pp|?]; simpl; [|discriminate].
  destruct (item parts 2) as [usr|?]; simpl; [|discriminate].
  destruct (item parts 3) as [p3|?]; simpl; [|discriminate].
  destruct (item parts 4) as [etime|?]; simpl; [|discriminate].
  destruct (item parts 5) as [p5|?]; simpl; [|discriminate].
  destruct (int_of p5) as [rss|?]; simpl; [|discriminate].
  destruct (run_command os (ps_command_cmd p)) as [[[rc1 o1] e1]|?]; simpl; [|discriminate].
  destruct (run_command os (lsof_cwd_cmd p)) as [[[rc2 o2] e2]|?]; simpl; [|discriminate].
  destruct (run_command os (ps_env_cmd p)) as [[[rc3 o3] e3]|?]; simpl; [|discriminate].
  intros [= <-]. simpl. split.
  { unfold parse_elapsed_time_macos.
    destruct (elapsed_lookup os etime) as [r|e] eqn:H; simpl; [|lia].
    eapply elapsed_lookup_le, H. }
  split; [apply basename_no_slash | exact Hf].
Qed.

Lemma get_process_info_macos_shape_witness :
  exists r, get_process_info_macos (at_tick mac_world 0) 100 = Ok (Some r) /\
            start_time r <= now (at_tick mac_world 0) /\ no_slash (name r) = true /\
            fresh r.
Proof.
  eexists. split; [vm_compute; reflexivity|].
  apply (get_process_info_macos_shape (at_tick mac_world 0) 100).
  vm_compute. reflexivity.
Defined.

(** ** Search by name *)

Lemma ps_pids_not_own (own_pid : Z) (lines : list string) :
  Forall (fun p => p <> own_pid) (ps_pids own_pid lines).
Proof.
  induction lines as [|line rest IH]; simpl; [constructor|].
  destruct (int_of (Py.strip line)) as [p|e]; [|exact IH].
  destruct (p =? own_pid) eqn:E; simpl; [exact IH|].
  apply Forall_cons. split; [apply Z.eqb_neq, E | exact IH].
Qed.

Lemma name_matches_sound (own_pid : Z) (nm : string) (exact : bool) (p : ProcessInfo) :
  pid p <> own_pid -> name_matches nm exact p = true -> name_match own_pid nm exact p.
Proof.
  unfold name_matches, name_match. intros Hp.
  destruct (Py.contains "wayr" (cmd p) && Py.contains nm (cmd p)); [discriminate|].
  destruct exact.
  - intros H%String.eqb_eq. auto.
  - destruct (Py.contains (PyText.lower nm) (PyText.lower (name p))); [auto|].
    destruct (Py.contains (PyText.lower nm) (PyText.lower (cmd p))); [auto|discriminate].
Qed.

Lemma name_scan_sound (w : World) (own_pid : Z) (nm : string) (exact : bool)
    (Hc : provider_consistent w) (pids : list Z) :
  forall matches t l t',
    Forall (fun p => p <> own_pid) pids ->
    Forall (name_match own_pid nm exact) matches ->
    name_scan w nm exact pids matches t = (Ok l, t') ->
    Forall (name_match own_pid nm exact) l /\ t' = (t + length pids)%nat.
Proof.
  induction pids as [|p rest IH]; intros matches t l t' Hp Hm; simpl.
  - intros [= <- <-]. split; [exact Hm | lia].
  - apply Forall_cons in Hp as [Hp Hrest].
    destruct (get_process_info w t p) as [[q|]|e] eqn:Hg; [| |discriminate].
    + destruct (name_matches nm exact q) eqn:Hq.
      * intros H. apply IH in H as [H ->]; [split; [exact H | lia] | exact Hrest |].
        apply Forall_app. split; [exact Hm|]. apply Forall_singleton.
        apply name_matches_sound; [|exact Hq]. rewrite (Hc t p q Hg). exact Hp.
      * intros H. apply IH in H as [H ->]; [split; [exact H | lia] | exact Hrest | exact Hm].
    + intros H. apply IH in H as [H ->]; [split; [exact H | lia] | exact Hrest | exact Hm].
Qed.

(** X12.  Every process [find_processes_by_name] returns is another process
    than the tool; its command does not hold both the word wayr and the
    searched name; with [exact] its name is the searched name, and
    without, the lower-cased searched name is part of its lower-cased
    name or command. *)
Theorem find_processes_by_name_sound (w : World) (own_pid : Z) (nm : string)
    (exact : bool) (t t' : nat) (l : list ProcessInfo) :
  provider_consistent w ->
  find_processes_by_name w own_pid nm exact t = (Ok l, t') ->
  Forall (name_match own_pid nm exact) l.
Proof.
  intros Hc. unfold find_processes_by_name.
  destruct (run_command _ _) as [[[rc out] err]|e]; [|discriminate].
  destruct (negb (rc =? 0)); [intros [= <- _]; constructor|].
  intros H. eapply name_scan_sound in H as [H _]; [exact H | exact Hc | | constructor].
  apply ps_pids_not_own.
Qed.

Lemma find_processes_by_name_sound_witness :
  exists l t', find_processes_by_name ps_world 300 "sshd" true 0 = (Ok l, t') /\
               length l = 1%nat /\ Forall (name_match 300 "sshd" true) l.
Proof.
  eexists. eexists. split; [vm_compute; reflexivity|]. split; [reflexivity|].
  eapply (find_processes_by_name_sound ps_world 300 "sshd" true 0).
  - apply linux_provider_consistent. reflexivity.
  - vm_compute. reflexivity.
Defined.

(** ** The git context *)

Lemma path_eqb_eq (p q : PosixPath) : path_eqb p q = true -> p = q.
Proof.
  destruct p as [r1 l1], q as [r2 l2]. unfold path_eqb. simpl.
  intros [H1 H2]%andb_prop. apply String.eqb_eq in H1.
  apply (list_eqb_eq String.eqb) in H2; [congruence|].
  apply Forall_forall. intros x _ y. apply String.eqb_eq.
Qed.

Lemma git_repo_set_git_branch v p : git_repo (set_git_branch v p) = git_repo p.
Proof. fields p. Qed.
Lemma git_repo_set_git_repo v p : git_repo (set_git_repo v p) = v.
Proof. fields p. Qed.
Lemma git_branch_set_git_branch v p : git_branch (set_git_branch v p) = v.
Proof. fields p. Qed.
Lemma set_git_id p : p = set_git_branch (git_branch p) (set_git_repo (git_repo p) p).
Proof. fields p. Qed.
Lemma set_git_repo_over a b r p :
  set_git_repo a (set_git_branch b (set_git_repo r p)) = set_git_branch b (set_git_repo a p).
Proof. fields p. Qed.

Lemma read_head_cases fs head_file proc :
  read_head fs head_file proc = proc \/
  exists text,
    fs_exists fs (path_str head_file) = Ok true /\
    fs_read fs (path_str head_file) = Ok text /\
    Py.startswith heads_prefix (Py.strip text) = true /\
    read_head fs head_file proc =
      set_git_branch (Some (PyText.replace heads_prefix "" (Py.strip text))) proc.
Proof.
  unfold read_head.
  destruct (fs_exists fs (path_str head_file)) as [[]|e]; auto.
  destruct (fs_read fs (path_str head_file)) as [text|e]; auto.
  destruct (Py.startswith heads_prefix (Py.strip text)) eqn:Hs; auto.
  right. exists text. auto.
Qed.

Lemma git_repo_read_head fs head_file proc :
  git_repo (read_head fs head_file proc) = git_repo proc.
Proof.
  destruct (read_head_cases fs head_file proc) as [->|(text & _ & _ & _ & ->)];
    [reflexivity | apply git_repo_set_git_branch].
Qed.

Lemma git_written_refl p : git_written p p.
Proof. exists (git_repo p), (git_branch p). apply set_git_id. Qed.

Lemma git_walk_written fs n :
  forall current proc, git_written proc (git_walk fs n current proc).
Proof.
  induction n as [|n IH]; intros current proc; simpl; [apply git_written_refl|].
  destruct (fs_exists fs (path_str (path_join current ".git"))) as [[]|e];
    [| |apply git_written_refl].
  - destruct (read_head_cases fs (path_join (path_join current ".git") "HEAD")
                (set_git_repo (Some (path_name current)) proc))
      as [->|(text & _ & _ & _ & ->)].
    + exists (Some (path_name current)), (git_branch proc).
      rewrite (set_git_id proc) at 1. apply set_git_repo_over.
    + eexists _, _. reflexivity.
  - destruct (path_eqb current (path_parent current)); [apply git_written_refl | apply IH].
Qed.

(** X13.  [detect_git_context] changes no field but the repository and the
    branch, whatever the file system answers. *)
Theorem detect_git_context_writes (fs : FileSystem) (proc : ProcessInfo) :
  git_written proc (detect_git_context fs proc).
Proof.
  unfold detect_git_context. destruct (cwd proc) as [c|]; [|apply git_written_refl].
  destruct (Py.is_empty c); [apply git_written_refl | apply git_walk_written].
Qed.

Lemma iter_parent_fixed (p : PosixPath) (k : nat) :
  path_parent p = p -> Nat.iter k path_parent p = p.
Proof. intros H. induction k as [|k IH]; simpl; [reflexivity|]. rewrite IH. exact H. Qed.

Lemma git_walk_nearest fs n :
  forall k current proc,
    (k < n)%nat ->
    (forall j, (j < k)%nat ->
       fs_exists fs (path_str (path_join (Nat.iter j path_parent current) ".git")) = Ok false) ->
    fs_exists fs (path_str (path_join (Nat.iter k path_parent current) ".git")) = Ok true ->
    git_walk fs n current proc =
      read_head fs (path_join (path_join (Nat.iter k path_parent current) ".git") "HEAD")
                (set_git_repo (Some (path_name (Nat.iter k path_parent current))) proc).
Proof.
  induction n as [|n IH]; intros k current proc Hk Habs Hpres; [lia|].
  destruct k as [|k].
  - simpl in *. rewrite Hpres. reflexivity.
  - pose proof (Habs 0%nat ltac:(lia)) as H0. cbn [Nat.iter nat_rect] in H0.
    cbn [git_walk]. rewrite H0.
    destruct (path_eqb current (path_parent current)) eqn:He.
    + apply path_eqb_eq in He. symmetry in He.
      rewrite (iter_parent_fixed current (S k) He) in Hpres.
      rewrite H0 in Hpres. discriminate.
    + rewrite (Nat.iter_succ_r k). apply IH; [lia| |].
      * intros j Hj. rewrite <- (Nat.iter_succ_r j). apply Habs. lia.
      * rewrite <- (Nat.iter_succ_r k). exact Hpres.
Qed.

(** X14.  The repository is named after the nearest of the ten directories
    from the working directory upwards that has a .git entry. *)
Theorem detect_git_context_nearest (fs : FileSystem) (proc : ProcessInfo) (c : string)
    (k : nat) :
  cwd proc = Some c -> c <> "" -> nearest_git fs c k ->
  git_repo (detect_git_context fs proc) = Some (path_name (dir_above c k)).
Proof.
  intros Hc Hne (Hk & Habs & Hpres). unfold detect_git_context. rewrite Hc.
  destruct c as [|a r]; [contradiction|]. cbn [Py.is_empty].
  rewrite (git_walk_nearest fs 10 k _ proc Hk Habs Hpres).
  rewrite git_repo_read_head. apply git_repo_set_git_repo.
Qed.

Lemma detect_git_context_nearest_witness :
  git_repo (detect_git_context checkout_fs in_checkout) = Some "app".
Proof.
  apply (detect_git_context_nearest checkout_fs in_checkout "/srv/app/src/lib" 2).
  - reflexivity.
  - discriminate.
  - split; [lia|]. split; [|vm_compute; reflexivity].
    intros j Hj. destruct j as [|[|j]]; [vm_compute; reflexivity ..|lia].
Defined.

Lemma git_walk_absent fs n :
  forall current proc,
    (forall j, (j < n)%nat ->
       fs_exists fs (path_str (path_join (Nat.iter j path_parent current) ".git")) = Ok false) ->
    git_walk fs n current proc = proc.
Proof.
  induction n as [|n IH]; intros current proc Habs; [reflexivity|].
  pose proof (Habs 0%nat ltac:(lia)) as H0. cbn [Nat.iter nat_rect] in H0.
  cbn [git_walk]. rewrite H0.
  destruct (path_eqb current (path_parent current)); [reflexivity|].
  apply IH. intros j Hj. rewrite <- (Nat.iter_succ_r j). apply Habs. lia.
Qed.

(** X15.  A repository further up than the ninth directory above the working
    directory is not looked for: when none of the ten directories from
    the working directory upwards has a .git entry, the process is left
    as it is. *)
Theorem detect_git_context_ten_directories (fs : FileSystem) (proc : ProcessInfo)
    (c : string) :
  cwd proc = Some c ->
  (forall j, (j < 10)%nat ->
     fs_exists fs (path_str (path_join (dir_above c j) ".git")) = Ok false) ->
  detect_git_context fs proc = proc.
Proof.
  intros Hc Habs. unfold detect_git_context. rewrite Hc.
  destruct (Py.is_empty c); [reflexivity|]. apply git_walk_absent, Habs.
Qed.

Lemma detect_git_context_ten_directories_witness :
  fs_exists far_fs (path_str (path_join (dir_above far_cwd 10) ".git")) = Ok true /\
  detect_git_context far_fs far_below = far_below.
Proof.
  split; [vm_compute; reflexivity|].
  apply (detect_git_context_ten_directories far_fs far_below far_cwd); [reflexivity|].
  intros j Hj. do 10 (destruct j as [|j]; [vm_compute; reflexivity|]). lia.
Defined.

Lemma startswith_heads_space (s : string) :
  Py.startswith heads_prefix s = true -> Py.has_char " " s = true.
Proof.
  unfold heads_prefix.
  destruct s as [|c0 [|c1 [|c2 [|c3 [|c4 r]]]]]; cbn [Py.startswith Py.has_char];
    rewrite ?andb_false_r; try discriminate.
  intros H. repeat (apply andb_prop in H as [? H]).
  match goal with E : Ascii.eqb " " c4 = true |- _ => apply Ascii.eqb_eq in E; subst c4 end.
  rewrite Ascii.eqb_refl. rewrite ?orb_true_r. reflexivity.
Qed.

Lemma replace_go_no_space (b : string) :
  Py.has_char " " b = false -> PyText.replace_go heads_prefix "" 0 b = b.
Proof.
  induction b as [|c r IH]; intros H; [reflexivity|].
  cbn [PyText.replace_go].
  destruct (Py.startswith heads_prefix (String c r)) eqn:Hs.
  - apply startswith_heads_space in Hs. congruence.
  - cbn [Py.has_char] in H. apply orb_false_iff in H as [_ H]. rewrite (IH H). reflexivity.
Qed.

Lemma replace_heads_prefix (b : string) :
  Py.has_char " " b = false -> PyText.replace heads_prefix "" (heads_prefix +:+ b) = b.
Proof.
  intros H.
  change (PyText.replace heads_prefix "" (heads_prefix +:+ b))
    with (PyText.replace_go heads_prefix "" 0 b).
  apply replace_go_no_space, H.
Qed.

(** X16.  The branch is read back from the HEAD file of the nearest
    repository: when the file, stripped, is [ref: refs/heads/] followed
    by a name without a space, the branch is that name. *)
Theorem detect_git_context_branch (fs : FileSystem) (proc : ProcessInfo) (c : string)
    (k : nat) (text b : string) :
  cwd proc = Some c -> c <> "" -> nearest_git fs c k ->
  fs_exists fs (path_str (path_join (path_join (dir_above c k) ".git") "HEAD")) = Ok true ->
  fs_read fs (path_str (path_join (path_join (dir_above c k) ".git") "HEAD")) = Ok text ->
  Py.strip text = heads_prefix +:+ b ->
  Py.has_char " " b = false ->
  git_branch (detect_git_context fs proc) = Some b.
Proof.
  intros Hc Hne (Hk & Habs & Hpres) Hex Hrd Hst Hb. unfold detect_git_context. rewrite Hc.
  destruct c as [|a r]; [contradiction|]. cbn [Py.is_empty].
  rewrite (git_walk_nearest fs 10 k _ proc Hk Habs Hpres).
  unfold read_head. unfold dir_above in Hex, Hrd. rewrite Hex, Hrd, Hst.
  change (Py.startswith heads_prefix (heads_prefix +:+ b)) with true. cbn iota.
  rewrite (replace_heads_prefix b Hb). apply git_branch_set_git_branch.
Qed.

Lemma detect_git_context_branch_witness :
  git_branch (detect_git_context checkout_fs in_checkout) = Some "main".
Proof.
  apply (detect_git_context_branch checkout_fs in_checkout "/srv/app/src/lib" 2
           ("ref: refs/heads/main" +:+ LF) "main").
  - reflexivity.
  - discriminate.
  - split; [lia|]. split; [|vm_compute; reflexivity].
    intros j Hj. destruct j as [|[|j]]; [vm_compute; reflexivity ..|lia].
  - vm_compute. reflexivity.
  - vm_compute. reflexivity.
  - vm_compute. reflexivity.
  - reflexivity.
Defined.

(** ** The listening ports of one process *)

Lemma listening_set_listening v p : listening_addresses (set_listening_addresses v p) = v.
Proof. fields p. Qed.
Lemma set_listening_twice a b p :
  set_listening_addresses a (set_listening_addresses b p) = set_listening_addresses a p.
Proof. fields p. Qed.
Lemma set_listening_id p : set_listening_addresses (listening_addresses p) p = p.
Proof. fields p. Qed.

Lemma extends_refl p : extends p p.
Proof. exists []. rewrite app_nil_r, set_listening_id. reflexivity. Qed.

Lemma extends_trans p q r : extends p q -> extends q r -> extends p r.
Proof.
  intros [a ->] [b ->]. exists (a ++ b)%list.
  rewrite listening_set_listening, set_listening_twice, app_assoc. reflexivity.
Qed.

Lemma extends_one p x :
  extends p (set_listening_addresses (listening_addresses p ++ [x]) p).
Proof. exists [x]. reflexivity. Qed.

Lemma listen_lines_extends lines : forall p, extends p (listen_lines lines p).
Proof.
  induction lines as [|line rest IH]; intros p; simpl; [apply extends_refl|].
  destruct (_ && _); [|apply IH].
  destruct (Py.split line !! 8%nat) as [addr|]; [|apply IH].
  destruct (mem String.eqb addr (listening_addresses p)); [apply IH|].
  eapply extends_trans; [apply extends_one | apply IH].
Qed.

Lemma listening_line_extends inodes line p q :
  listening_line inodes line p = Ok q -> extends p q.
Proof.
  unfold listening_line, item.
  destruct (length (Py.split line) <? 10)%nat; [intros [= <-]; apply extends_refl|].
  destruct (Py.split line !! 1%nat) as [local_addr|]; simpl; [|discriminate].
  destruct (Py.split line !! 3%nat) as [state|]; simpl; [|discriminate].
  destruct (Py.split line !! 9%nat) as [inode|]; simpl; [|discriminate].
  destruct (_ && _); [|intros [= <-]; apply extends_refl].
  destruct (Py.has_char ":" local_addr); [|intros [= <-]; apply extends_refl].
  destruct (Py.split_on ":" local_addr) as [|a [|b [|c r]]]; try discriminate.
  destruct (int16_of b) as [port|]; simpl; [|discriminate].
  destruct (listening_ip_str a) as [ip|]; simpl; [|discriminate].
  intros [= <-]. apply extends_one.
Qed.

Lemma listening_lines_extends inodes lines :
  forall p, extends p (listening_lines inodes lines p).
Proof.
  induction lines as [|line rest IH]; intros p; simpl; [apply extends_refl|].
  destruct (listening_line inodes line p) as [q|e] eqn:Hq; [|apply extends_refl].
  eapply extends_trans; [eapply listening_line_extends, Hq | apply IH].
Qed.

Lemma listening_file_extends os inodes path p :
  extends p (listening_file os inodes path p).
Proof.
  unfold listening_file. destruct (read_file os path); [|apply extends_refl].
  apply listening_lines_extends.
Qed.

Lemma detect_listening_ports_linux_proc_extends os p :
  extends p (detect_listening_ports_linux_proc os p).
Proof.
  unfold detect_listening_ports_linux_proc.
  destruct (negb _); [apply extends_refl|].
  destruct (iterdir os _) as [fds|e]; [|apply extends_refl].
  destruct (bool_decide _); [apply extends_refl|].
  eapply extends_trans; apply listening_file_extends.
Qed.

Lemma detect_listening_ports_adds (w : World) (t : nat) (proc : ProcessInfo) :
  extends proc (detect_listening_ports w t proc).
Proof.
  unfold detect_listening_ports.
  destruct (listening_addresses proc) as [|x l] eqn:Hl; [|apply extends_refl].
  destruct (run_command _ _) as [[[rc out] err]|e]; [|apply extends_refl].
  assert (H1 : extends proc (if rc =? 0 then listen_lines (Py.splitlines out) proc
                             else proc))
    by (destruct (rc =? 0); [apply listen_lines_extends | apply extends_refl]).
  destruct (listening_addresses (if rc =? 0 then _ else _)); [|exact H1].
  destruct (IS_LINUX w); [|exact H1].
  eapply extends_trans; [exact H1 | apply detect_listening_ports_linux_proc_extends].
Qed.

(** X17.  [detect_listening_ports] changes no field but the list of
    addresses, and only adds at its end; a process that has an address
    already is left as it is. *)
Theorem detect_listening_ports_extends (w : World) (t : nat) (proc : ProcessInfo) :
  extends proc (detect_listening_ports w t proc) /\
  (listening_addresses proc <> [] -> detect_listening_ports w t proc = proc).
Proof.
  split; [apply detect_listening_ports_adds|].
  unfold detect_listening_ports.
  destruct (listening_addresses proc); [contradiction | reflexivity].
Qed.

Lemma listen_lines_NoDup lines :
  forall p, NoDup (listening_addresses p) -> NoDup (listening_addresses (listen_lines lines p)).
Proof.
  induction lines as [|line rest IH]; intros p Hp; simpl; [exact Hp|].
  destruct (_ && _); [|apply IH, Hp].
  destruct (Py.split line !! 8%nat) as [addr|]; [|apply IH, Hp].
  destruct (mem String.eqb addr (listening_addresses p)) eqn:Hm; [apply IH, Hp|].
  apply IH. rewrite listening_set_listening. apply NoDup_app.
  split; [exact Hp|]. split; [|apply NoDup_singleton].
  intros y Hy Hy1. apply list_elem_of_singleton in Hy1 as ->.
  assert (Ht : mem String.eqb addr (listening_addresses p) = true); [|congruence].
  apply existsb_exists. exists addr. split; [apply list_elem_of_In, Hy | apply String.eqb_refl].
Qed.

(** X18.  Where the fallback over /proc is not taken, that is on a system
    other than Linux, no address is listed twice: lsof's lines are
    added only when they are new. *)
Theorem detect_listening_ports_distinct (w : World) (t : nat) (proc : ProcessInfo) :
  IS_LINUX w = false ->
  NoDup (listening_addresses proc) ->
  NoDup (listening_addresses (detect_listening_ports w t proc)).
Proof.
  intros Hw Hp. unfold detect_listening_ports. rewrite Hw.
  destruct (listening_addresses proc) as [|x l] eqn:Hl; [|rewrite Hl; exact Hp].
  destruct (run_command _ _) as [[[rc out] err]|e]; [|rewrite Hl; exact Hp].
  assert (H1 : NoDup (listening_addresses
                        (if rc =? 0 then listen_lines (Py.splitlines out) proc else proc))).
  { destruct (rc =? 0); [apply listen_lines_NoDup|]; rewrite Hl; exact Hp. }
  destruct (listening_addresses (if rc =? 0 then _ else _)) eqn:E; rewrite ?E; exact H1.
Qed.

Lemma detect_listening_ports_distinct_witness :
  listening_addresses (detect_listening_ports mac_listen_world 0 nginx_mac) = ["*:8080"] /\
  NoDup (listening_addresses (detect_listening_ports mac_listen_world 0 nginx_mac)).
Proof.
  split; [vm_compute; reflexivity|].
  apply (detect_listening_ports_distinct mac_listen_world 0 nginx_mac).
  - reflexivity.
  - apply NoDup_nil_2.
Defined.

(** ** The context of one process, and its warnings *)

Lemma provider_fields_set_source v p : provider_fields (set_source v p) = provider_fields p.
Proof. fields p. Qed.
Lemma provider_fields_set_source_detail v p :
  provider_fields (set_source_detail v p) = provider_fields p.
Proof. fields p. Qed.
Lemma provider_fields_set_container_name v p :
  provider_fields (set_container_name v p) = provider_fields p.
Proof. fields p. Qed.
Lemma provider_fields_set_container_image v p :
  provider_fields (set_container_image v p) = provider_fields p.
Proof. fields p. Qed.
Lemma provider_fields_set_listening v p :
  provider_fields (set_listening_addresses v p) = provider_fields p.
Proof. fields p. Qed.
Lemma provider_fields_set_ancestry v p :
  provider_fields (set_ancestry v p) = provider_fields p.
Proof. fields p. Qed.
Lemma provider_fields_set_git_repo v p :
  provider_fields (set_git_repo v p) = provider_fields p.
Proof. fields p. Qed.
Lemma provider_fields_set_git_branch v p :
  provider_fields (set_git_branch v p) = provider_fields p.
Proof. fields p. Qed.

Lemma provider_fields_annotate s d cn ci p :
  provider_fields (annotate s d cn ci p) = provider_fields p.
Proof.
  unfold annotate.
  rewrite provider_fields_set_container_image, provider_fields_set_container_name,
    provider_fields_set_source_detail, provider_fields_set_source. reflexivity.
Qed.

Lemma provider_fields_detect_git_context fs p :
  provider_fields (detect_git_context fs p) = provider_fields p.
Proof.
  assert (H : git_written p (detect_git_context fs p)).
  { unfold detect_git_context. destruct (cwd p) as [c|]; [|apply git_written_refl].
    destruct (Py.is_empty c); [apply git_written_refl | apply git_walk_written]. }
  destruct H as (r & b & ->).
  rewrite provider_fields_set_git_branch, provider_fields_set_git_repo. reflexivity.
Qed.

(** X19.  The four steps that build the context of a process leave what the
    provider has read as it is: the pid, the name, the parent pid, the
    user, the command, the start time, the working directory, the
    memory and the environment, and with them the restart count and the
    children. *)
Theorem build_context_keeps (w : World) (fs : FileSystem) (t t' : nat)
    (p q : ProcessInfo) :
  build_context w fs t p = Some (Ok q, t') -> provider_fields q = provider_fields p.
Proof.
  unfold build_context.
  destruct (build_ancestry w p t) as [[[anc|e] t1]|]; [|discriminate..].
  destruct (detect_source w t1 (set_ancestry anc p)) as [p1|e] eqn:Hs; [|discriminate].
  intros [= <- _].
  apply detect_source_scan_written in Hs as (s & d & cn & ci & -> & _).
  destruct (detect_listening_ports_adds w t1
              (detect_git_context fs (annotate s d cn ci (set_ancestry anc p))))
    as [extra ->].
  rewrite provider_fields_set_listening, provider_fields_detect_git_context,
    provider_fields_annotate, provider_fields_set_ancestry.
  reflexivity.
Qed.

Lemma build_context_keeps_witness :
  exists q t',
    build_context (linux_world small_table) far_fs 1 (target 200 "worker" 100) =
      Some (Ok q, t') /\
    provider_fields q = provider_fields (target 200 "worker" 100).
Proof.
  eexists. eexists. split; [vm_compute; reflexivity|].
  eapply (build_context_keeps (linux_world small_table) far_fs 1).
  vm_compute. reflexivity.
Defined.

Lemma fresh_restart_count r : fresh r -> restart_count r = 0.
Proof. intros (a & b & c & d & e & f & g & h & i & ->). reflexivity. Qed.

Lemma public_warning_text (addrs : list string) (s : string) :
  In s (public_warning addrs) ->
  exists addr, s = "Listening on public interface (" +:+ addr +:+ ")".
Proof.
  induction addrs as [|a rest IH]; simpl; [contradiction|].
  destruct (is_public a); [|exact IH].
  intros [<-|[]]. exists a. reflexivity.
Qed.

Lemma get_warnings_no_restart (os : Instant) (q : ProcessInfo) (s : string) :
  restart_count q = 0 -> In s (get_warnings os q) ->
  Py.startswith "Process has restarted" s = false.
Proof.
  intros Hr. unfold get_warnings. rewrite Hr. cbn [Z.ltb Z.compare app].
  rewrite !in_app_iff. intros [H|[H|[H|H]]].
  - destruct (_ && _); [|contradiction]. destruct H as [<-|[]]. reflexivity.
  - apply public_warning_text in H as [addr ->]. reflexivity.
  - destruct (1024 * 1024 <? rss_kb q); [|contradiction]. destruct H as [<-|[]]. reflexivity.
  - destruct (90 <? _); [|contradiction]. destruct H as [<-|[]]. reflexivity.
Qed.

(** X20.  The warning about restarts is never given for a process the
    provider has found: the provider leaves the restart count at 0 and
    no step of the context writes it. *)
Theorem restart_warning_never (w : World) (fs : FileSystem) (t t' : nat) (n : Z)
    (p q : ProcessInfo) :
  get_process_info w t n = Ok (Some p) ->
  build_context w fs (S t) p = Some (Ok q, t') ->
  forall os s, In s (get_warnings os q) -> Py.startswith "Process has restarted" s = false.
Proof.
  intros Hp Hq os s. apply get_warnings_no_restart.
  apply get_process_info_fresh, fresh_restart_count in Hp.
  unfold build_context in Hq.
  destruct (build_ancestry w p (S t)) as [[[anc|e] t1]|]; [|discriminate..].
  destruct (detect_source w t1 (set_ancestry anc p)) as [p1|e] eqn:Hs; [|discriminate].
  injection Hq as <- _.
  apply detect_source_scan_written in Hs as (s0 & d & cn & ci & -> & _).
  destruct (detect_listening_ports_adds w t1
              (detect_git_context fs (annotate s0 d cn ci (set_ancestry anc p))))
    as [extra ->].
  assert (H : provider_fields
                (set_listening_addresses
                   (listening_addresses
                      (detect_git_context fs (annotate s0 d cn ci (set_ancestry anc p)))
                    ++ extra)
                   (detect_git_context fs (annotate s0 d cn ci (set_ancestry anc p)))) =
              provider_fields p).
  { rewrite provider_fields_set_listening, provider_fields_detect_git_context,
      provider_fields_annotate, provider_fields_set_ancestry. reflexivity. }
  unfold provider_fields in H. injection H as _ _ _ _ _ _ _ _ _ H _. rewrite H. exact Hp.
Qed.

Lemma restart_warning_never_witness :
  exists p q t',
    get_process_info (linux_world small_table) 0 200 = Ok (Some p) /\
    build_context (linux_world small_table) far_fs 1 p = Some (Ok q, t') /\
    forall os s, In s (get_warnings os q) ->
                 Py.startswith "Process has restarted" s = false.
Proof.
  eexists. eexists. eexists. split; [vm_compute; reflexivity|].
  split; [vm_compute; reflexivity|].
  eapply (restart_warning_never (linux_world small_table) far_fs 0 _ 200).
  - vm_compute. reflexivity.
  - vm_compute. reflexivity.
Defined.

(** X21.  A start time up to a day ahead of the clock is shown as the age of
    a process started a day earlier: the difference has -1 day and the
    seconds of a whole day less the lead, and only the seconds are
    looked at when the days are not positive. *)
Theorem format_time_ago_future (os : Instant) (dt : Z) :
  now os < dt <= now os + one_day ->
  format_time_ago os dt = format_time_ago os (dt - one_day).
Proof.
  unfold format_time_ago, timedelta_days, timedelta_seconds, one_day. intros H.
  assert (H1 : (now os - dt) / 86400000000 = -1).
  { symmetry. apply (Z.div_unique _ _ (-1) (now os - dt + 86400000000)); lia. }
  assert (H2 : (now os - (dt - 86400000000)) / 86400000000 = 0).
  { destruct (Z.eq_dec dt (now os + 86400000000)) as [->|Hne].
    - replace (now os - (now os + 86400000000 - 86400000000)) with 0 by lia. reflexivity.
    - apply Z.div_small. lia. }
  assert (H3 : (now os - (dt - 86400000000)) mod 86400000000 =
               (now os - dt) mod 86400000000).
  { replace (now os - (dt - 86400000000)) with (now os - dt + 1 * 86400000000) by lia.
    apply Z.mod_add. lia. }
  rewrite H1, H2, H3. reflexivity.
Qed.

Lemma format_time_ago_future_witness :
  format_time_ago (at_tick (linux_world small_table) 0) (clock_at 0 + 1000000) =
    "23 hours ago" /\
  format_time_ago (at_tick (linux_world small_table) 0) (clock_at 0 + 1000000) =
    format_time_ago (at_tick (linux_world small_table) 0) (clock_at 0 + 1000000 - one_day).
Proof.
  split; [vm_compute; reflexivity|].
  apply (format_time_ago_future (at_tick (linux_world small_table) 0) (clock_at 0 + 1000000)).
  vm_compute. split; [reflexivity | discriminate].
Defined.

(** ** The elapsed time, written and read back *)

Lemma two_digits_ok (n : Z) :
  0 <= n < 100 ->
  int_of (two_digits n) = Ok n /\ Py.has_char ":" (two_digits n) = false /\
  Py.has_char "-" (two_digits n) = false.
Proof.
  intros Hn.
  assert (H : forallb (fun k => let s := two_digits (Z.of_nat k) in
                         match Py.int s with Some v => v =? Z.of_nat k | None => false end &&
                         negb (Py.has_char ":" s) && negb (Py.has_char "-" s))
                      (seq 0 100) = true) by (vm_compute; reflexivity).
  rewrite List.forallb_forall in H. specialize (H (Z.to_nat n)).
  rewrite Z2Nat.id in H by lia. cbv zeta in H.
  assert (Hin : In (Z.to_nat n) (seq 0 100)) by (apply in_seq; lia).
  apply H in Hin. apply andb_prop in Hin as [Hin H3]. apply andb_prop in Hin as [H1 H2].
  apply negb_true_iff in H2, H3. unfold int_of.
  destruct (Py.int (two_digits n)) as [v|]; [|discriminate].
  apply Z.eqb_eq in H1 as ->. auto.
Qed.

Lemma has_char_app (x : ascii) (a b : string) :
  Py.has_char x (a +:+ b) = Py.has_char x a || Py.has_char x b.
Proof.
  induction a as [|c r IH]; [reflexivity|].
  change (String c r +:+ b) with (String c (r +:+ b)). cbn [Py.has_char].
  rewrite IH. apply orb_assoc.
Qed.

Lemma decimal_has_char (x : ascii) (s : string) :
  Py.isdecimal x = false -> Py.all_chars Py.isdecimal s = true -> Py.has_char x s = false.
Proof.
  intros Hx. induction s as [|c r IH]; simpl; [reflexivity|].
  intros [Hc Hr]%andb_prop. rewrite (IH Hr), orb_false_r.
  destruct (Ascii.eqb c x) eqn:E; [|reflexivity].
  apply Ascii.eqb_eq in E. congruence.
Qed.

Lemma split_on_go_app (sep : ascii) (a b : string) :
  Py.has_char sep a = false ->
  forall cur, Py.split_on_go sep cur (a +:+ String sep b) =
              Py.rev (Py.rev_app a cur) :: Py.split_on_go sep "" b.
Proof.
  induction a as [|c r IH]; intros H cur.
  - change ("" +:+ String sep b) with (String sep b). cbn [Py.split_on_go].
    rewrite Ascii.eqb_refl. reflexivity.
  - change (String c r +:+ String sep b) with (String c (r +:+ String sep b)).
    cbn [Py.has_char] in H. apply orb_false_iff in H as [Hc Hr].
    cbn [Py.split_on_go]. rewrite Hc. apply (IH Hr).
Qed.

Lemma split_on_app (sep : ascii) (a b : string) :
  Py.has_char sep a = false ->
  Py.split_on sep (a +:+ String sep b) = a :: Py.split_on sep b.
Proof.
  intros H. unfold Py.split_on. rewrite (split_on_go_app sep a b H).
  change (Py.rev_app a "") with (Py.rev a). rewrite rev_rev. reflexivity.
Qed.

Lemma split_on_whole (sep : ascii) (s : string) :
  Py.has_char sep s = false -> Py.split_on sep s = [s].
Proof.
  intros H. unfold Py.split_on. rewrite (split_on_go_no_sep sep s H).
  change (Py.rev_app s "") with (Py.rev s). rewrite rev_rev. reflexivity.
Qed.

Lemma datetime_sub_seconds_ok (t n : Z) :
  0 <= n <= 999999999 * 86400 + 86399 ->
  datetime_min + n * 1000000 <= t <= datetime_max ->
  datetime_sub_seconds t n = Ok (t - n * 1000000).
Proof.
  intros Hn Ht. unfold datetime_sub_seconds, timedelta_ok.
  replace (- (999999999 * 86400) <=? n) with true by (symmetry; apply Z.leb_le; lia).
  replace (n <=? 999999999 * 86400 + 86399) with true by (symmetry; apply Z.leb_le; lia).
  cbn [andb].
  replace (datetime_min <=? t - n * 1000000) with true by (symmetry; apply Z.leb_le; lia).
  replace (t - n * 1000000 <=? datetime_max) with true by (symmetry; apply Z.leb_le; lia).
  reflexivity.
Qed.

Lemma split_clock_text (h m s : Z) :
  0 <= h < 100 -> 0 <= m < 100 -> 0 <= s < 100 ->
  Py.has_char "-" (clock_text h m s) = false /\
  Py.split_on ":" (clock_text h m s) = [two_digits h; two_digits m; two_digits s].
Proof.
  intros Hh Hm Hs.
  destruct (two_digits_ok h Hh) as (_ & Hh1 & Hh2).
  destruct (two_digits_ok m Hm) as (_ & Hm1 & Hm2).
  destruct (two_digits_ok s Hs) as (_ & Hs1 & Hs2).
  unfold clock_text.
  change (two_digits h +:+ ":" +:+ two_digits m +:+ ":" +:+ two_digits s)
    with (two_digits h +:+ String ":" (two_digits m +:+ String ":" (two_digits s))).
  split.
  - rewrite has_char_app. cbn [Py.has_char]. rewrite has_char_app. cbn [Py.has_char].
    rewrite Hh2, Hm2, Hs2. reflexivity.
  - rewrite (split_on_app ":" _ _ Hh1), (split_on_app ":" _ _ Hm1), (split_on_whole ":" _ Hs1).
    reflexivity.
Qed.

Lemma item_0 {A} (x : A) (l : list A) : item (x :: l) 0 = Ok x.
Proof. reflexivity. Qed.
Lemma item_1 {A} (x y : A) (l : list A) : item (x :: y :: l) 1 = Ok y.
Proof. reflexivity. Qed.
Lemma bind_ok {A B} (a : A) (f : A -> Result B) : (Ok a ≫= f) = f a.
Proof. reflexivity. Qed.
Lemma int_of_str (n : Z) :
  Z.abs n < 10 ^ Z.of_N Py.int_max_str_digits -> int_of (Py.str n) = Ok n.
Proof. intros H. unfold int_of. rewrite (int_str n H). reflexivity. Qed.

(** X22.  The elapsed time ps prints is read back as the clock less that
    time: for days, hours, minutes and seconds in their ranges, the
    text [[[dd-]hh:]mm:ss] gives the start time that lies that long
    before now. *)
Theorem parse_elapsed_time_macos_reads (os : Instant) (d h m s : Z) :
  0 <= d <= 999999999 -> 0 <= h < 24 -> 0 <= m < 60 -> 0 <= s < 60 ->
  datetime_min + (d * 86400 + h * 3600 + m * 60 + s) * 1000000 <= now os <= datetime_max ->
  parse_elapsed_time_macos os (etime_text d h m s) =
    now os - (d * 86400 + h * 3600 + m * 60 + s) * 1000000.
Proof.
  intros Hd Hh Hm Hs Hnow.
  destruct (two_digits_ok h ltac:(lia)) as (Hh0 & Hh1 & Hh2).
  destruct (two_digits_ok m ltac:(lia)) as (Hm0 & Hm1 & Hm2).
  destruct (two_digits_ok s ltac:(lia)) as (Hs0 & Hs1 & Hs2).
  destruct (split_clock_text h m s ltac:(lia) ltac:(lia) ltac:(lia)) as [Hc1 Hc2].
  unfold parse_elapsed_time_macos, elapsed_lookup, etime_text.
  destruct (0 <? d) eqn:Hd0; [|destruct (0 <? h) eqn:Hh3].
  - destruct (str_nonneg_decimal d ltac:(lia)) as [Hdec _].
    change (Py.str d +:+ "-" +:+ clock_text h m s)
      with (Py.str d +:+ String "-" (clock_text h m s)).
    rewrite (split_on_app "-" _ _ (decimal_has_char "-" _ eq_refl Hdec)).
    rewrite (split_on_whole "-" _ Hc1). cbn [length Nat.eqb].
    assert (Hsmall : Z.abs d < 10 ^ Z.of_N Py.int_max_str_digits).
    { apply Z.lt_le_trans with (10 ^ 9); [lia|]. apply Z.pow_le_mono_r; [lia|].
      unfold Py.int_max_str_digits. lia. }
    rewrite item_0, bind_ok, (int_of_str d Hsmall), bind_ok, item_1, !bind_ok.
    rewrite Hc2, Hh0, bind_ok, Hm0, bind_ok, Hs0, !bind_ok.
    rewrite datetime_sub_seconds_ok by lia. reflexivity.
  - rewrite (split_on_whole "-" _ Hc1). cbn [length Nat.eqb].
    rewrite item_0, !bind_ok.
    rewrite Hc2, Hh0, bind_ok, Hm0, bind_ok, Hs0, !bind_ok.
    apply Z.ltb_ge in Hd0.
    rewrite datetime_sub_seconds_ok by lia. cbn [attempt]. f_equal. lia.
  - change (two_digits m +:+ ":" +:+ two_digits s)
      with (two_digits m +:+ String ":" (two_digits s)).
    assert (Hms : Py.has_char "-" (two_digits m +:+ String ":" (two_digits s)) = false).
    { rewrite has_char_app. cbn [Py.has_char]. rewrite Hm2, Hs2. reflexivity. }
    rewrite (split_on_whole "-" _ Hms). cbn [length Nat.eqb].
    rewrite item_0, !bind_ok.
    rewrite (split_on_app ":" _ _ Hm1), (split_on_whole ":" _ Hs1).
    rewrite Hm0, bind_ok, Hs0, !bind_ok.
    apply Z.ltb_ge in Hd0, Hh3.
    rewrite datetime_sub_seconds_ok by lia. cbn [attempt]. f_equal. lia.
Qed.

Lemma parse_elapsed_time_macos_reads_witness :
  etime_text 2 3 4 5 = "2-03:04:05" /\
  parse_elapsed_time_macos (at_tick mac_world 0) (etime_text 2 3 4 5) =
    now (at_tick mac_world 0) - (2 * 86400 + 3 * 3600 + 4 * 60 + 5) * 1000000.
Proof.
  split; [vm_compute; reflexivity|].
  apply (parse_elapsed_time_macos_reads (at_tick mac_world 0) 2 3 4 5); try lia.
  vm_compute. split; discriminate.
Defined.

(** ** The two readings of a socket table agree on IPv4 rows *)

Lemma hex_char_facts (c : ascii) :
  is_hex c = true ->
  not_space c = true /\ (Py.code c =? 45)%N = false /\ (Py.code c =? 43)%N = false /\
  (Py.code c =? 120)%N = false /\ (Py.code c =? 88)%N = false /\
  Py.is_underscore c = false /\
  exists v, Py.digit_value c = Some v /\ (v <? 16) = true.
Proof.
  intros Hc.
  assert (H : forallb (fun c => implb (is_hex c)
                 (not_space c && negb (Py.code c =? 45)%N && negb (Py.code c =? 43)%N &&
                  negb (Py.code c =? 120)%N && negb (Py.code c =? 88)%N &&
                  negb (Py.is_underscore c) &&
                  match Py.digit_value c with Some v => v <? 16 | None => false end))
                all_ascii = true) by (vm_compute; reflexivity).
  rewrite List.forallb_forall in H. specialize (H c (all_ascii_complete c)).
  rewrite Hc in H. cbn [implb] in H.
  repeat (apply andb_prop in H as [H ?]).
  repeat match goal with E : negb _ = true |- _ => apply negb_true_iff in E end.
  repeat split; try assumption.
  destruct (Py.digit_value c) as [v|]; [eauto | discriminate].
Qed.

Lemma upper_hex_facts (c : ascii) :
  Py.between 48 57 (Py.upper_char c) || Py.between 65 70 (Py.upper_char c) = true ->
  is_hex c = true /\ is_hex (Py.upper_char c) = true /\
  Py.digit_value c = Py.digit_value (Py.upper_char c).
Proof.
  intros Hc.
  assert (H : forallb (fun c => implb (Py.between 48 57 (Py.upper_char c) ||
                                       Py.between 65 70 (Py.upper_char c))
                 (is_hex c && is_hex (Py.upper_char c) &&
                  match Py.digit_value c, Py.digit_value (Py.upper_char c) with
                  | Some a, Some b => a =? b
                  | _, _ => false
                  end))
                all_ascii = true) by (vm_compute; reflexivity).
  rewrite List.forallb_forall in H. specialize (H c (all_ascii_complete c)).
  rewrite Hc in H. cbn [implb] in H.
  apply andb_prop in H as [H H3]. apply andb_prop in H as [H1 H2].
  repeat split; try assumption.
  destruct (Py.digit_value c) as [a|], (Py.digit_value (Py.upper_char c)) as [b|];
    try discriminate.
  apply Z.eqb_eq in H3. congruence.
Qed.

(** [int(s, 16)] of four hexadecimal digits *)
Lemma int16_four (c0 c1 c2 c3 : ascii) :
  is_hex c0 = true -> is_hex c1 = true -> is_hex c2 = true -> is_hex c3 = true ->
  Py.int16 (String c0 (String c1 (String c2 (String c3 "")))) =
    Some (16 * (16 * (16 * (16 * 0 + hex_value c0) + hex_value c1) + hex_value c2)
          + hex_value c3).
Proof.
  intros H0 H1 H2 H3.
  apply hex_char_facts in H0 as (S0 & M0 & P0 & _ & _ & U0 & v0 & D0 & L0).
  apply hex_char_facts in H1 as (S1 & _ & _ & X1 & Y1 & U1 & v1 & D1 & L1).
  apply hex_char_facts in H2 as (S2 & _ & _ & _ & _ & U2 & v2 & D2 & L2).
  apply hex_char_facts in H3 as (S3 & _ & _ & _ & _ & U3 & v3 & D3 & L3).
  unfold Py.int16, Py.int_base. rewrite strip_int_not_space
    by (cbn [Py.all_chars]; rewrite S0, S1, S2, S3; reflexivity).
  rewrite M0, P0. unfold Py.limited_literal. cbn [Z.eqb Pos.eqb orb].
  unfold Py.unsigned_literal. rewrite X1, Y1, andb_false_r.
  cbn [Py.digits]. unfold hex_value.
  rewrite U0, D0, L0, U1, D1, L1, U2, D2, L2, U3, D3, L3. reflexivity.
Qed.

Lemma In_z_range (n : nat) :
  forall start x, start <= x < start + Z.of_nat n -> In x (z_range start n).
Proof.
  induction n as [|n IH]; intros start x H; [lia|].
  cbn [z_range]. destruct (Z.eq_dec start x) as [->|Hne]; [left; reflexivity|].
  right. apply IH. lia.
Qed.

Lemma format_04X_port (port : Z) :
  0 <= port < 65536 ->
  exists h0 h1 h2 h3,
    Py.format_04X port = String h0 (String h1 (String h2 (String h3 ""))) /\
    Py.upper (Py.format_04X port) = Py.format_04X port /\
    forallb (fun h => Py.between 48 57 h || Py.between 65 70 h) [h0; h1; h2; h3] = true /\
    Py.int16 (Py.format_04X port) = Some port.
Proof.
  intros Hp.
  assert (H : forallb (fun k =>
                 let s := Py.format_04X k in
                 match s with
                 | String h0 (String h1 (String h2 (String h3 ""))) =>
                     String.eqb (Py.upper s) s &&
                     forallb (fun h => Py.between 48 57 h || Py.between 65 70 h)
                             [h0; h1; h2; h3] &&
                     match Py.int16 s with
                     | Some v => v =? k
                     | None => false
                     end
                 | _ => false
                 end) (z_range 0 (Z.to_nat 65536)) = true) by (vm_compute; reflexivity).
  rewrite List.forallb_forall in H.
  assert (Hin : In port (z_range 0 (Z.to_nat 65536))) by (apply In_z_range; lia).
  apply H in Hin. clear H. cbv zeta in Hin.
  destruct (Py.format_04X port) as [|h0 [|h1 [|h2 [|h3 [|h4 r]]]]]; try discriminate.
  apply andb_prop in Hin as [Hin H3]. apply andb_prop in Hin as [H1 H2].
  exists h0, h1, h2, h3. split; [reflexivity|].
  apply String.eqb_eq in H1. split; [exact H1|]. split; [exact H2|].
  destruct (Py.int16 _) as [v|]; [|discriminate]. apply Z.eqb_eq in H3. congruence.
Qed.

(** A port field that the resolver takes for [port] is read as [port]
    by the detector. *)
Lemma matching_port_field (port : Z) (port_hex : string) :
  0 <= port < 65536 ->
  Py.upper port_hex = Py.upper (Py.format_04X port) ->
  int16_of port_hex = Ok port.
Proof.
  intros Hp Hu.
  destruct (format_04X_port port Hp) as (h0 & h1 & h2 & h3 & Hf & Hup & Hh & Hint).
  rewrite Hup, Hf in Hu.
  destruct port_hex as [|c0 [|c1 [|c2 [|c3 [|c4 r]]]]]; try discriminate.
  cbn [Py.upper] in Hu. injection Hu as E0 E1 E2 E3.
  cbn [forallb] in Hh. repeat (apply andb_prop in Hh as [? Hh]).
  subst h0 h1 h2 h3.
  repeat match goal with
         | E : Py.between 48 57 (Py.upper_char _) || _ = true |- _ =>
             apply upper_hex_facts in E as (? & ? & ?)
         end.
  unfold int16_of. rewrite int16_four by assumption.
  rewrite Hf, int16_four in Hint by assumption.
  unfold hex_value in *.
  repeat match goal with E : Py.digit_value ?c = Py.digit_value (Py.upper_char ?c) |- _ =>
                           rewrite E; clear E end.
  rewrite Hint. reflexivity.
Qed.

(** X23.  On a row with an IPv4 address and one colon, the detector of the
    listening ports adds the very text the port resolver attaches to
    the owner it reports for that row: the same dotted address and the
    same port. *)
Theorem detector_agrees_with_resolver (port : Z) (inodes : gset string)
    (line local_addr inode addr_hex port_hex ip : string) (proc : ProcessInfo) :
  0 <= port < 65536 ->
  listen_row port line local_addr inode ->
  row_address local_addr ip ->
  Py.split_on ":" local_addr = [addr_hex; port_hex] ->
  String.length addr_hex = 8%nat ->
  inode ∈ inodes ->
  listening_line inodes line proc =
    Ok (set_listening_addresses
          (listening_addresses proc ++ [ip +:+ ":" +:+ Py.str port]) proc).
Proof.
  intros Hp (H1 & H3 & H9 & addr_port & Hap & Hu) (addr_ip & H0 & Hip) Hsplit Hlen Hin.
  rewrite Hsplit in Hap, H0. injection Hap as <-. injection H0 as <-.
  unfold listening_line, item.
  pose proof (lookup_lt_Some _ _ _ H9) as Hl.
  replace (length (Py.split line) <? 10)%nat with false
    by (symmetry; apply Nat.ltb_ge; lia).
  rewrite H1, H3, H9. cbn [or_raise]. rewrite !bind_ok.
  rewrite (bool_decide_eq_true_2 _ Hin). cbn [String.eqb Ascii.eqb Bool.eqb andb].
  destruct (Py.has_char ":" local_addr) eqn:Hc;
    [|rewrite (split_on_whole ":" _ Hc) in Hsplit; discriminate].
  rewrite Hsplit, (matching_port_field port port_hex Hp Hu), bind_ok.
  unfold listening_ip_str. unfold fallback_ip_str in Hip. rewrite Hlen in *.
  cbn [Nat.eqb] in *. rewrite Hip. reflexivity.
Qed.

Lemma detector_agrees_with_resolver_witness :
  listening_line {[ "12345" ]} tcp_listen_line (target 100 "nginx" 1) =
    Ok (set_listening_addresses
          (listening_addresses (target 100 "nginx" 1) ++ ["127.0.0.1" +:+ ":" +:+ Py.str 8080])
          (target 100 "nginx" 1)).
Proof.
  apply (detector_agrees_with_resolver 8080 {[ "12345" ]} tcp_listen_line
           "0100007F:1F90" "12345" "0100007F" "1F90" "127.0.0.1").
  - lia.
  - repeat split; try (vm_compute; reflexivity).
    exists "1F90". split; vm_compute; reflexivity.
  - exists "0100007F". split; vm_compute; reflexivity.
  - vm_compute. reflexivity.
  - reflexivity.
  - apply elem_of_singleton. reflexivity.
Defined.
